(** * Replay-upload test scripts: token issuance, upload runner, scenario selector

    A shallow embedding of the two command-line scripts
    [scripts/step1-local-api-local-sc2reader.py] and
    [scripts/test-upload-flow.py].

    The scripts are sequential programs whose whole behaviour is a dialogue
    with the outside: they read the clock, ask [lsof] whether a port is
    open, test and open a file, sign a token, send one HTTP POST and print.
    Each of these calls is an _event_; a run of a script function is the
    list of events it produced together with the way it ended (a returned
    value, a Python exception, or [sys.exit]).  The answers of the outside
    are given by a [World], which may answer differently every time it is
    asked (it sees the events so far). *)

From Stdlib Require Import String Ascii ZArith List Bool Lia DecimalString.
From Stdlib Require Import Floats.SpecFloat.
Import ListNotations.
Local Open Scope string_scope.
Local Open Scope list_scope.

(** ** Python strings

    A Python [str] is modelled by the Rocq [string] of its UTF-8 encoding:
    an element of the model string is a byte, and a character outside
    ASCII takes two to four of them, a first byte and continuation bytes
    [10xxxxxx].  Splitting, joining, replacing and searching at ASCII
    characters are the same on the bytes as on the characters.  The one
    place where the scripts count characters is the slice
    [response.text[:200]]; [len] and [slice_to] count characters, not
    bytes. *)

Module PyStr.

(** The double-quote character, which the scripts print around values. *)
Definition dq : string := String "034"%char EmptyString.

(** [str(n)] for an integer, as used by f-strings. *)
Definition str_of_Z (z : Z) : string := NilZero.string_of_int (Z.to_int z).

(** [s * n] *)
Fixpoint repeat_str (s : string) (n : nat) : string :=
  match n with
  | O => EmptyString
  | S n' => s ++ repeat_str s n'
  end.

(** [sep.join(l)] *)
Fixpoint join (sep : string) (l : list string) : string :=
  match l with
  | [] => EmptyString
  | [x] => x
  | x :: rest => x ++ sep ++ join sep rest
  end.

(** [s.split(c)] for a one-character separator: the pieces between the
    separators, always at least one piece. *)
Fixpoint split_on (c : ascii) (s : string) : list string :=
  match s with
  | EmptyString => [EmptyString]
  | String a rest =>
      if Ascii.eqb a c then EmptyString :: split_on c rest
      else match split_on c rest with
           | [] => [String a EmptyString]
           | piece :: pieces => String a piece :: pieces
           end
  end.

(** [os.path.basename(p)]: what follows the last slash. *)
Definition basename (p : string) : string :=
  last (split_on "/"%char p) EmptyString.

(** [s.replace(c1 c2, new)] for a two-character pattern: scanning from the
    left, every occurrence found is replaced and the scan resumes after
    it. *)
Fixpoint replace2 (c1 c2 : ascii) (new : string) (s : string) : string :=
  match s with
  | EmptyString => EmptyString
  | String a tl =>
      match tl with
      | String b rest =>
          if Ascii.eqb a c1 && Ascii.eqb b c2
          then new ++ replace2 c1 c2 new rest
          else String a (replace2 c1 c2 new tl)
      | EmptyString => String a EmptyString
      end
  end.

(** [sub in s] *)
Fixpoint contains (sub s : string) : bool :=
  String.prefix sub s ||
  match s with
  | EmptyString => false
  | String _ rest => contains sub rest
  end.

(** [s.endswith(suffix)] *)
Definition ends_with (suffix s : string) : bool :=
  let n := String.length s in
  let m := String.length suffix in
  (m <=? n)%nat && String.eqb (substring (n - m) m s) suffix.

(** A byte [10xxxxxx] continues the character that a byte before it began. *)
Definition is_continuation (c : ascii) : bool :=
  match c with
  | Ascii _ _ _ _ _ _ false true => true
  | _ => false
  end.

(** [len(s)]: the number of characters, one for each byte that begins
    one. *)
Fixpoint len (s : string) : nat :=
  match s with
  | EmptyString => O
  | String c rest => if is_continuation c then len rest else S (len rest)
  end.

(** [s[:n]]: the first [n] characters, each with all its bytes. *)
Fixpoint slice_to (n : nat) (s : string) : string :=
  match s with
  | EmptyString => EmptyString
  | String c rest =>
      if is_continuation c then String c (slice_to n rest)
      else match n with
           | O => EmptyString
           | S n' => String c (slice_to n' rest)
           end
  end.

(** [sorted(l)] on strings: insertion into an ordered list, with Python's
    ordering of strings (character by character). *)
Fixpoint insert_sorted (x : string) (l : list string) : list string :=
  match l with
  | [] => [x]
  | y :: rest => if String.leb x y then x :: l else y :: insert_sorted x rest
  end.

Definition sorted (l : list string) : list string :=
  fold_right insert_sorted [] l.

End PyStr.

(** ** Python values decoded from JSON

    What [response.json()] returns: [None], booleans, integers, floats,
    strings, lists and dictionaries with string keys (in insertion order). *)

Set Warnings "-register-all".

Inductive pyval : Type :=
| PNone
| PBool (b : bool)
| PInt (z : Z)
| PFloat (f : spec_float)
| PStr (s : string)
| PList (l : list pyval)
| PDict (d : list (string * pyval)).

(** ** Exceptions

    The exception classes the scripts can meet.  [requests]' [ConnectTimeout]
    derives from both [ConnectionError] and [Timeout]; [ReadTimeout] only
    from [Timeout].  Every class here derives from [Exception]. *)

Inductive exn : Type :=
| ConnectionError (msg : string)   (* refused, unreachable, reset, DNS *)
| ConnectTimeout (msg : string)
| ReadTimeout (msg : string)
| RequestFailure (msg : string)    (* any other exception out of requests.post *)
| JSONDecodeError (msg : string)   (* response.json() on a body that is not JSON *)
| KeyError (key : string)
| TypeError (msg : string)
| AttributeError (msg : string)
| ValueError (msg : string)
| OSError (msg : string).

Definition isinstance_ConnectionError (e : exn) : bool :=
  match e with
  | ConnectionError _ | ConnectTimeout _ => true
  | _ => false
  end.

Definition isinstance_Timeout (e : exn) : bool :=
  match e with
  | ConnectTimeout _ | ReadTimeout _ => true
  | _ => false
  end.

(** [str(e)]: the message; for a [KeyError] the [repr] of the key, which for
    the keys the scripts use is the key between single quotes. *)
Definition exn_str (e : exn) : string :=
  match e with
  | ConnectionError m | ConnectTimeout m | ReadTimeout m | RequestFailure m
  | JSONDecodeError m | TypeError m | AttributeError m | ValueError m
  | OSError m => m
  | KeyError k => "'" ++ k ++ "'"
  end.

Module Py.

(** [type(v).__name__] *)
Definition type_name (v : pyval) : string :=
  match v with
  | PNone => "NoneType"
  | PBool _ => "bool"
  | PInt _ => "int"
  | PFloat _ => "float"
  | PStr _ => "str"
  | PList _ => "list"
  | PDict _ => "dict"
  end.

(** [bool(v)] *)
Definition truthy (v : pyval) : bool :=
  match v with
  | PNone => false
  | PBool b => b
  | PInt z => negb (Z.eqb z 0)
  | PFloat f => match f with S754_zero _ => false | _ => true end
  | PStr s => negb (String.eqb s EmptyString)
  | PList l => match l with [] => false | _ => true end
  | PDict d => match d with [] => false | _ => true end
  end.

(** Lookup of a key in a dictionary. *)
Fixpoint lookup {V : Type} (k : string) (d : list (string * V)) : option V :=
  match d with
  | [] => None
  | (k', v) :: rest => if String.eqb k' k then Some v else lookup k rest
  end.

(** [d[k] = v] on a dictionary: an existing key keeps its place. *)
Fixpoint store {V : Type} (k : string) (v : V) (d : list (string * V))
  : list (string * V) :=
  match d with
  | [] => [(k, v)]
  | (k', v') :: rest =>
      if String.eqb k' k then (k', v) :: rest else (k', v') :: store k v rest
  end.

(** [v.get(k, default)]: only dictionaries have a [get]. *)
Definition get_or (v : pyval) (k : string) (default : pyval) : exn + pyval :=
  match v with
  | PDict d => inr (match lookup k d with Some x => x | None => default end)
  | _ => inl (AttributeError
                ("'" ++ type_name v ++ "' object has no attribute 'get'"))
  end.

(** [v.get(k)] *)
Definition get (v : pyval) (k : string) : exn + pyval := get_or v k PNone.

(** [v[k]] for a string key [k] (messages of CPython 3.11 and later). *)
Definition getitem (v : pyval) (k : string) : exn + pyval :=
  match v with
  | PDict d => match lookup k d with
               | Some x => inr x
               | None => inl (KeyError k)
               end
  | PList _ => inl (TypeError "list indices must be integers or slices, not str")
  | PStr _ => inl (TypeError "string indices must be integers, not 'str'")
  | _ => inl (TypeError ("'" ++ type_name v ++ "' object is not subscriptable"))
  end.

(** Truth value of an optional string ([None] and the empty string are
    false), as tested by [if not SECRET]. *)
Definition truthy_opt (o : option string) : bool :=
  match o with
  | Some s => negb (String.eqb s EmptyString)
  | None => false
  end.

(** An optional string inside an f-string. *)
Definition fmt_opt (o : option string) : string :=
  match o with
  | Some s => s
  | None => "None"
  end.

End Py.

(** ** Tokens

    [datetime] values are microseconds since the epoch (the clock has
    microsecond resolution); [timedelta(hours=1)] is a number of
    microseconds.  [jwt.encode] replaces a [datetime] under [iat] or [exp]
    by [timegm(d.utctimetuple())], the whole seconds since the epoch, and
    signs the claims with the key.  The signed compact token is kept as
    what it carries: the algorithm, the claims and the key it was signed
    with; decoding gives the claims back. *)

Definition datetime : Type := Z.

Definition timedelta_hours (h : Z) : Z := (h * 3600 * 1000000)%Z.

Record Payload : Type := {
  p_userId : string;
  p_type : string;
  p_roles : list string;
  p_iat : datetime;
  p_exp : datetime
}.

Record Claims : Type := {
  userId : string;
  type_ : string;
  roles : list string;
  iat : Z;
  exp : Z
}.

Record Token : Type := {
  tok_alg : string;
  tok_claims : Claims;
  tok_key : string
}.

Definition timegm_utctimetuple (d : datetime) : Z := (d / 1000000)%Z.

Definition jwt_encode (payload : Payload) (key : string) (algorithm : string)
  : Token :=
  {| tok_alg := algorithm;
     tok_claims := {| userId := p_userId payload;
                      type_ := p_type payload;
                      roles := p_roles payload;
                      iat := timegm_utctimetuple (p_iat payload);
                      exp := timegm_utctimetuple (p_exp payload) |};
     tok_key := key |}.

Definition jwt_decode (t : Token) : Claims := tok_claims t.

(** ** HTTP *)

(** The one request the scripts send: a multipart POST with the opened file
    under the field [file] and the header [Authorization: Bearer <token>]. *)
Record Request : Type := {
  req_url : string;
  req_file_name : string;      (* files['file'][0] *)
  req_file_path : string;      (* the file opened for files['file'][1] *)
  req_file_type : string;      (* files['file'][2] *)
  req_bearer : Token;
  req_timeout : Z
}.

(** A response: [json] is what [response.json()] gives, [inl msg] when the
    body is not JSON and the call raises. *)
Record Response : Type := {
  status_code : Z;
  text : string;
  json : string + pyval
}.

Inductive post_answer : Type :=
| Responded (r : Response)
| PostRaised (e : exn).

Inductive open_answer : Type :=
| Opened
| OpenFailed (msg : string).

(** ** Events, worlds and runs *)

Inductive event : Type :=
| EvPrint (line : string)                       (* print(line) *)
| EvUtcnow (now : datetime)                     (* datetime.utcnow() *)
| EvLsof (port : string) (rc : option Z)        (* subprocess.run(['lsof', '-ti', ':port']) *)
| EvExists (path : string) (found : bool)       (* os.path.exists(path) *)
| EvOpen (path : string) (a : open_answer)      (* open(path, 'rb') *)
| EvJwtEncode (tok : Token)                     (* jwt.encode(...) *)
| EvPost (req : Request) (a : post_answer).     (* requests.post(...) *)

(** The outside.  Every answer may depend on the events so far.  For
    [lsof], [Some rc] is the return code of the process and [None] means
    that [subprocess.run] itself raised.  [w_repr] is the interpreter's
    [repr] on floats and containers. *)
Record World : Type := {
  w_utcnow : list event -> datetime;
  w_lsof : list event -> string -> option Z;
  w_exists : list event -> string -> bool;
  w_open : list event -> string -> open_answer;
  w_post : list event -> Request -> post_answer;
  w_repr : pyval -> string
}.

(** How a computation ends. *)
Inductive outcome (A : Type) : Type :=
| Val (a : A)              (* it returns a *)
| Raised (e : exn)         (* an exception propagates out of it *)
| Exited (code : Z).       (* sys.exit(code) *)

Arguments Val {A} a.
Arguments Raised {A} e.
Arguments Exited {A} code.

(** A computation: from the events so far to its outcome and the events it
    adds. *)
Definition M (A : Type) : Type := list event -> outcome A * list event.

Definition ret {A : Type} (a : A) : M A := fun _ => (Val a, []).

Definition bind {A B : Type} (m : M A) (f : A -> M B) : M B :=
  fun h =>
    match m h with
    | (Val a, e1) => let (r, e2) := f a (h ++ e1) in (r, e1 ++ e2)
    | (Raised x, e1) => (Raised x, e1)
    | (Exited c, e1) => (Exited c, e1)
    end.

Definition raise {A : Type} (x : exn) : M A := fun _ => (Raised x, []).

Definition sys_exit {A : Type} (code : Z) : M A := fun _ => (Exited code, []).

(** [try: m except <any Exception> as e: handler e].  [sys.exit] is not an
    [Exception] and passes through. *)
Definition try_except {A : Type} (m : M A) (handler : exn -> M A) : M A :=
  fun h =>
    match m h with
    | (Raised x, e1) => let (r, e2) := handler x (h ++ e1) in (r, e1 ++ e2)
    | other => other
    end.

(** A pure step that may raise. *)
Definition lift {A : Type} (r : exn + A) : M A :=
  match r with
  | inl x => raise x
  | inr a => ret a
  end.

Declare Scope py_scope.
Delimit Scope py_scope with py.
Notation "x <- m ;; k" := (bind m (fun x => k))
  (at level 61, m at next level, right associativity) : py_scope.
Notation "m ;; k" := (bind m (fun _ => k))
  (at level 61, right associativity) : py_scope.
Local Open Scope py_scope.

Definition print (line : string) : M unit := fun _ => (Val tt, [EvPrint line]).

Definition emit (e : event) : M unit := fun _ => (Val tt, [e]).

(** The printed lines of a run, the tokens it signed and the requests it
    sent. *)
Definition printed (evs : list event) : list string :=
  flat_map (fun e => match e with EvPrint l => [l] | _ => [] end) evs.

Definition signed (evs : list event) : list Token :=
  flat_map (fun e => match e with EvJwtEncode t => [t] | _ => [] end) evs.

Definition posted (evs : list event) : list Request :=
  flat_map (fun e => match e with EvPost r _ => [r] | _ => [] end) evs.

Definition lsof_ports (evs : list event) : list string :=
  flat_map (fun e => match e with EvLsof p _ => [p] | _ => [] end) evs.

(** The process as started: its environment (after [load_dotenv] has added
    the variables of [.env.local]), the home directory that
    [os.path.expanduser] puts for the tilde, and [sys.argv]. *)
Record Process : Type := {
  environ : list (string * string);
  home : string;
  argv : list string
}.

Definition getenv (p : Process) (name : string) : option string :=
  Py.lookup name (environ p).

Definition getenv_or (p : Process) (name default : string) : string :=
  match getenv p name with
  | Some v => v
  | None => default
  end.

Section Primitives.

Variable w : World.

Definition utcnow : M datetime :=
  fun h => let t := w_utcnow w h in (Val t, [EvUtcnow t]).

Definition subprocess_run_lsof (port : string) : M Z :=
  fun h =>
    match w_lsof w h port with
    | Some rc => (Val rc, [EvLsof port (Some rc)])
    | None => (Raised (OSError "lsof"), [EvLsof port None])
    end.

Definition path_exists (path : string) : M bool :=
  fun h => let b := w_exists w h path in (Val b, [EvExists path b]).

Definition open_rb (path : string) : M unit :=
  fun h =>
    match w_open w h path with
    | Opened => (Val tt, [EvOpen path Opened])
    | OpenFailed msg => (Raised (OSError msg), [EvOpen path (OpenFailed msg)])
    end.

Definition requests_post (req : Request) : M Response :=
  fun h =>
    match w_post w h req with
    | Responded r => (Val r, [EvPost req (Responded r)])
    | PostRaised e => (Raised e, [EvPost req (PostRaised e)])
    end.

Definition jwt_encode_call (payload : Payload) (key : option string)
  (algorithm : string) : M Token :=
  match key with
  | Some k =>
      let t := jwt_encode payload k algorithm in
      emit (EvJwtEncode t) ;; ret t
  | None => raise (TypeError "Expected a string value")
  end.

Definition response_json (r : Response) : M pyval :=
  match json r with
  | inl msg => raise (JSONDecodeError msg)
  | inr v => ret v
  end.

(** [str(v)], what an f-string puts for [{v}]. *)
Definition py_str (v : pyval) : string :=
  match v with
  | PNone => "None"
  | PBool true => "True"
  | PBool false => "False"
  | PInt z => PyStr.str_of_Z z
  | PStr s => s
  | _ => w_repr w v
  end.

End Primitives.

(** ** First script: [step1-local-api-local-sc2reader.py] *)

Module Step1.

Section Script.

Variable w : World.
Variable p : Process.

(** Configuration from the environment (lines 22-25). *)
Definition LOCAL_JWT_SECRET : option string := getenv p "AUTH_SECRET".
Definition SC2READER_API_KEY : option string := getenv p "SC2READER_API_KEY".
Definition USER_ID : string := getenv_or p "TEST_USER_ID" "161384451518103552".
Definition ROLE_ID : string := getenv_or p "TEST_ROLE_ID" "1386739785283928124".

Definition NEXT_API_URL : string := "http://localhost:3000".
Definition SC2READER_API_URL : string := "http://localhost:8000".

Definition DEFAULT_REPLAY : string :=
  home p ++ "/Library/Application Support/Blizzard/StarCraft II/Accounts/766657/"
         ++ "1-S2-1-802768/Replays/Multiplayer/Tokamak LE (31).SC2Replay".

(** Lines 44-54.  The two values of the payload are evaluated in order:
    the clock is read for [iat], and read again for [exp]. *)
Definition generate_token : M Token :=
  iat_now <- utcnow w ;;
  exp_now <- utcnow w ;;
  let payload := {| p_userId := USER_ID;
                    p_type := "uploader";
                    p_roles := [ROLE_ID];
                    p_iat := iat_now;
                    p_exp := (exp_now + timedelta_hours 1)%Z |} in
  jwt_encode_call payload LOCAL_JWT_SECRET "HS256".

(** Lines 89-94: the fingerprint, when the record has one. *)
Definition print_fingerprint (data : pyval) : M unit :=
  replay <- lift (Py.getitem data "replay") ;;
  fingerprint <- lift (Py.get replay "fingerprint") ;;
  if Py.truthy fingerprint then
    replay' <- lift (Py.getitem data "replay") ;;
    fp <- lift (Py.getitem replay' "fingerprint") ;;
    matchup <- lift (Py.get fp "matchup") ;;
    print ("   Matchup: " ++ py_str w matchup) ;;
    race <- lift (Py.get fp "race") ;;
    print ("   Race: " ++ py_str w race) ;;
    player_name <- lift (Py.get fp "player_name") ;;
    print ("   Player: " ++ py_str w player_name) ;;
    metadata <- lift (Py.get_or fp "metadata" (PDict [])) ;;
    map_name <- lift (Py.get metadata "map") ;;
    print ("   Map: " ++ py_str w map_name)
  else ret tt.

(** Lines 82-105: what is done with the response, inside the [try]. *)
Definition interpret_response (response : Response) : M bool :=
  print ("Status: " ++ PyStr.str_of_Z (status_code response)) ;;
  if (status_code response =? 200)%Z then
    data <- response_json response ;;
    success <- lift (Py.get data "success") ;;
    if Py.truthy success then
      print "✅ SUCCESS! Replay uploaded and analyzed" ;;
      replay <- lift (Py.getitem data "replay") ;;
      replay_id <- lift (Py.getitem replay "id") ;;
      print ("   Replay ID: " ++ py_str w replay_id) ;;
      print_fingerprint data ;;
      ret true
    else
      print ("❌ FAILED: " ++ py_str w data) ;;
      ret false
  else
    print ("❌ FAILED: HTTP " ++ PyStr.str_of_Z (status_code response)) ;;
    try_except
      (error <- response_json response ;;
       print ("   Error: " ++ py_str w error))
      (fun _ => print ("   Response: " ++ PyStr.slice_to 200 (text response))) ;;
    ret false.

(** Lines 107-114: the two [except] clauses, tried in order. *)
Definition on_exception (e : exn) : M bool :=
  if isinstance_ConnectionError e then
    print ("❌ Connection Error: Could not connect to " ++ NEXT_API_URL) ;;
    print "   Make sure Next.js dev server is running with:" ;;
    print ("   SC2READER_API_URL='" ++ SC2READER_API_URL
           ++ "' SC2READER_API_KEY='" ++ Py.fmt_opt SC2READER_API_KEY
           ++ "' npm run dev") ;;
    ret false
  else
    print ("❌ Error: " ++ exn_str e) ;;
    ret false.

(** Lines 56-114. *)
Definition upload_replay (replay_path : string) : M bool :=
  token <- generate_token ;;
  print "🔑 Generated local JWT token" ;;
  print ("📤 Testing upload to " ++ NEXT_API_URL ++ "/api/my-replays") ;;
  print ("📊 Using sc2reader at " ++ SC2READER_API_URL) ;;
  print ("📁 File: " ++ replay_path) ;;
  print EmptyString ;;
  found <- path_exists w replay_path ;;
  if negb found then
    print ("❌ Error: Replay file not found: " ++ replay_path) ;;
    ret false
  else
    open_rb w replay_path ;;
    let request := {| req_url := NEXT_API_URL ++ "/api/my-replays";
                      req_file_name := PyStr.basename replay_path;
                      req_file_path := replay_path;
                      req_file_type := "application/octet-stream";
                      req_bearer := token;
                      req_timeout := 60 |} in
    try_except
      (response <- requests_post w request ;;
       interpret_response response)
      on_exception.

(** The script from its first line: the checks of the secrets (lines 27-33)
    and the main block (lines 116-125). *)
Definition script : M unit :=
  if negb (Py.truthy_opt LOCAL_JWT_SECRET) then
    print "❌ Error: AUTH_SECRET not found in .env.local" ;;
    sys_exit 1
  else if negb (Py.truthy_opt SC2READER_API_KEY) then
    print "❌ Error: SC2READER_API_KEY not found in .env.local" ;;
    sys_exit 1
  else
    print (PyStr.repeat_str "=" 60) ;;
    print "STEP 1: Local Next.js API → Local sc2reader" ;;
    print (PyStr.repeat_str "=" 60) ;;
    print EmptyString ;;
    let replay_path :=
      if (1 <? List.length (argv p))%nat then nth 1 (argv p) EmptyString
      else DEFAULT_REPLAY in
    success <- upload_replay replay_path ;;
    sys_exit (if success then 0 else 1)%Z.

End Script.

End Step1.

(** ** Second script: [test-upload-flow.py] *)

Module UploadFlow.

(** A scenario descriptor, one value of the dictionary [TESTS]. *)
Record Scenario : Type := {
  name : string;
  api_url : string;
  sc2reader_url : string;
  requires : list string
}.

Definition LOCAL_NEXT_API : string := "http://localhost:3000".
Definition PROD_NEXT_API : string := "https://www.ladderlegendsacademy.com".
Definition LOCAL_SC2READER : string := "http://localhost:8000".
Definition PROD_SC2READER : string := "https://sc2-replay-analyzer-gold.vercel.app/".

(** Lines 48-67. *)
Definition TESTS : list (string * Scenario) :=
  [ ("1", {| name := "Step 1: Local API → Local sc2reader";
             api_url := LOCAL_NEXT_API;
             sc2reader_url := LOCAL_SC2READER;
             requires := ["next:3000"; "sc2reader:8000"] |});
    ("2", {| name := "Step 2: Local API → Production sc2reader";
             api_url := LOCAL_NEXT_API;
             sc2reader_url := PROD_SC2READER;
             requires := ["next:3000"] |});
    ("3", {| name := "Step 3: Production API → Production sc2reader";
             api_url := PROD_NEXT_API;
             sc2reader_url := PROD_SC2READER;
             requires := [] |}) ].

(** [service, port = req.split(':')] *)
Definition unpack2 (pieces : list string) : exn + (string * string) :=
  match pieces with
  | [a; b] => inr (a, b)
  | [] => inl (ValueError "not enough values to unpack (expected 2, got 0)")
  | [_] => inl (ValueError "not enough values to unpack (expected 2, got 1)")
  | _ => inl (ValueError "too many values to unpack (expected 2)")
  end.

Section Script.

Variable w : World.
Variable p : Process.

(** Secrets from the environment (lines 36-39). *)
Definition AUTH_SECRET : option string := getenv p "AUTH_SECRET".
Definition SC2READER_API_KEY : option string := getenv p "SC2READER_API_KEY".
Definition USER_ID : string := getenv_or p "TEST_USER_ID" "161384451518103552".
Definition ROLE_ID : string := getenv_or p "TEST_ROLE_ID" "1386739785283928124".

Definition DEFAULT_REPLAY : string :=
  home p ++ "/Library/Application Support/Blizzard/StarCraft II/Accounts/766657/"
         ++ "1-S2-1-802768/Replays/Multiplayer/Tokamak LE (31).SC2Replay".

(** Lines 69-79. *)
Definition check_process_running (port : string) : M bool :=
  try_except
    (returncode <- subprocess_run_lsof w port ;;
     ret (returncode =? 0)%Z)
    (fun _ => ret false).

(** Lines 83-87: the loop that collects the markers whose port is closed. *)
Fixpoint find_missing (reqs : list string) (missing : list string)
  : M (list string) :=
  match reqs with
  | [] => ret missing
  | req :: rest =>
      sp <- lift (unpack2 (PyStr.split_on ":"%char req)) ;;
      running <- check_process_running (snd sp) ;;
      find_missing rest (if negb running then missing ++ [req] else missing)
  end.

(** Lines 92-103: the loop that prints how to start each missing service. *)
Fixpoint print_start_commands (cfg : Scenario) (missing : list string)
  : M unit :=
  match missing with
  | [] => ret tt
  | req :: rest =>
      sp <- lift (unpack2 (PyStr.split_on ":"%char req)) ;;
      (if String.eqb (fst sp) "next" then
         print "  Start Next.js with:" ;;
         print ("    env SC2READER_API_URL=" ++ PyStr.dq ++ sc2reader_url cfg
                ++ PyStr.dq ++ " \") ;;
         print ("        SC2READER_API_KEY=" ++ PyStr.dq
                ++ Py.fmt_opt SC2READER_API_KEY ++ PyStr.dq ++ " \") ;;
         print "        npm run dev"
       else if String.eqb (fst sp) "sc2reader" then
         print "  Start sc2reader with:" ;;
         print "    cd /Users/chadfurman/projects/sc2reader && \" ;;
         print "    source venv/bin/activate && \" ;;
         print "    python -m uvicorn api.index:app --reload --port 8000"
       else ret tt) ;;
      print_start_commands cfg rest
  end.

(** Lines 81-106. *)
Definition check_requirements (test_config : Scenario) : M bool :=
  missing <- find_missing (requires test_config) [] ;;
  match missing with
  | _ :: _ =>
      print ("❌ Missing required services: " ++ PyStr.join ", " missing) ;;
      print EmptyString ;;
      print_start_commands test_config missing ;;
      print EmptyString ;;
      ret false
  | [] => ret true
  end.

(** Lines 108-124.  The secret is tested here, when a token is asked for;
    the clock is read for [iat], and read again for [exp]. *)
Definition generate_token : M Token :=
  if negb (Py.truthy_opt AUTH_SECRET) then
    print "❌ Error: AUTH_SECRET not found in .env.local" ;;
    sys_exit 1
  else
    let auth_secret :=
      option_map (PyStr.replace2 "\"%char "$"%char "$") AUTH_SECRET in
    iat_now <- utcnow w ;;
    exp_now <- utcnow w ;;
    let payload := {| p_userId := USER_ID;
                      p_type := "uploader";
                      p_roles := [ROLE_ID];
                      p_iat := iat_now;
                      p_exp := (exp_now + timedelta_hours 1)%Z |} in
    jwt_encode_call payload auth_secret "HS256".

(** Lines 166-171: the fingerprint, when the record has one. *)
Definition print_fingerprint (data : pyval) : M unit :=
  replay <- lift (Py.getitem data "replay") ;;
  fingerprint <- lift (Py.get replay "fingerprint") ;;
  if Py.truthy fingerprint then
    replay' <- lift (Py.getitem data "replay") ;;
    fp <- lift (Py.getitem replay' "fingerprint") ;;
    matchup <- lift (Py.get fp "matchup") ;;
    print ("   Matchup: " ++ py_str w matchup) ;;
    race <- lift (Py.get fp "race") ;;
    print ("   Race: " ++ py_str w race) ;;
    player_name <- lift (Py.get fp "player_name") ;;
    print ("   Player: " ++ py_str w player_name) ;;
    metadata <- lift (Py.get_or fp "metadata" (PDict [])) ;;
    map_name <- lift (Py.get metadata "map") ;;
    print ("   Map: " ++ py_str w map_name)
  else ret tt.

(** Lines 159-186: what is done with the response, inside the [try]. *)
Definition interpret_response (response : Response) : M bool :=
  print ("📊 Status: " ++ PyStr.str_of_Z (status_code response)) ;;
  if (status_code response =? 200)%Z then
    data <- response_json response ;;
    success <- lift (Py.get data "success") ;;
    if Py.truthy success then
      print "✅ SUCCESS! Replay uploaded and analyzed" ;;
      replay <- lift (Py.getitem data "replay") ;;
      replay_id <- lift (Py.getitem replay "id") ;;
      print ("   Replay ID: " ++ py_str w replay_id) ;;
      print_fingerprint data ;;
      print EmptyString ;;
      ret true
    else
      print ("❌ FAILED: " ++ py_str w data) ;;
      print EmptyString ;;
      ret false
  else
    print ("❌ FAILED: HTTP " ++ PyStr.str_of_Z (status_code response)) ;;
    try_except
      (error <- response_json response ;;
       print ("   Error: " ++ py_str w error))
      (fun _ => print ("   Response: " ++ PyStr.slice_to 200 (text response))) ;;
    print EmptyString ;;
    ret false.

(** Lines 188-200: the three [except] clauses, tried in order. *)
Definition on_exception (test_config : Scenario) (e : exn) : M bool :=
  if isinstance_Timeout e then
    print "❌ FAILED: Request timed out after 60s" ;;
    print EmptyString ;;
    ret false
  else if isinstance_ConnectionError e then
    print ("❌ FAILED: Could not connect to " ++ api_url test_config) ;;
    print "   Make sure the API server is running" ;;
    print EmptyString ;;
    ret false
  else
    print ("❌ FAILED: " ++ exn_str e) ;;
    print EmptyString ;;
    ret false.

(** Lines 126-200. *)
Definition test_upload (test_config : Scenario) (replay_path : string)
  : M bool :=
  print (PyStr.repeat_str "=" 60) ;;
  print (name test_config) ;;
  print (PyStr.repeat_str "=" 60) ;;
  print ("📤 API: " ++ api_url test_config) ;;
  print ("🔧 sc2reader: " ++ sc2reader_url test_config) ;;
  print ("📁 File: " ++ replay_path) ;;
  print EmptyString ;;
  ready <- check_requirements test_config ;;
  if negb ready then ret false
  else
    found <- path_exists w replay_path ;;
    if negb found then
      print ("❌ Error: Replay file not found: " ++ replay_path) ;;
      ret false
    else
      token <- generate_token ;;
      print "🔑 Generated JWT token" ;;
      open_rb w replay_path ;;
      let request := {| req_url := api_url test_config ++ "/api/my-replays";
                        req_file_name := PyStr.basename replay_path;
                        req_file_path := replay_path;
                        req_file_type := "application/octet-stream";
                        req_bearer := token;
                        req_timeout := 60 |} in
      try_except
        (print "🚀 Uploading..." ;;
         response <- requests_post w request ;;
         interpret_response response)
        (on_exception test_config).

(** Lines 208-209: the list of steps in the usage text. *)
Fixpoint print_steps (tests : list (string * Scenario)) : M unit :=
  match tests with
  | [] => ret tt
  | (key, config) :: rest =>
      print ("  " ++ key ++ ": " ++ name config) ;;
      print_steps rest
  end.

(** Lines 217-218: the loop over the sorted keys, filling [results]. *)
Fixpoint run_all (keys : list string) (replay_path : string)
  (results : list (string * bool)) : M (list (string * bool)) :=
  match keys with
  | [] => ret results
  | key :: rest =>
      config <- lift (match Py.lookup key TESTS with
                      | Some c => inr c
                      | None => inl (KeyError key)
                      end) ;;
      passed <- test_upload config replay_path ;;
      run_all rest replay_path (Py.store key passed results)
  end.

(** Lines 223-225: one summary line for each collected result. *)
Fixpoint print_summary (results : list (string * bool)) : M unit :=
  match results with
  | [] => ret tt
  | (key, passed) :: rest =>
      config <- lift (match Py.lookup key TESTS with
                      | Some c => inr c
                      | None => inl (KeyError key)
                      end) ;;
      print (name config ++ ": " ++ (if passed then "✅ PASS" else "❌ FAIL")) ;;
      print_summary rest
  end.

(** Lines 202-237. *)
Definition main : M unit :=
  if (List.length (argv p) <? 2)%nat then
    print "Usage: python scripts/test-upload-flow.py <step>" ;;
    print "  step: 1, 2, 3, or 'all'" ;;
    print EmptyString ;;
    print "Steps:" ;;
    print_steps TESTS ;;
    sys_exit 1
  else
    let step := nth 1 (argv p) EmptyString in
    let replay_path :=
      if (2 <? List.length (argv p))%nat then nth 2 (argv p) EmptyString
      else DEFAULT_REPLAY in
    if String.eqb step "all" then
      results <- run_all (PyStr.sorted (map fst TESTS)) replay_path [] ;;
      print (PyStr.repeat_str "=" 60) ;;
      print "SUMMARY" ;;
      print (PyStr.repeat_str "=" 60) ;;
      print_summary results ;;
      print (PyStr.repeat_str "=" 60) ;;
      sys_exit (if forallb (fun b : bool => b) (map snd results) then 0 else 1)%Z
    else
      match Py.lookup step TESTS with
      | Some config =>
          success <- test_upload config replay_path ;;
          sys_exit (if success then 0 else 1)%Z
      | None =>
          print ("❌ Invalid step: " ++ step) ;;
          print "   Valid steps: 1, 2, 3, all" ;;
          sys_exit 1
      end.

(** The script from its first line: nothing is checked when the module is
    loaded; [main] is called (lines 239-240). *)
Definition script : M unit := main.

End Script.

End UploadFlow.

(** ** Vocabulary of the statements *)

(** Printing: all that interpreting a response or handling an exception
    does. *)
Definition is_print (e : event) : Prop :=
  match e with
  | EvPrint _ => True
  | _ => False
  end.

(** Printing and asking [lsof]: what the check of the requirements does. *)
Definition is_check (e : event) : Prop :=
  match e with
  | EvPrint _ | EvLsof _ _ => True
  | _ => False
  end.

(** A computation is confined to [P] when every event it adds satisfies [P]
    and it never ends the process. *)
Definition confined {A : Type} (P : event -> Prop) (m : M A) : Prop :=
  forall h r e, m h = (r, e) -> Forall P e /\ (forall c, r <> Exited c).

(** The runs of the upload runner, in either script: the outcome and the
    events of a call, started after any events, in any process. *)
Inductive upload_run (w : World) : outcome bool -> list event -> Prop :=
| run_upload_replay p replay_path h r evs :
    Step1.upload_replay w p replay_path h = (r, evs) ->
    upload_run w r evs
| run_test_upload p test_config replay_path h r evs :
    UploadFlow.test_upload w p test_config replay_path h = (r, evs) ->
    upload_run w r evs.

(** The value of a field of a record, [None] when it is absent: what
    [d.get(k)] gives. *)
Definition field (d : list (string * pyval)) (k : string) : pyval :=
  match Py.lookup k d with
  | Some v => v
  | None => PNone
  end.

(** The map name of a fingerprint: the field [map] of its [metadata];
    [None] when it has no metadata. *)
Definition map_field (fp : list (string * pyval)) : pyval :=
  match Py.lookup "metadata" fp with
  | Some (PDict md) => field md "map"
  | _ => PNone
  end.

(** The metadata of a fingerprint, when present, is a record. *)
Definition metadata_is_record (fp : list (string * pyval)) : Prop :=
  match Py.lookup "metadata" fp with
  | None | Some (PDict _) => True
  | Some _ => False
  end.

(** The identifier of the uploaded record in a response body: the [id] of
    its record [replay], when it has both. *)
Definition replay_id (body : list (string * pyval)) : option pyval :=
  match Py.lookup "replay" body with
  | Some (PDict replay) => Py.lookup "id" replay
  | _ => None
  end.

(** The errors of a failed lookup [v[k]]. *)
Definition is_lookup_error (e : exn) : Prop :=
  match e with
  | KeyError _ | TypeError _ => True
  | _ => False
  end.

(** The scenario of [TESTS] under a key. *)
Definition scenario (key : string) : UploadFlow.Scenario :=
  match Py.lookup key UploadFlow.TESTS with
  | Some config => config
  | None => {| UploadFlow.name := EmptyString;
               UploadFlow.api_url := EmptyString;
               UploadFlow.sc2reader_url := EmptyString;
               UploadFlow.requires := [] |}
  end.

(** The port of a marker [service:port]. *)
Definition port_of (marker : string) : string :=
  nth 1 (PyStr.split_on ":"%char marker) EmptyString.

(** [lsof] found a listener: it ran and returned 0. *)
Definition listening (rc : option Z) : bool :=
  match rc with
  | Some rc => (rc =? 0)%Z
  | None => false
  end.




(** A printed line names a command that starts one of the two local
    services. *)
Definition names_start_command (line : string) : bool :=
  PyStr.contains "npm run dev" line || PyStr.contains "uvicorn" line.

(** A run explains a refused connection: it returned [False], a printed
    line has the base URL, and a printed line names a command that starts
    a local service. *)
Definition explains_refusal (base_url : string) (r : outcome bool)
  (evs : list event) : Prop :=
  r = Val false /\
  existsb (PyStr.contains base_url) (printed evs) = true /\
  existsb names_start_command (printed evs) = true.

(** A script stops when one of the named variables is missing: whatever the
    world and the arguments, it ends with exit code 1, has printed
    something, has signed no token and has sent no request. *)
Definition stops_when_missing (names : list string)
  (script : World -> Process -> M unit) : Prop :=
  forall w p,
    (exists n, In n names /\ Py.truthy_opt (getenv p n) = false) ->
    fst (script w p []) = Exited 1%Z /\
    printed (snd (script w p [])) <> [] /\
    signed (snd (script w p [])) = [] /\
    posted (snd (script w p [])) = [].

(** What the second script does to the secret before signing. *)
Definition unescape_dollar (secret : string) : string :=
  PyStr.replace2 "\"%char "$"%char "$" secret.

(** The summary of a run of all scenarios that returned [b1], [b2] and
    [b3]: a frame, and one line for each result. *)
Definition summary_lines (b1 b2 b3 : bool) : list string :=
  let mark (b : bool) := if b then "✅ PASS" else "❌ FAIL" in
  [ PyStr.repeat_str "=" 60;
    "SUMMARY";
    PyStr.repeat_str "=" 60;
    UploadFlow.name (scenario "1") ++ ": " ++ mark b1;
    UploadFlow.name (scenario "2") ++ ": " ++ mark b2;
    UploadFlow.name (scenario "3") ++ ": " ++ mark b3;
    PyStr.repeat_str "=" 60 ]%string.

(** A line is among the printed lines. *)
Definition prints (line : string) (evs : list event) : bool :=
  existsb (String.eqb line) (printed evs).

(** ** Sample processes and worlds *)

(** Status 500 with a body that is not JSON. *)
Definition sample_error_page : Response :=
  {| status_code := 500;
     text := "<html>Internal Server Error</html>";
     json := inl "Expecting value: line 1 column 1 (char 0)" |}.

(** Status 502 with a body that is not JSON: 250 characters outside
    ASCII, of two bytes each. *)
Definition sample_gateway_page : Response :=
  {| status_code := 502;
     text := PyStr.repeat_str "é" 250;
     json := inl "Expecting value: line 1 column 1 (char 0)" |}.

(** Status 200 with a JSON body of the given fields. *)
Definition sample_ok (body : list (string * pyval)) : Response :=
  {| status_code := 200;
     text := "{...}";
     json := inr (PDict body) |}.

(** A process with both secrets set, started with the given arguments. *)
Definition sample_process (args : list string) : Process :=
  {| environ := [("AUTH_SECRET", "s3cr\$t"); ("SC2READER_API_KEY", "k3y")];
     home := "/Users/tester";
     argv := args |}.

(** A world in which every port listens, every file exists and opens, the
    clock stands at the start of 2025, and every request gets the given
    answer. *)
Definition sample_world (answer : post_answer) : World :=
  {| w_utcnow := fun _ => 1735689600000000%Z;
     w_lsof := fun _ _ => Some 0%Z;
     w_exists := fun _ _ => true;
     w_open := fun _ _ => Opened;
     w_post := fun _ _ => answer;
     w_repr := fun _ => "<object>" |}.

(** A world like [sample_world], with a clock that gives [first] when it is
    read for the first time and [later] afterwards. *)
Definition ticking_world (first later : datetime) : World :=
  {| w_utcnow := fun h =>
       if existsb (fun e => match e with EvUtcnow _ => true | _ => false end) h
       then later else first;
     w_lsof := fun _ _ => Some 0%Z;
     w_exists := fun _ _ => true;
     w_open := fun _ _ => Opened;
     w_post := fun _ _ => Responded sample_error_page;
     w_repr := fun _ => "<object>" |}.

(** ** Vocabulary of the further properties *)

(** A marker splits at its colons into exactly a service and a port. *)
Definition marker_ok (marker : string) : bool :=
  match PyStr.split_on ":"%char marker with
  | [_; _] => true
  | _ => false
  end.

(** Every answer of [lsof] in the events found a listener. *)
Definition all_listening (evs : list event) : bool :=
  forallb (fun e => match e with
                    | EvLsof _ rc => listening rc
                    | _ => true
                    end) evs.

(** The exception that reading a response body as a record with a
    [success] field raises: [response.json()] on a body that is not JSON,
    [data.get] on a value that is not a record. *)
Definition body_error (r : Response) : option exn :=
  match json r with
  | inl msg => Some (JSONDecodeError msg)
  | inr (PDict _) => None
  | inr v => Some (AttributeError
                     ("'" ++ Py.type_name v ++ "' object has no attribute 'get'"))
  end.

(** The runs of token issuance, in either script. *)
Inductive token_run (w : World) (p : Process)
  : outcome Token -> list event -> Prop :=
| run_step1_generate_token h r evs :
    Step1.generate_token w p h = (r, evs) ->
    token_run w p r evs
| run_flow_generate_token h r evs :
    UploadFlow.generate_token w p h = (r, evs) ->
    token_run w p r evs.

(** The replay file a script is started for: the argument at the given
    position when there is one, the default file otherwise. *)
Definition chosen_replay (p : Process) (position : nat) (default : string)
  : string :=
  match nth_error (argv p) position with
  | Some path => path
  | None => default
  end.

(** The usage text of the second script. *)
Definition usage_lines : list string :=
  [ "Usage: python scripts/test-upload-flow.py <step>";
    "  step: 1, 2, 3, or 'all'";
    EmptyString;
    "Steps:";
    "  1: Step 1: Local API → Local sc2reader";
    "  2: Step 2: Local API → Production sc2reader";
    "  3: Step 3: Production API → Production sc2reader" ].

(** The banner of the first script. *)
Definition step1_banner : list string :=
  [ PyStr.repeat_str "=" 60;
    "STEP 1: Local Next.js API → Local sc2reader";
    PyStr.repeat_str "=" 60;
    EmptyString ].

(** The answers of [lsof] in the events, in order. *)
Definition lsof_answers (evs : list event) : list (option Z) :=
  flat_map (fun e => match e with EvLsof _ rc => [rc] | _ => [] end) evs.

(** The markers whose answer, at the same position, found no listener. *)
Definition closed_markers (reqs : list string) (answers : list (option Z))
  : list string :=
  map fst (filter (fun mr => negb (listening (snd mr))) (combine reqs answers)).

(** One question to [lsof] for each marker, with its answer. *)
Definition lsof_events (reqs : list string) (answers : list (option Z))
  : list event :=
  map (fun mr => EvLsof (port_of (fst mr)) (snd mr)) (combine reqs answers).

(** The events show an accepted upload: a request answered with status 200
    and a JSON record with a true [success] and a record [replay] with an
    [id], and the lines that report it. *)
Definition uploaded (w : World) (evs : list event) : Prop :=
  exists req resp body id,
    In (EvPost req (Responded resp)) evs /\
    status_code resp = 200%Z /\
    json resp = inr (PDict body) /\
    Py.truthy (field body "success") = true /\
    replay_id body = Some id /\
    In (EvPrint "✅ SUCCESS! Replay uploaded and analyzed") evs /\
    In (EvPrint ("   Replay ID: " ++ py_str w id)) evs.

(** What a script does with the outcome of its upload runner: the boolean
    becomes the exit code, anything else goes on. *)
Definition exit_with (r : outcome bool) : outcome unit :=
  match r with
  | Val success => Exited (if success then 0 else 1)%Z
  | Raised e => Raised e
  | Exited c => Exited c
  end.

(** The error of printing the fingerprint of a record [replay]: a true
    fingerprint that is not a record has no [get], and neither has a
    metadata of it that is not a record. *)
Definition fingerprint_error (replay : list (string * pyval)) : option exn :=
  let no_get v :=
    AttributeError ("'" ++ Py.type_name v ++ "' object has no attribute 'get'") in
  match Py.lookup "fingerprint" replay with
  | None => None
  | Some (PDict fp) =>
      match fp, Py.lookup "metadata" fp with
      | [], _ | _, None | _, Some (PDict _) => None
      | _, Some md => Some (no_get md)
      end
  | Some v => if Py.truthy v then Some (no_get v) else None
  end.

(** * Properties *)

Arguments PyStr.str_of_Z : simpl never.
Arguments PyStr.slice_to : simpl never.
Arguments PyStr.basename : simpl never.
Arguments PyStr.repeat_str : simpl never.
Arguments PyStr.join : simpl never.
Arguments py_str : simpl never.
Arguments String.append : simpl never.
Arguments jwt_encode : simpl never.
Arguments Step1.interpret_response : simpl never.
Arguments Step1.on_exception : simpl never.
Arguments UploadFlow.interpret_response : simpl never.
Arguments UploadFlow.on_exception : simpl never.
Arguments UploadFlow.check_requirements : simpl never.
Arguments UploadFlow.test_upload : simpl never.

(** ** Computations and their events *)

(** Unfolds the operations of the monad and the calls to the outside. *)
Ltac monad_unfold :=
  unfold bind, ret, print, try_except, utcnow, path_exists, open_rb,
    requests_post, subprocess_run_lsof, jwt_encode_call, emit, raise,
    sys_exit, lift, response_json in *.

Section Confined.

Context {A B : Type} (P : event -> Prop).

Lemma confined_ret (a : A) : confined P (ret a).
Proof. intros h r e H. injection H as <- <-. split; [constructor | discriminate]. Qed.

Lemma confined_raise (x : exn) : confined P (@raise A x).
Proof. intros h r e H. injection H as <- <-. split; [constructor | discriminate]. Qed.

Lemma confined_lift (x : exn + A) : confined P (lift x).
Proof. destruct x; [apply confined_raise | apply confined_ret]. Qed.

Lemma confined_print (l : string) : P (EvPrint l) -> confined P (print l).
Proof.
  intros Hl h r e H. injection H as <- <-.
  split; [repeat constructor; exact Hl | discriminate].
Qed.

Lemma confined_bind (m : M A) (f : A -> M B) :
  confined P m -> (forall a, confined P (f a)) -> confined P (bind m f).
Proof.
  intros Hm Hf h r e. unfold bind.
  destruct (m h) as [[a | x | c] e1] eqn:E1.
  - destruct (f a (h ++ e1)) as [r2 e2] eqn:E2. intros H. injection H as <- <-.
    destruct (Hm _ _ _ E1) as [F1 _]. destruct (Hf a _ _ _ E2) as [F2 N2].
    split; [apply Forall_app; split; assumption | exact N2].
  - intros H. injection H as <- <-.
    destruct (Hm _ _ _ E1) as [F1 _]. split; [exact F1 | discriminate].
  - destruct (Hm _ _ _ E1) as [_ N1]. exfalso. exact (N1 c eq_refl).
Qed.

Lemma confined_try (m : M A) (handler : exn -> M A) :
  confined P m -> (forall x, confined P (handler x)) ->
  confined P (try_except m handler).
Proof.
  intros Hm Hh h r e. unfold try_except.
  destruct (m h) as [[a | x | c] e1] eqn:E1.
  - intros H. injection H as <- <-. exact (Hm _ _ _ E1).
  - destruct (handler x (h ++ e1)) as [r2 e2] eqn:E2. intros H.
    injection H as <- <-.
    destruct (Hm _ _ _ E1) as [F1 _]. destruct (Hh x _ _ _ E2) as [F2 N2].
    split; [apply Forall_app; split; assumption | exact N2].
  - intros H. injection H as <- <-. exact (Hm _ _ _ E1).
Qed.

End Confined.

(** Confinement of a computation written with the operations of the monad,
    part by part. *)
Ltac confined_tac :=
  repeat first
    [ progress intros
    | apply confined_bind
    | apply confined_try
    | apply confined_print
    | apply confined_ret
    | apply confined_lift
    | apply confined_raise
    | exact I
    | match goal with
      | |- confined _ (if ?b then _ else _) => destruct b
      | |- confined _ (match ?x with _ => _ end) => destruct x
      end ].

Lemma response_json_confined (P : event -> Prop) (r : Response) :
  confined P (response_json r).
Proof. unfold response_json. confined_tac. Qed.

(** *** The first script *)

Lemma step1_print_fingerprint_confined w data :
  confined is_print (Step1.print_fingerprint w data).
Proof. unfold Step1.print_fingerprint. confined_tac. Qed.

Lemma step1_interpret_response_confined w resp :
  confined is_print (Step1.interpret_response w resp).
Proof.
  unfold Step1.interpret_response.
  pose proof (step1_print_fingerprint_confined w).
  pose proof (response_json_confined is_print).
  confined_tac; auto.
Qed.

Lemma step1_on_exception_confined p e :
  confined is_print (Step1.on_exception p e).
Proof. unfold Step1.on_exception. confined_tac. Qed.

Lemma step1_on_exception_indep p e h :
  Step1.on_exception p e h = Step1.on_exception p e [].
Proof. unfold Step1.on_exception. destruct (isinstance_ConnectionError e); reflexivity. Qed.

(** *** The second script *)

Lemma check_process_running_confined w port :
  confined is_check (UploadFlow.check_process_running w port).
Proof.
  unfold UploadFlow.check_process_running.
  apply confined_try; [apply confined_bind |]; intros; try apply confined_ret.
  intros h r e. unfold subprocess_run_lsof.
  destruct (w_lsof w h port); intros H; injection H as <- <-;
    (split; [repeat constructor | discriminate]).
Qed.

Lemma find_missing_confined w reqs :
  forall missing, confined is_check (UploadFlow.find_missing w reqs missing).
Proof.
  induction reqs as [| req rest IH]; intros missing; simpl.
  - apply confined_ret.
  - apply confined_bind; [apply confined_lift |]. intros sp.
    apply confined_bind; [apply check_process_running_confined |].
    intros running. apply IH.
Qed.

Lemma print_start_commands_confined p cfg missing :
  confined is_check (UploadFlow.print_start_commands p cfg missing).
Proof.
  induction missing as [| req rest IH]; simpl.
  - apply confined_ret.
  - apply confined_bind; [apply confined_lift |]. intros sp.
    apply confined_bind; [| intros _; exact IH].
    confined_tac.
Qed.

Lemma check_requirements_confined w p cfg :
  confined is_check (UploadFlow.check_requirements w p cfg).
Proof.
  unfold UploadFlow.check_requirements.
  apply confined_bind; [apply find_missing_confined |].
  intros [| m missing]; [apply confined_ret |].
  pose proof (print_start_commands_confined p cfg).
  confined_tac; auto.
Qed.

Lemma flow_print_fingerprint_confined w data :
  confined is_print (UploadFlow.print_fingerprint w data).
Proof. unfold UploadFlow.print_fingerprint. confined_tac. Qed.

Lemma flow_interpret_response_confined w resp :
  confined is_print (UploadFlow.interpret_response w resp).
Proof.
  unfold UploadFlow.interpret_response.
  pose proof (flow_print_fingerprint_confined w).
  pose proof (response_json_confined is_print).
  confined_tac; auto.
Qed.

Lemma flow_on_exception_confined cfg e :
  confined is_print (UploadFlow.on_exception cfg e).
Proof. unfold UploadFlow.on_exception. confined_tac. Qed.

Lemma flow_on_exception_indep cfg e h :
  UploadFlow.on_exception cfg e h = UploadFlow.on_exception cfg e [].
Proof.
  unfold UploadFlow.on_exception.
  destruct (isinstance_Timeout e), (isinstance_ConnectionError e); reflexivity.
Qed.

(** *** Requests, tokens and lines of a list of events *)

Lemma posted_app (l1 l2 : list event) : posted (l1 ++ l2) = posted l1 ++ posted l2.
Proof. apply flat_map_app. Qed.

Lemma signed_app (l1 l2 : list event) : signed (l1 ++ l2) = signed l1 ++ signed l2.
Proof. apply flat_map_app. Qed.

Lemma printed_app (l1 l2 : list event) :
  printed (l1 ++ l2) = printed l1 ++ printed l2.
Proof. apply flat_map_app. Qed.

Lemma posted_check (l : list event) : Forall is_check l -> posted l = [].
Proof.
  induction 1 as [| e l He _ IH]; [reflexivity |].
  destruct e; simpl in *; try contradiction; exact IH.
Qed.

(** ** Case analysis on runs *)

(** Case analysis on the next answer of the outside (or the next test) that
    the run depends on. *)
Ltac case_step :=
  match goal with
  | |- context [match ?x with _ => _ end] =>
      lazymatch x with
      | context [match _ with _ => _ end] => fail
      | context [Step1.interpret_response] => fail
      | context [Step1.on_exception] => fail
      | context [UploadFlow.interpret_response] => fail
      | context [UploadFlow.on_exception] => fail
      | context [UploadFlow.check_requirements] => fail
      | (_ =? _)%Z => destruct x eqn:?
      | _ => destruct x
      end
  end.

(** An event cannot be in a list of events of another kind. *)
Lemma not_in_confined (P : event -> Prop) (l : list event) (e : event) :
  Forall P l -> ~ P e -> ~ In e l.
Proof. intros F N H. apply N. rewrite Forall_forall in F. exact (F e H). Qed.

(** The cases of an event being in a list that is given by its elements
    and parts. *)
Ltac in_cases H :=
  repeat match type of H with
         | In _ (_ ++ _) => apply in_app_or in H; destruct H as [H | H]
         | In _ (_ :: _) => destruct H as [H | H]
         | In _ [] => destruct H
         | False => destruct H
         | @eq event _ _ => first [discriminate H | inversion H; subst; clear H]
         end.

(** The events of a list before a given tail of it. *)
Ltac split_at_tail l t :=
  lazymatch l with
  | t => constr:(@nil event)
  | ?x :: ?l' => let q := split_at_tail l' t in constr:(x :: q)
  | ?l1 ++ ?l' => let q := split_at_tail l' t in constr:(l1 ++ q)
  end.

(** An event of another kind cannot be among the events of a part that
    is confined. *)
Ltac absent H :=
  exfalso;
  match type of H with
  | In ?e ?l =>
      first
        [ apply (not_in_confined is_print l e);
          [ first [ eapply step1_interpret_response_confined; eassumption
                  | eapply step1_on_exception_confined; eassumption
                  | eapply flow_interpret_response_confined; eassumption
                  | eapply flow_on_exception_confined; eassumption ]
          | simpl; tauto
          | exact H ]
        | apply (not_in_confined is_check l e);
          [ eapply check_requirements_confined; eassumption
          | simpl; tauto
          | exact H ] ]
  end.

(** One step of the case analysis on a whole run: the next answer of the
    outside, or the outcome of the next part that is kept folded. *)
Ltac run_step :=
  first
    [ case_step; simpl
    | match goal with
      | |- context [UploadFlow.check_requirements ?w ?p ?c ?h] =>
          let Hc := fresh "Hc" in
          destruct (UploadFlow.check_requirements w p c h) as [[[|] | ? | ?] ?] eqn:Hc;
          simpl
      | |- context [Step1.interpret_response ?w ?r ?h] =>
          let Hi := fresh "Hi" in
          destruct (Step1.interpret_response w r h) as [[? | ? | ?] ?] eqn:Hi;
          simpl
      | |- context [UploadFlow.interpret_response ?w ?r ?h] =>
          let Hi := fresh "Hi" in
          destruct (UploadFlow.interpret_response w r h) as [[? | ? | ?] ?] eqn:Hi;
          simpl
      | |- context [Step1.on_exception ?p ?e ?h] =>
          let Hh := fresh "Hh" in
          destruct (Step1.on_exception p e h) as [? ?] eqn:Hh; simpl
      | |- context [UploadFlow.on_exception ?c ?e ?h] =>
          let Hh := fresh "Hh" in
          destruct (UploadFlow.on_exception c e h) as [? ?] eqn:Hh; simpl
      end ].

Ltac run_cases := repeat run_step.

(** An event is in a list: of a run that computes, and of a list given by
    its elements and parts. *)
Ltac in_list := simpl; repeat first [left; reflexivity | right].

Ltac in_events := rewrite ?in_app_iff; simpl; tauto.

(** ** The upload runner after its request *)

(** What a run of [upload_replay] that sent its request did afterwards: it
    interpreted the response, or it handled the exception. *)
Lemma step1_upload_posted w p path h r evs req a :
  Step1.upload_replay w p path h = (r, evs) ->
  In (EvPost req a) evs ->
  exists pre,
    posted pre = [req] /\
    match a with
    | Responded resp =>
        exists ri ei,
          Step1.interpret_response w resp (h ++ pre) = (ri, ei) /\
          evs = pre ++ ei ++ match ri with
                             | Raised e => snd (Step1.on_exception p e [])
                             | _ => []
                             end /\
          r = match ri with
              | Raised e => fst (Step1.on_exception p e [])
              | other => other
              end
    | PostRaised e =>
        evs = pre ++ snd (Step1.on_exception p e []) /\
        r = fst (Step1.on_exception p e [])
    end.
Proof.
  unfold Step1.upload_replay, Step1.generate_token. monad_unfold.
  unfold negb. simpl.
  repeat (case_step; simpl);
    try (intros Hrun Hin; injection Hrun as <- <-; in_cases Hin; fail).
  all: try match goal with
    | |- context [Step1.interpret_response ?w ?r ?h] =>
        destruct (Step1.interpret_response w r h) as [ri ei] eqn:Hi;
        repeat rewrite <- app_assoc in Hi; simpl in Hi;
        destruct ri; simpl
    end.
  all: try rewrite step1_on_exception_indep.
  all: try match goal with
    | |- context [Step1.on_exception ?p ?e []] =>
        destruct (Step1.on_exception p e []) as [rh eh] eqn:Hh
    end.
  all: intros Hrun Hin; injection Hrun as <- <-; in_cases Hin;
    try (absent Hin).
  all: try match type of Hi with
    | _ (_ ++ ?l) = (?ri, ?ei) =>
        exists l; split; [reflexivity |];
        exists ri, ei; simpl; try rewrite Hh; simpl; rewrite ?app_nil_r; auto
    end.
  rewrite Hh. simpl.
  match goal with
  | |- exists pre, _ /\ ?l = _ ++ ?t /\ _ =>
      let q := split_at_tail l t in exists q
    end.
  repeat split; reflexivity.
Qed.

(** The same for [test_upload]. *)
Lemma flow_upload_posted w p cfg path h r evs req a :
  UploadFlow.test_upload w p cfg path h = (r, evs) ->
  In (EvPost req a) evs ->
  exists pre,
    posted pre = [req] /\
    match a with
    | Responded resp =>
        exists ri ei,
          UploadFlow.interpret_response w resp (h ++ pre) = (ri, ei) /\
          evs = pre ++ ei ++ match ri with
                             | Raised e => snd (UploadFlow.on_exception cfg e [])
                             | _ => []
                             end /\
          r = match ri with
              | Raised e => fst (UploadFlow.on_exception cfg e [])
              | other => other
              end
    | PostRaised e =>
        evs = pre ++ snd (UploadFlow.on_exception cfg e []) /\
        r = fst (UploadFlow.on_exception cfg e [])
    end.
Proof.
  unfold UploadFlow.test_upload, UploadFlow.generate_token. monad_unfold.
  unfold negb. simpl.
  match goal with
  | |- context [UploadFlow.check_requirements ?w ?p ?c ?h] =>
      destruct (UploadFlow.check_requirements w p c h) as [[ready | x | c'] ec] eqn:Hc
  end; simpl.
  1: destruct ready; simpl.
  all: repeat (case_step; simpl).
  all: try (intros Hrun Hin; injection Hrun as <- <-; in_cases Hin;
            try absent Hin; fail).
  all: try match goal with
    | |- context [UploadFlow.interpret_response ?w ?r ?h] =>
        destruct (UploadFlow.interpret_response w r h) as [ri ei] eqn:Hi;
        repeat (rewrite <- app_assoc in Hi; simpl in Hi);
        destruct ri; simpl
    end.
  all: try rewrite flow_on_exception_indep.
  all: try match goal with
    | |- context [UploadFlow.on_exception ?c ?e []] =>
        destruct (UploadFlow.on_exception c e []) as [rh eh] eqn:Hh
    end.
  all: intros Hrun Hin; injection Hrun as <- <-; in_cases Hin;
    try (absent Hin).
  all: pose proof (posted_check ec (proj1 (check_requirements_confined _ _ _ _ _ _ Hc)))
    as Hpc.
  all: repeat (progress (rewrite <- ?app_assoc in *; simpl in * )).
  all: try match type of Hi with
    | _ (_ ++ ?l) = (?ri, ?ei) =>
        exists l; split;
        [ unfold posted in *; simpl; rewrite flat_map_app, Hpc; reflexivity |];
        exists ri, ei; simpl; try rewrite Hh; simpl;
        repeat (rewrite <- app_assoc; simpl); rewrite ?app_nil_r; auto
    end.
  rewrite Hh. simpl.
  match goal with
  | |- exists pre, _ /\ ?l = _ ++ ?t /\ _ =>
      let q := split_at_tail l t in exists q
  end.
  split; [unfold posted in *; simpl; rewrite flat_map_app, Hpc; reflexivity |].
  split; [| reflexivity].
  simpl. repeat (rewrite <- app_assoc; simpl). reflexivity.
Qed.

(** ** What is done with a response *)

Ltac interpret_unfold :=
  unfold Step1.interpret_response, Step1.print_fingerprint,
    UploadFlow.interpret_response, UploadFlow.print_fingerprint;
  monad_unfold; unfold Py.get, Py.get_or, Py.getitem, field, map_field,
    metadata_is_record in *.

Lemma step1_interpret_not_json w resp m h :
  status_code resp <> 200%Z ->
  json resp = inl m ->
  Step1.interpret_response w resp h =
  (Val false,
   [EvPrint ("Status: " ++ PyStr.str_of_Z (status_code resp));
    EvPrint ("❌ FAILED: HTTP " ++ PyStr.str_of_Z (status_code resp));
    EvPrint ("   Response: " ++ PyStr.slice_to 200 (text resp))]).
Proof.
  intros Hs Hj. apply Z.eqb_neq in Hs.
  interpret_unfold. rewrite Hs, Hj. reflexivity.
Qed.

Lemma step1_interpret_success w resp d rp x h :
  status_code resp = 200%Z ->
  json resp = inr (PDict d) ->
  Py.truthy (field d "success") = true ->
  Py.lookup "replay" d = Some (PDict rp) ->
  Py.lookup "id" rp = Some x ->
  Py.truthy (field rp "fingerprint") = false ->
  Step1.interpret_response w resp h =
  (Val true,
   [EvPrint "Status: 200";
    EvPrint "✅ SUCCESS! Replay uploaded and analyzed";
    EvPrint ("   Replay ID: " ++ py_str w x)]).
Proof.
  intros Hs Hj Hok Hr Hid Hfp.
  interpret_unfold. rewrite Hs, Hj. simpl. rewrite Hok. simpl.
  rewrite Hr. simpl. rewrite Hid. simpl. rewrite Hfp. reflexivity.
Qed.

Lemma step1_interpret_fingerprint w resp d rp x fp h :
  status_code resp = 200%Z ->
  json resp = inr (PDict d) ->
  Py.truthy (field d "success") = true ->
  Py.lookup "replay" d = Some (PDict rp) ->
  Py.lookup "id" rp = Some x ->
  Py.lookup "fingerprint" rp = Some (PDict fp) ->
  fp <> [] ->
  metadata_is_record fp ->
  Step1.interpret_response w resp h =
  (Val true,
   [EvPrint "Status: 200";
    EvPrint "✅ SUCCESS! Replay uploaded and analyzed";
    EvPrint ("   Replay ID: " ++ py_str w x);
    EvPrint ("   Matchup: " ++ py_str w (field fp "matchup"));
    EvPrint ("   Race: " ++ py_str w (field fp "race"));
    EvPrint ("   Player: " ++ py_str w (field fp "player_name"));
    EvPrint ("   Map: " ++ py_str w (map_field fp))]).
Proof.
  intros Hs Hj Hok Hr Hid Hfp Hne Hmd.
  interpret_unfold. rewrite Hs, Hj. simpl. rewrite Hok. simpl.
  rewrite Hr. simpl. rewrite Hid. simpl. rewrite Hfp. simpl.
  destruct fp as [| kv fp']; [contradiction |]. cbv beta iota.
  set (fp := kv :: fp') in *. clearbody fp. simpl.
  destruct (Py.lookup "metadata" fp) as [[| | | | | | md] |]; try contradiction;
    reflexivity.
Qed.

Lemma step1_interpret_lookup_error w resp d h :
  status_code resp = 200%Z ->
  json resp = inr (PDict d) ->
  Py.truthy (field d "success") = true ->
  (forall rp x, Py.lookup "replay" d = Some (PDict rp) ->
                Py.lookup "id" rp = Some x -> False) ->
  exists e,
    Step1.interpret_response w resp h =
    (Raised e,
     [EvPrint "Status: 200";
      EvPrint "✅ SUCCESS! Replay uploaded and analyzed"]) /\
    is_lookup_error e.
Proof.
  intros Hs Hj Hok Hno.
  interpret_unfold. rewrite Hs, Hj. simpl. rewrite Hok. simpl.
  destruct (Py.lookup "replay" d) as [[| | | | | | rp] |]; simpl;
    try (eexists; split; [reflexivity | exact I]).
  destruct (Py.lookup "id" rp) as [x |] eqn:Hid; simpl.
  - exfalso. exact (Hno rp x eq_refl Hid).
  - eexists; split; [reflexivity | exact I].
Qed.

Lemma flow_interpret_not_json w resp m h :
  status_code resp <> 200%Z ->
  json resp = inl m ->
  UploadFlow.interpret_response w resp h =
  (Val false,
   [EvPrint ("📊 Status: " ++ PyStr.str_of_Z (status_code resp));
    EvPrint ("❌ FAILED: HTTP " ++ PyStr.str_of_Z (status_code resp));
    EvPrint ("   Response: " ++ PyStr.slice_to 200 (text resp));
    EvPrint EmptyString]).
Proof.
  intros Hs Hj. apply Z.eqb_neq in Hs.
  interpret_unfold. rewrite Hs, Hj. reflexivity.
Qed.

Lemma flow_interpret_success w resp d rp x h :
  status_code resp = 200%Z ->
  json resp = inr (PDict d) ->
  Py.truthy (field d "success") = true ->
  Py.lookup "replay" d = Some (PDict rp) ->
  Py.lookup "id" rp = Some x ->
  Py.truthy (field rp "fingerprint") = false ->
  UploadFlow.interpret_response w resp h =
  (Val true,
   [EvPrint "📊 Status: 200";
    EvPrint "✅ SUCCESS! Replay uploaded and analyzed";
    EvPrint ("   Replay ID: " ++ py_str w x);
    EvPrint EmptyString]).
Proof.
  intros Hs Hj Hok Hr Hid Hfp.
  interpret_unfold. rewrite Hs, Hj. simpl. rewrite Hok. simpl.
  rewrite Hr. simpl. rewrite Hid. simpl. rewrite Hfp. reflexivity.
Qed.

Lemma flow_interpret_fingerprint w resp d rp x fp h :
  status_code resp = 200%Z ->
  json resp = inr (PDict d) ->
  Py.truthy (field d "success") = true ->
  Py.lookup "replay" d = Some (PDict rp) ->
  Py.lookup "id" rp = Some x ->
  Py.lookup "fingerprint" rp = Some (PDict fp) ->
  fp <> [] ->
  metadata_is_record fp ->
  UploadFlow.interpret_response w resp h =
  (Val true,
   [EvPrint "📊 Status: 200";
    EvPrint "✅ SUCCESS! Replay uploaded and analyzed";
    EvPrint ("   Replay ID: " ++ py_str w x);
    EvPrint ("   Matchup: " ++ py_str w (field fp "matchup"));
    EvPrint ("   Race: " ++ py_str w (field fp "race"));
    EvPrint ("   Player: " ++ py_str w (field fp "player_name"));
    EvPrint ("   Map: " ++ py_str w (map_field fp));
    EvPrint EmptyString]).
Proof.
  intros Hs Hj Hok Hr Hid Hfp Hne Hmd.
  interpret_unfold. rewrite Hs, Hj. simpl. rewrite Hok. simpl.
  rewrite Hr. simpl. rewrite Hid. simpl. rewrite Hfp. simpl.
  destruct fp as [| kv fp']; [contradiction |]. cbv beta iota.
  set (fp := kv :: fp') in *. clearbody fp. simpl.
  destruct (Py.lookup "metadata" fp) as [[| | | | | | md] |]; try contradiction;
    reflexivity.
Qed.

Lemma flow_interpret_lookup_error w resp d h :
  status_code resp = 200%Z ->
  json resp = inr (PDict d) ->
  Py.truthy (field d "success") = true ->
  (forall rp x, Py.lookup "replay" d = Some (PDict rp) ->
                Py.lookup "id" rp = Some x -> False) ->
  exists e,
    UploadFlow.interpret_response w resp h =
    (Raised e,
     [EvPrint "📊 Status: 200";
      EvPrint "✅ SUCCESS! Replay uploaded and analyzed"]) /\
    is_lookup_error e.
Proof.
  intros Hs Hj Hok Hno.
  interpret_unfold. rewrite Hs, Hj. simpl. rewrite Hok. simpl.
  destruct (Py.lookup "replay" d) as [[| | | | | | rp] |]; simpl;
    try (eexists; split; [reflexivity | exact I]).
  destruct (Py.lookup "id" rp) as [x |] eqn:Hid; simpl.
  - exfalso. exact (Hno rp x eq_refl Hid).
  - eexists; split; [reflexivity | exact I].
Qed.

(** The handlers, on an exception that is neither a timeout nor a
    connection error. *)
Lemma step1_on_exception_other p e h :
  is_lookup_error e ->
  Step1.on_exception p e h = (Val false, [EvPrint ("❌ Error: " ++ exn_str e)]).
Proof. destruct e; simpl; intros H; try contradiction; reflexivity. Qed.

Lemma flow_on_exception_other cfg e h :
  is_lookup_error e ->
  UploadFlow.on_exception cfg e h =
  (Val false, [EvPrint ("❌ FAILED: " ++ exn_str e); EvPrint EmptyString]).
Proof. destruct e; simpl; intros H; try contradiction; reflexivity. Qed.

(** ** The slice of the response text *)

Lemma slice_to_cons (n : nat) (c : ascii) (s : string) :
  PyStr.slice_to n (String c s) =
  if PyStr.is_continuation c then String c (PyStr.slice_to n s)
  else match n with
       | O => EmptyString
       | S n' => String c (PyStr.slice_to n' s)
       end.
Proof. reflexivity. Qed.

(** The slice has [n] characters, or all of them when there are fewer. *)
Lemma slice_to_length (n : nat) (s : string) :
  PyStr.len (PyStr.slice_to n s) = Nat.min n (PyStr.len s).
Proof.
  revert n. induction s as [| c s IH]; intros n.
  - change (PyStr.slice_to n EmptyString) with EmptyString. simpl.
    rewrite Nat.min_0_r. reflexivity.
  - rewrite slice_to_cons. simpl.
    destruct (PyStr.is_continuation c) eqn:Hc; simpl.
    + rewrite Hc. apply IH.
    + destruct n as [| n]; simpl; [reflexivity |].
      rewrite Hc, IH. reflexivity.
Qed.

Lemma slice_to_prefix (n : nat) (s : string) :
  String.prefix (PyStr.slice_to n s) s = true.
Proof.
  revert n. induction s as [| c s IH]; intros n; [reflexivity |].
  rewrite slice_to_cons.
  destruct (PyStr.is_continuation c); simpl.
  - destruct (ascii_dec c c) as [_ | N]; [apply IH | contradiction].
  - destruct n as [| n]; simpl; [reflexivity |].
    destruct (ascii_dec c c) as [_ | N]; [apply IH | contradiction].
Qed.

(** The slice ends where a character ends: what it leaves out begins with
    the first byte of a character. *)
Lemma slice_to_whole (n : nat) (s : string) :
  exists rest,
    s = (PyStr.slice_to n s ++ rest)%string /\
    match rest with
    | EmptyString => True
    | String c _ => PyStr.is_continuation c = false
    end.
Proof.
  revert n. induction s as [| c s IH]; intros n.
  - exists EmptyString. split; [reflexivity | exact I].
  - rewrite slice_to_cons.
    destruct (PyStr.is_continuation c) eqn:Hc.
    + destruct (IH n) as (rest & Hs & Hrest).
      exists rest. split; [| exact Hrest].
      change (String c s = String c (PyStr.slice_to n s ++ rest)).
      f_equal. exact Hs.
    + destruct n as [| n].
      * exists (String c s). split; [reflexivity | exact Hc].
      * destruct (IH n) as (rest & Hs & Hrest).
        exists rest. split; [| exact Hrest].
        change (String c s = String c (PyStr.slice_to n s ++ rest)).
        f_equal. exact Hs.
Qed.

Lemma len_le_length (s : string) : (PyStr.len s <= String.length s)%nat.
Proof.
  induction s as [| a s IH]; simpl; [lia |].
  destruct (PyStr.is_continuation a); lia.
Qed.

(** On a text of ASCII characters the slice is the first [n] bytes. *)
Lemma slice_to_ascii (n : nat) (s : string) :
  PyStr.len s = String.length s ->
  PyStr.slice_to n s = substring 0 n s.
Proof.
  revert n. induction s as [| c s IH]; intros n.
  - destruct n; reflexivity.
  - rewrite slice_to_cons. simpl.
    pose proof (len_le_length s) as Hle.
    destruct (PyStr.is_continuation c); intros Hlen; [lia |].
    injection Hlen as Hlen.
    destruct n as [| n]; [reflexivity |]. f_equal. apply IH. exact Hlen.
Qed.

(** ** Token issuance *)

(** The claims of a token issued by the first script, in terms of the two
    readings of the clock. *)
Lemma step1_generate_token_run w p h secret :
  Step1.LOCAL_JWT_SECRET p = Some secret ->
  let t1 := w_utcnow w h in
  let t2 := w_utcnow w (h ++ [EvUtcnow t1]) in
  let tok := {| tok_alg := "HS256";
                tok_claims := {| userId := Step1.USER_ID p;
                                 type_ := "uploader";
                                 roles := [Step1.ROLE_ID p];
                                 iat := (t1 / 1000000)%Z;
                                 exp := (t2 / 1000000 + 3600)%Z |};
                tok_key := secret |} in
  Step1.generate_token w p h = (Val tok, [EvUtcnow t1; EvUtcnow t2; EvJwtEncode tok]).
Proof.
  intros Hs. unfold Step1.generate_token. monad_unfold. simpl. rewrite Hs.
  unfold jwt_encode, timegm_utctimetuple, timedelta_hours. simpl.
  replace (w_utcnow w (h ++ [EvUtcnow (w_utcnow w h)]) + 3600000000)%Z
    with (w_utcnow w (h ++ [EvUtcnow (w_utcnow w h)]) + 3600 * 1000000)%Z
    by reflexivity.
  rewrite Z.div_add by discriminate. reflexivity.
Qed.

(** The same for the second script, which signs with the unescaped
    secret. *)
Lemma flow_generate_token_run w p h secret :
  UploadFlow.AUTH_SECRET p = Some secret ->
  secret <> EmptyString ->
  let t1 := w_utcnow w h in
  let t2 := w_utcnow w (h ++ [EvUtcnow t1]) in
  let tok := {| tok_alg := "HS256";
                tok_claims := {| userId := UploadFlow.USER_ID p;
                                 type_ := "uploader";
                                 roles := [UploadFlow.ROLE_ID p];
                                 iat := (t1 / 1000000)%Z;
                                 exp := (t2 / 1000000 + 3600)%Z |};
                tok_key := unescape_dollar secret |} in
  UploadFlow.generate_token w p h =
  (Val tok, [EvUtcnow t1; EvUtcnow t2; EvJwtEncode tok]).
Proof.
  intros Hs Hne. unfold UploadFlow.generate_token. monad_unfold. rewrite Hs.
  simpl. apply String.eqb_neq in Hne. rewrite Hne. simpl.
  unfold jwt_encode, timegm_utctimetuple, timedelta_hours. simpl.
  replace (w_utcnow w (h ++ [EvUtcnow (w_utcnow w h)]) + 3600000000)%Z
    with (w_utcnow w (h ++ [EvUtcnow (w_utcnow w h)]) + 3600 * 1000000)%Z
    by reflexivity.
  rewrite Z.div_add by discriminate. reflexivity.
Qed.

(** When both readings of the clock fall in the same second, the expiry is
    one hour after the issue. *)
Lemma generate_token_same_second w p h secret tok evs :
  Step1.LOCAL_JWT_SECRET p = Some secret ->
  Step1.generate_token w p h = (Val tok, evs) ->
  (w_utcnow w (h ++ [EvUtcnow (w_utcnow w h)]) / 1000000 =
   w_utcnow w h / 1000000)%Z ->
  (exp (jwt_decode tok) = iat (jwt_decode tok) + 3600)%Z.
Proof.
  intros Hs Hrun Hsame.
  rewrite (step1_generate_token_run w p h secret Hs) in Hrun.
  injection Hrun as <- _. simpl. rewrite Hsame. reflexivity.
Qed.

(** C1 fails on the code. The clock is read once for [iat] and once more
    for [exp]; when a second ends between the two readings, the decoded
    expiry is 3601 seconds after the decoded issue, in both scripts. Here
    the readings are 2025-01-01 00:00:00.999999 and 00:00:01.000000. *)
Theorem expiry_drifts_across_a_second :
  let w := ticking_world 1735689600999999%Z 1735689601000000%Z in
  let p := sample_process ["script.py"] in
  (exists tok evs,
     Step1.generate_token w p [] = (Val tok, evs) /\
     (exp (jwt_decode tok) - iat (jwt_decode tok) = 3601)%Z) /\
  (exists tok evs,
     UploadFlow.generate_token w p [] = (Val tok, evs) /\
     (exp (jwt_decode tok) - iat (jwt_decode tok) = 3601)%Z).
Proof.
  intros w p. split.
  - destruct (Step1.generate_token w p []) as [r evs] eqn:E.
    vm_compute in E. injection E as <- <-.
    eexists. eexists. split; reflexivity.
  - destruct (UploadFlow.generate_token w p []) as [r evs] eqn:E.
    vm_compute in E. injection E as <- <-.
    eexists. eexists. split; reflexivity.
Qed.

(** ** The secret that signs *)

(** Where a backslash followed by a dollar can be. *)
Lemma prefix_bs_dollar a b rest :
  String.prefix "\$" (String a (String b rest)) =
  Ascii.eqb a "\" && Ascii.eqb b "$".
Proof.
  change (String.prefix "\$" (String a (String b rest)))
    with (if ascii_dec "\"%char a
          then (if ascii_dec "$"%char b then String.prefix EmptyString rest
                else false)
          else false).
  destruct (ascii_dec "\"%char a) as [<- | Na].
  - destruct (ascii_dec "$"%char b) as [<- | Nb]; [destruct rest; reflexivity |].
    symmetry. apply andb_false_iff. right. apply Ascii.eqb_neq. congruence.
  - symmetry. apply andb_false_iff. left. apply Ascii.eqb_neq. congruence.
Qed.

Lemma contains_bs_dollar_cons a b rest :
  PyStr.contains "\$" (String a (String b rest)) =
  (Ascii.eqb a "\" && Ascii.eqb b "$") || PyStr.contains "\$" (String b rest).
Proof.
  change (PyStr.contains "\$" (String a (String b rest)))
    with (String.prefix "\$" (String a (String b rest))
          || PyStr.contains "\$" (String b rest)).
  rewrite prefix_bs_dollar. reflexivity.
Qed.

Lemma contains_bs_dollar_single a :
  PyStr.contains "\$" (String a EmptyString) = false.
Proof.
  change (PyStr.contains "\$" (String a EmptyString))
    with ((if ascii_dec "\"%char a then false else false) || false).
  destruct (ascii_dec "\"%char a); reflexivity.
Qed.

Lemma replace2_cons c1 c2 new a b rest :
  PyStr.replace2 c1 c2 new (String a (String b rest)) =
  if Ascii.eqb a c1 && Ascii.eqb b c2
  then (new ++ PyStr.replace2 c1 c2 new rest)%string
  else String a (PyStr.replace2 c1 c2 new (String b rest)).
Proof. reflexivity. Qed.

(** Unescaping never lengthens a secret, and shortens it when it has a
    backslash followed by a dollar. *)
Lemma unescape_dollar_length (n : nat) :
  forall s, (String.length s <= n)%nat ->
    (String.length (unescape_dollar s) <= String.length s)%nat /\
    (PyStr.contains "\$" s = true ->
     (String.length (unescape_dollar s) < String.length s)%nat).
Proof.
  unfold unescape_dollar.
  induction n as [| n IH]; intros s Hlen.
  - destruct s; [| simpl in Hlen; lia]. simpl. split; [lia | discriminate].
  - destruct s as [| a [| b rest]].
    + simpl. split; [lia | discriminate].
    + rewrite contains_bs_dollar_single. simpl. split; [lia | discriminate].
    + rewrite replace2_cons, contains_bs_dollar_cons.
      change (String.length (String a (String b rest)))
        with (S (String.length (String b rest))) in *.
      destruct (Ascii.eqb a "\" && Ascii.eqb b "$") eqn:Hab.
      * destruct (IH rest) as [Hle _]; [cbn [String.length] in *; lia |].
        change (String.length ("$" ++ PyStr.replace2 "\" "$" "$" rest))
          with (S (String.length (PyStr.replace2 "\" "$" "$" rest))).
        cbn [String.length] in *. split; intros; lia.
      * destruct (IH (String b rest)) as [Hle Hlt];
          [cbn [String.length] in *; lia |].
        change (String.length (String a (PyStr.replace2 "\" "$" "$" (String b rest))))
          with (S (String.length (PyStr.replace2 "\" "$" "$" (String b rest)))).
        cbn [String.length] in *.
        split; [lia |]. intros Hc. specialize (Hlt Hc). lia.
Qed.

Lemma unescape_dollar_changes (s : string) :
  PyStr.contains "\$" s = true -> unescape_dollar s <> s.
Proof.
  intros Hc Heq.
  destruct (unescape_dollar_length (String.length s) s (le_n _)) as [_ Hlt].
  specialize (Hlt Hc). rewrite Heq in Hlt. lia.
Qed.

Lemma unescape_dollar_unchanged (n : nat) :
  forall s, (String.length s <= n)%nat ->
    PyStr.contains "\$" s = false -> unescape_dollar s = s.
Proof.
  unfold unescape_dollar.
  induction n as [| n IH]; intros s Hlen Hc.
  - destruct s; [reflexivity | simpl in Hlen; lia].
  - destruct s as [| a [| b rest]]; try reflexivity.
    rewrite contains_bs_dollar_cons in Hc.
    apply orb_false_iff in Hc. destruct Hc as [Hab Hc].
    rewrite replace2_cons, Hab. f_equal.
    apply IH; [simpl in *; lia | exact Hc].
Qed.

(** C9. With the same secret in the environment, the first script signs
    with the secret as it is, and the second script with the secret in
    which every backslash followed by a dollar, found from the left, is
    replaced by the dollar. A secret with such a pair therefore gives
    tokens signed with different keys; a secret without one gives the same
    key. *)
Theorem scripts_sign_with_different_keys w p h secret :
  getenv p "AUTH_SECRET" = Some secret ->
  secret <> EmptyString ->
  exists tok1 evs1 tok2 evs2,
    Step1.generate_token w p h = (Val tok1, evs1) /\
    UploadFlow.generate_token w p h = (Val tok2, evs2) /\
    signed evs1 = [tok1] /\
    signed evs2 = [tok2] /\
    tok_key tok1 = secret /\
    tok_key tok2 = PyStr.replace2 "\"%char "$"%char "$" secret /\
    (PyStr.contains "\$" secret = true -> tok_key tok1 <> tok_key tok2) /\
    (PyStr.contains "\$" secret = false -> tok_key tok1 = tok_key tok2).
Proof.
  intros Hs Hne.
  do 4 eexists.
  split; [apply (step1_generate_token_run w p h secret Hs) |].
  split; [apply (flow_generate_token_run w p h secret Hs Hne) |].
  split; [reflexivity |]. split; [reflexivity |].
  split; [reflexivity |]. split; [reflexivity |].
  simpl. split.
  - intros Hc Heq. exact (unescape_dollar_changes secret Hc (eq_sym Heq)).
  - intros Hc. symmetry.
    exact (unescape_dollar_unchanged _ secret (le_n _) Hc).
Qed.

Lemma scripts_sign_with_different_keys_witness :
  exists tok1 evs1 tok2 evs2,
    Step1.generate_token (sample_world (Responded sample_error_page))
      (sample_process ["script.py"]) [] = (Val tok1, evs1) /\
    UploadFlow.generate_token (sample_world (Responded sample_error_page))
      (sample_process ["script.py"]) [] = (Val tok2, evs2) /\
    tok_key tok1 = "s3cr\$t" /\
    tok_key tok2 = "s3cr$t".
Proof.
  destruct (scripts_sign_with_different_keys
              (sample_world (Responded sample_error_page))
              (sample_process ["script.py"]) [] "s3cr\$t")
    as (tok1 & evs1 & tok2 & evs2 & H1 & H2 & _ & _ & K1 & K2 & _).
  - reflexivity.
  - discriminate.
  - exists tok1, evs1, tok2, evs2. repeat split; assumption.
Defined.

(** ** Files that do not exist *)

(** A request is sent only for a file that [os.path.exists] has found. *)
Lemma request_follows_existence w r evs req a :
  upload_run w r evs ->
  In (EvPost req a) evs ->
  In (EvExists (req_file_path req) true) evs.
Proof.
  intros Hrun.
  destruct Hrun as [p path' h r evs Hrun | p cfg path' h r evs Hrun];
    revert Hrun.
  - unfold Step1.upload_replay, Step1.generate_token. monad_unfold.
    unfold negb. simpl. run_cases.
    all: intros Hrun Hin; injection Hrun as <- <-; in_cases Hin;
      try (absent Hin).
    all: simpl; in_events.
  - unfold UploadFlow.test_upload, UploadFlow.generate_token. monad_unfold.
    unfold negb. simpl. run_cases.
    all: intros Hrun Hin; injection Hrun as <- <-; in_cases Hin;
      try (absent Hin).
    all: simpl; in_events.
Qed.



(** ** Successful uploads *)

(** For an identifier that is a string, [str] is the string itself. *)
Lemma py_str_string w (s : string) : py_str w (PStr s) = s.
Proof. reflexivity. Qed.

(** Where the code does surface the fingerprint. For every response with
    status 200 whose JSON body has a true [success] and a record [replay]
    with an [id], the upload runner of either script returns [True] and
    prints the identifier when the record has no true fingerprint; when it
    has a fingerprint that is a record, whose metadata if any is a record,
    the matchup, race, player name and map are printed too, [None]
    standing for an absent field. *)
Lemma successful_upload_is_reported w r evs req resp body replay id :
  upload_run w r evs ->
  In (EvPost req (Responded resp)) evs ->
  status_code resp = 200%Z ->
  json resp = inr (PDict body) ->
  Py.truthy (field body "success") = true ->
  Py.lookup "replay" body = Some (PDict replay) ->
  Py.lookup "id" replay = Some id ->
  (Py.truthy (field replay "fingerprint") = false ->
   r = Val true /\
   In (EvPrint ("   Replay ID: " ++ py_str w id)) evs) /\
  (forall fp,
     Py.lookup "fingerprint" replay = Some (PDict fp) ->
     fp <> [] ->
     metadata_is_record fp ->
     r = Val true /\
     In (EvPrint ("   Replay ID: " ++ py_str w id)) evs /\
     In (EvPrint ("   Matchup: " ++ py_str w (field fp "matchup"))) evs /\
     In (EvPrint ("   Race: " ++ py_str w (field fp "race"))) evs /\
     In (EvPrint ("   Player: " ++ py_str w (field fp "player_name"))) evs /\
     In (EvPrint ("   Map: " ++ py_str w (map_field fp))) evs).
Proof.
  intros Hrun Hin Hs Hj Hok Hr Hid.
  destruct Hrun as [p path h r evs Hrun | p cfg path h r evs Hrun].
  - destruct (step1_upload_posted _ _ _ _ _ _ _ _ Hrun Hin)
      as (pre & _ & ri & ei & Hi & -> & ->).
    split.
    + intros Hfp.
      rewrite (step1_interpret_success _ _ _ _ _ _ Hs Hj Hok Hr Hid Hfp) in Hi.
      injection Hi as <- <-. split; [reflexivity | in_events].
    + intros fp Hfp Hne Hmd.
      rewrite (step1_interpret_fingerprint _ _ _ _ _ _ _ Hs Hj Hok Hr Hid Hfp Hne Hmd)
        in Hi.
      injection Hi as <- <-. split; [reflexivity |]. repeat split; in_events.
  - destruct (flow_upload_posted _ _ _ _ _ _ _ _ _ Hrun Hin)
      as (pre & _ & ri & ei & Hi & -> & ->).
    split.
    + intros Hfp.
      rewrite (flow_interpret_success _ _ _ _ _ _ Hs Hj Hok Hr Hid Hfp) in Hi.
      injection Hi as <- <-. split; [reflexivity | in_events].
    + intros fp Hfp Hne Hmd.
      rewrite (flow_interpret_fingerprint _ _ _ _ _ _ _ Hs Hj Hok Hr Hid Hfp Hne Hmd)
        in Hi.
      injection Hi as <- <-. split; [reflexivity |]. repeat split; in_events.
Qed.

Lemma successful_upload_is_reported_witness :
  let run := Step1.upload_replay
               (sample_world
                  (Responded (sample_ok [("success", PBool true);
                                         ("replay", PDict [("id", PStr "X")])])))
               (sample_process ["step1.py"]) "/tmp/game.SC2Replay" [] in
  fst run = Val true /\ In (EvPrint "   Replay ID: X") (snd run).
Proof.
  eapply (successful_upload_is_reported _ _ _ _ _ _ _ (PStr "X")).
  - eapply run_upload_replay. apply surjective_pairing.
  - in_list.
  - reflexivity.
  - reflexivity.
  - reflexivity.
  - reflexivity.
  - reflexivity.
  - reflexivity.
Defined.

(** A true fingerprint that is not a record: [get] on it raises after the
    identifier is printed, the last handler catches the error and the
    runner returns [False]. *)
Lemma fingerprint_not_a_record :
  let run := Step1.upload_replay
               (sample_world
                  (Responded
                     (sample_ok [("success", PBool true);
                                 ("replay", PDict [("id", PStr "X");
                                                   ("fingerprint", PStr "TvZ")])])))
               (sample_process ["step1.py"]) "/tmp/game.SC2Replay" [] in
  fst run = Val false /\
  In (EvPrint "   Replay ID: X") (snd run) /\
  In (EvPrint "❌ Error: 'str' object has no attribute 'get'") (snd run).
Proof. repeat split; in_list. Qed.

(** C6 fails on the code. A response with status 200, a true [success],
    the record identifier [X] and a fingerprint record whose [metadata] is
    null: both scripts print the line of success, the identifier and the
    first three fields of the fingerprint; then [None.get] raises, the last
    handler prints the error, and the runner returns [False]. Started as a
    script, the first exits with code 1. *)
Theorem null_metadata_turns_success_into_failure :
  let resp := sample_ok
                [("success", PBool true);
                 ("replay",
                  PDict [("id", PStr "X");
                         ("fingerprint",
                          PDict [("matchup", PStr "TvZ");
                                 ("race", PStr "Terran");
                                 ("player_name", PStr "Maru");
                                 ("metadata", PNone)])])] in
  let w := sample_world (Responded resp) in
  let run1 := Step1.upload_replay w (sample_process ["step1.py"])
                "/tmp/game.SC2Replay" [] in
  let run2 := UploadFlow.test_upload w (sample_process ["test-upload-flow.py"; "3"])
                (scenario "3") "/tmp/game.SC2Replay" [] in
  (fst run1 = Val false /\
   prints "✅ SUCCESS! Replay uploaded and analyzed" (snd run1) = true /\
   prints "   Replay ID: X" (snd run1) = true /\
   prints "   Player: Maru" (snd run1) = true /\
   prints "   Map: None" (snd run1) = false /\
   prints "❌ Error: 'NoneType' object has no attribute 'get'" (snd run1) = true) /\
  (fst run2 = Val false /\
   prints "✅ SUCCESS! Replay uploaded and analyzed" (snd run2) = true /\
   prints "   Replay ID: X" (snd run2) = true /\
   prints "   Player: Maru" (snd run2) = true /\
   prints "   Map: None" (snd run2) = false /\
   prints "❌ FAILED: 'NoneType' object has no attribute 'get'" (snd run2) = true) /\
  fst (Step1.script w (sample_process ["step1.py"; "/tmp/game.SC2Replay"]) [])
  = Exited 1%Z.
Proof. vm_compute. repeat split. Qed.

(** ** Successful responses without a record identifier *)

(** C10. For every response with status 200 whose JSON body has a true
    [success] but no record [replay] with an [id], the lookup
    [data['replay']['id']] raises inside
    the [try]; the last handler catches it, prints the error, and the upload
    runner of either script returns [False]. *)
Theorem missing_replay_id_is_failure w r evs req resp body :
  upload_run w r evs ->
  In (EvPost req (Responded resp)) evs ->
  status_code resp = 200%Z ->
  json resp = inr (PDict body) ->
  Py.truthy (field body "success") = true ->
  replay_id body = None ->
  r = Val false /\
  exists e, is_lookup_error e /\
            (In (EvPrint ("❌ Error: " ++ exn_str e)) evs \/
             In (EvPrint ("❌ FAILED: " ++ exn_str e)) evs).
Proof.
  intros Hrun Hin Hs Hj Hok Hno.
  assert (Hno' : forall rp x, Py.lookup "replay" body = Some (PDict rp) ->
                              Py.lookup "id" rp = Some x -> False)
    by (intros rp x H1 H2; unfold replay_id in Hno; rewrite H1, H2 in Hno;
        discriminate Hno).
  destruct Hrun as [p path h r evs Hrun | p cfg path h r evs Hrun].
  - destruct (step1_upload_posted _ _ _ _ _ _ _ _ Hrun Hin)
      as (pre & _ & ri & ei & Hi & -> & ->).
    destruct (step1_interpret_lookup_error w _ _ (h ++ pre) Hs Hj Hok Hno')
      as (e & He & Hle).
    rewrite He in Hi. injection Hi as <- <-.
    rewrite (step1_on_exception_other _ _ _ Hle). simpl.
    split; [reflexivity |]. exists e. split; [exact Hle |]. left. in_events.
  - destruct (flow_upload_posted _ _ _ _ _ _ _ _ _ Hrun Hin)
      as (pre & _ & ri & ei & Hi & -> & ->).
    destruct (flow_interpret_lookup_error w _ _ (h ++ pre) Hs Hj Hok Hno')
      as (e & He & Hle).
    rewrite He in Hi. injection Hi as <- <-.
    rewrite (flow_on_exception_other _ _ _ Hle). simpl.
    split; [reflexivity |]. exists e. split; [exact Hle |]. right. in_events.
Qed.

Lemma missing_replay_id_is_failure_witness :
  fst (Step1.upload_replay
         (sample_world (Responded (sample_ok [("success", PBool true)])))
         (sample_process ["step1.py"]) "/tmp/game.SC2Replay" []) = Val false.
Proof.
  eapply (missing_replay_id_is_failure _ _ _ _ _ [("success", PBool true)]).
  - eapply run_upload_replay. apply surjective_pairing.
  - in_list.
  - reflexivity.
  - reflexivity.
  - reflexivity.
  - reflexivity.
Defined.

(** ** Responses that are not JSON *)

(** C7. For every response with a status other than 200 whose body is not
    JSON, the upload runner of either script returns [False] (no exception
    leaves it) and prints, after [Response:], the text of the response cut
    to its first 200 characters: a prefix of the text that has 200
    characters, or all of them when the text is shorter, and that ends
    where a character ends. *)
Theorem non_json_error_is_reported w r evs req resp msg :
  upload_run w r evs ->
  In (EvPost req (Responded resp)) evs ->
  status_code resp <> 200%Z ->
  json resp = inl msg ->
  r = Val false /\
  In (EvPrint ("   Response: " ++ PyStr.slice_to 200 (text resp))) evs /\
  PyStr.len (PyStr.slice_to 200 (text resp)) = Nat.min 200 (PyStr.len (text resp)) /\
  String.prefix (PyStr.slice_to 200 (text resp)) (text resp) = true /\
  exists rest,
    text resp = (PyStr.slice_to 200 (text resp) ++ rest)%string /\
    match rest with
    | EmptyString => True
    | String c _ => PyStr.is_continuation c = false
    end.
Proof.
  intros Hrun Hin Hs Hj.
  split; [| split; [| split; [apply slice_to_length
                             | split; [apply slice_to_prefix
                                      | apply slice_to_whole]]]];
  destruct Hrun as [p path h r evs Hrun | p cfg path h r evs Hrun].
  - destruct (step1_upload_posted _ _ _ _ _ _ _ _ Hrun Hin)
      as (pre & _ & ri & ei & Hi & -> & ->).
    rewrite (step1_interpret_not_json _ _ _ _ Hs Hj) in Hi.
    injection Hi as <- <-. reflexivity.
  - destruct (flow_upload_posted _ _ _ _ _ _ _ _ _ Hrun Hin)
      as (pre & _ & ri & ei & Hi & -> & ->).
    rewrite (flow_interpret_not_json _ _ _ _ Hs Hj) in Hi.
    injection Hi as <- <-. reflexivity.
  - destruct (step1_upload_posted _ _ _ _ _ _ _ _ Hrun Hin)
      as (pre & _ & ri & ei & Hi & -> & ->).
    rewrite (step1_interpret_not_json _ _ _ _ Hs Hj) in Hi.
    injection Hi as <- <-. in_events.
  - destruct (flow_upload_posted _ _ _ _ _ _ _ _ _ Hrun Hin)
      as (pre & _ & ri & ei & Hi & -> & ->).
    rewrite (flow_interpret_not_json _ _ _ _ Hs Hj) in Hi.
    injection Hi as <- <-. in_events.
Qed.

Lemma non_json_error_is_reported_witness :
  let resp := sample_gateway_page in
  let run1 := Step1.upload_replay (sample_world (Responded resp))
                (sample_process ["step1.py"]) "/tmp/game.SC2Replay" [] in
  let run2 := UploadFlow.test_upload (sample_world (Responded resp))
                (sample_process ["test-upload-flow.py"; "1"]) (scenario "1")
                "/tmp/game.SC2Replay" [] in
  PyStr.len (text resp) = 250%nat /\
  fst run1 = Val false /\
  fst run2 = Val false /\
  In (EvPrint ("   Response: " ++ PyStr.repeat_str "é" 200)) (snd run1) /\
  In (EvPrint ("   Response: " ++ PyStr.repeat_str "é" 200)) (snd run2).
Proof.
  intros resp run1 run2.
  assert (Hin1 : exists req, In (EvPost req (Responded resp)) (snd run1))
    by (eexists; in_list).
  assert (Hin2 : exists req, In (EvPost req (Responded resp)) (snd run2))
    by (eexists; in_list).
  destruct Hin1 as [req1 Hin1]. destruct Hin2 as [req2 Hin2].
  assert (Hs : status_code resp <> 200%Z) by discriminate.
  destruct (non_json_error_is_reported _ _ _ req1 resp _
              (run_upload_replay _ _ _ _ _ _ (surjective_pairing run1)) Hin1
              Hs eq_refl) as (Hr1 & Hp1 & _).
  destruct (non_json_error_is_reported _ _ _ req2 resp _
              (run_test_upload _ _ _ _ _ _ _ (surjective_pairing run2)) Hin2
              Hs eq_refl) as (Hr2 & Hp2 & _).
  assert (Hcut : PyStr.slice_to 200 (text resp) = PyStr.repeat_str "é" 200)
    by (vm_compute; reflexivity).
  rewrite Hcut in Hp1, Hp2.
  split; [vm_compute; reflexivity |].
  split; [exact Hr1 |]. split; [exact Hr2 |]. split; [exact Hp1 | exact Hp2].
Defined.

(** ** Refused connections *)

(** C3, as stated, fails for the second script: when the request of
    scenario 1 is refused, [test_upload] prints where it could not connect
    and that the server must be running, and names no command. *)
Lemma refusal_names_no_command :
  let run := UploadFlow.test_upload
               (sample_world (PostRaised (ConnectionError "Connection refused")))
               (sample_process ["test-upload-flow.py"; "1"])
               (scenario "1") "/tmp/game.SC2Replay" [] in
  (exists req, In (EvPost req (PostRaised (ConnectionError "Connection refused")))
                  (snd run)) /\
  printed (snd run) =
  [ PyStr.repeat_str "=" 60;
    "Step 1: Local API → Local sc2reader";
    PyStr.repeat_str "=" 60;
    "📤 API: http://localhost:3000";
    "🔧 sc2reader: http://localhost:8000";
    "📁 File: /tmp/game.SC2Replay";
    EmptyString;
    "🔑 Generated JWT token";
    "🚀 Uploading...";
    "❌ FAILED: Could not connect to http://localhost:3000";
    "   Make sure the API server is running";
    EmptyString ] /\
  ~ explains_refusal UploadFlow.LOCAL_NEXT_API (fst run) (snd run).
Proof.
  split; [| split].
  - eexists. in_list.
  - reflexivity.
  - intros (_ & _ & H). vm_compute in H. discriminate H.
Qed.

(** C3, amended. When the request raises a connection error that is not a
    timeout, [upload_replay] returns [False] and ends by printing that it
    could not connect to the base URL and the command that starts the
    Next.js server with the address and key of the replay service;
    [test_upload] returns [False] and ends by printing that it could not
    connect to the base URL of the scenario and that the server must be
    running. *)
Theorem refused_connection_is_reported :
  (forall w p path h r evs req msg,
     Step1.upload_replay w p path h = (r, evs) ->
     In (EvPost req (PostRaised (ConnectionError msg))) evs ->
     r = Val false /\
     exists pre,
       posted pre = [req] /\
       evs = pre ++
         [EvPrint ("❌ Connection Error: Could not connect to " ++ Step1.NEXT_API_URL);
          EvPrint "   Make sure Next.js dev server is running with:";
          EvPrint ("   SC2READER_API_URL='" ++ Step1.SC2READER_API_URL
                   ++ "' SC2READER_API_KEY='"
                   ++ Py.fmt_opt (Step1.SC2READER_API_KEY p)
                   ++ "' npm run dev")]) /\
  (forall w p cfg path h r evs req msg,
     UploadFlow.test_upload w p cfg path h = (r, evs) ->
     In (EvPost req (PostRaised (ConnectionError msg))) evs ->
     r = Val false /\
     exists pre,
       posted pre = [req] /\
       evs = pre ++
         [EvPrint ("❌ FAILED: Could not connect to " ++ UploadFlow.api_url cfg);
          EvPrint "   Make sure the API server is running";
          EvPrint EmptyString]).
Proof.
  split.
  - intros w p path h r evs req msg Hrun Hin.
    destruct (step1_upload_posted _ _ _ _ _ _ _ _ Hrun Hin)
      as (pre & Hpre & -> & ->).
    split; [reflexivity |]. exists pre. split; [exact Hpre | reflexivity].
  - intros w p cfg path h r evs req msg Hrun Hin.
    destruct (flow_upload_posted _ _ _ _ _ _ _ _ _ Hrun Hin)
      as (pre & Hpre & -> & ->).
    split; [reflexivity |]. exists pre. split; [exact Hpre | reflexivity].
Qed.

Lemma refused_connection_is_reported_witness :
  fst (Step1.upload_replay
         (sample_world (PostRaised (ConnectionError "Connection refused")))
         (sample_process ["step1.py"]) "/tmp/game.SC2Replay" []) = Val false /\
  fst (UploadFlow.test_upload
         (sample_world (PostRaised (ConnectionError "Connection refused")))
         (sample_process ["test-upload-flow.py"; "1"])
         (scenario "1") "/tmp/game.SC2Replay" []) = Val false.
Proof.
  split.
  - eapply (proj1 refused_connection_is_reported).
    + apply surjective_pairing.
    + in_list.
  - eapply (proj2 refused_connection_is_reported).
    + apply surjective_pairing.
    + in_list.
Defined.

(** ** Required ports *)

Lemma tests_scenarios key cfg :
  Py.lookup key UploadFlow.TESTS = Some cfg ->
  cfg = scenario "1" \/ cfg = scenario "2" \/ cfg = scenario "3".
Proof.
  unfold UploadFlow.TESTS. cbn [Py.lookup].
  destruct (String.eqb "1" key); [intros [= <-]; left; reflexivity |].
  destruct (String.eqb "2" key); [intros [= <-]; right; left; reflexivity |].
  destruct (String.eqb "3" key); [intros [= <-]; right; right; reflexivity |].
  discriminate.
Qed.



(** ** All scenarios *)

Lemma sorted_keys : PyStr.sorted (map fst UploadFlow.TESTS) = ["1"; "2"; "3"].
Proof. reflexivity. Qed.

Lemma flow_on_exception_false cfg e h :
  fst (UploadFlow.on_exception cfg e h) = Val false.
Proof.
  unfold UploadFlow.on_exception.
  destruct (isinstance_Timeout e), (isinstance_ConnectionError e); reflexivity.
Qed.

(** With the signing secret, and when the replay file can be opened, every
    scenario returns. *)
Lemma flow_test_upload_returns w p key cfg path h :
  Py.lookup key UploadFlow.TESTS = Some cfg ->
  Py.truthy_opt (UploadFlow.AUTH_SECRET p) = true ->
  (forall h' x, w_open w h' x = Opened) ->
  exists b evs, UploadFlow.test_upload w p cfg path h = (Val b, evs).
Proof.
  intros Hcfg Hs Hopen.
  destruct (UploadFlow.AUTH_SECRET p) as [secret |] eqn:Hsecret;
    [| discriminate Hs].
  destruct (tests_scenarios key cfg Hcfg) as [-> | [-> | ->]]; clear Hcfg;
    unfold UploadFlow.test_upload, UploadFlow.check_requirements,
      UploadFlow.generate_token, scenario; rewrite Hsecret, Hs;
    repeat (progress (simpl; monad_unfold;
                      unfold UploadFlow.check_process_running, negb));
    repeat first [ rewrite Hopen; simpl | run_step ].
  all: try (eexists; eexists; reflexivity).
  all: try match goal with
    | H : UploadFlow.interpret_response _ _ _ = (Exited ?c, _) |- _ =>
        exfalso;
        exact (proj2 (flow_interpret_response_confined _ _ _ _ _ H) c eq_refl)
    end.
  all: match goal with
    | H : UploadFlow.on_exception ?c ?e ?h = (?o, _) |- _ =>
        pose proof (flow_on_exception_false c e h) as Hf;
        rewrite H in Hf; simpl in Hf; subst o
    end.
  all: eexists; eexists; reflexivity.
Qed.

(** The start of a run of [main] with the step [all]. *)
Lemma main_all_unfold w p h script rest :
  argv p = script :: "all" :: rest ->
  UploadFlow.main w p h =
  (results <- UploadFlow.run_all w p ["1"; "2"; "3"]
                (hd (UploadFlow.DEFAULT_REPLAY p) rest) [] ;;
   print (PyStr.repeat_str "=" 60) ;;
   print "SUMMARY" ;;
   print (PyStr.repeat_str "=" 60) ;;
   UploadFlow.print_summary results ;;
   print (PyStr.repeat_str "=" 60) ;;
   sys_exit (if forallb (fun b : bool => b) (map snd results) then 0 else 1)%Z) h.
Proof.
  intros Hargv. unfold UploadFlow.main. rewrite Hargv.
  replace (if (2 <? List.length (script :: "all" :: rest))%nat
           then nth 2 (script :: "all" :: rest) EmptyString
           else UploadFlow.DEFAULT_REPLAY p)
    with (hd (UploadFlow.DEFAULT_REPLAY p) rest)
    by (destruct rest; reflexivity).
  cbn [List.length Nat.ltb Nat.leb nth].
  change (String.eqb "all" "all") with true. cbv iota.
  rewrite sorted_keys. reflexivity.
Qed.

(** C4, as stated, fails when a scenario does not return. Without the
    signing secret the first scenario, whose ports listen and whose file
    exists, exits with code 1 when it asks for a token; when the file
    cannot be opened, the error of [open] leaves it. In both runs [lsof] is
    asked about the two ports of the first scenario only, the second and
    third scenario are not run, and no summary is printed. *)
Lemma all_stops_at_a_scenario_that_does_not_return :
  let answer := Responded (sample_ok [("success", PBool true);
                                      ("replay", PDict [("id", PStr "X")])]) in
  let args := ["test-upload-flow.py"; "all"; "/tmp/game.SC2Replay"] in
  let no_secret :=
    UploadFlow.main (sample_world answer)
      {| environ := [("SC2READER_API_KEY", "k3y")];
         home := "/Users/tester";
         argv := args |} [] in
  let no_access :=
    UploadFlow.main
      {| w_utcnow := fun _ => 1735689600000000%Z;
         w_lsof := fun _ _ => Some 0%Z;
         w_exists := fun _ _ => true;
         w_open := fun _ _ => OpenFailed "Permission denied";
         w_post := fun _ _ => answer;
         w_repr := fun _ => "<object>" |}
      (sample_process args) [] in
  (fst no_secret = Exited 1%Z /\
   lsof_ports (snd no_secret) = ["3000"; "8000"] /\
   prints (UploadFlow.name (scenario "1")) (snd no_secret) = true /\
   prints (UploadFlow.name (scenario "2")) (snd no_secret) = false /\
   prints (UploadFlow.name (scenario "3")) (snd no_secret) = false /\
   prints "SUMMARY" (snd no_secret) = false) /\
  (fst no_access = Raised (OSError "Permission denied") /\
   lsof_ports (snd no_access) = ["3000"; "8000"] /\
   prints (UploadFlow.name (scenario "1")) (snd no_access) = true /\
   prints (UploadFlow.name (scenario "2")) (snd no_access) = false /\
   prints (UploadFlow.name (scenario "3")) (snd no_access) = false /\
   prints "SUMMARY" (snd no_access) = false).
Proof. vm_compute. repeat split. Qed.

(** C4, amended. Started with the step [all], the second script runs the
    scenarios under the sorted keys 1, 2, 3 in this order, each at most
    once, and a scenario only after the one before it has returned. When
    all three return, [b1], [b2] and [b3], the events of the script are
    those of the three runs followed by the summary, which has one line
    for each result; the script exits with code 0 when all three are
    [True] and with code 1 otherwise, and the summary has as many [FAIL]
    lines as scenarios returned [False]. A scenario that does not return
    (the process exits in it, or an error leaves it) ends the script the
    same way: the events are those of the scenarios up to it, the later
    scenarios are not run and no summary is printed. *)
Theorem all_runs_every_scenario_once
  w p h script rest r1 e1 r2 e2 r3 e3 :
  argv p = script :: "all" :: rest ->
  let path := hd (UploadFlow.DEFAULT_REPLAY p) rest in
  UploadFlow.test_upload w p (scenario "1") path h = (r1, e1) ->
  UploadFlow.test_upload w p (scenario "2") path (h ++ e1) = (r2, e2) ->
  UploadFlow.test_upload w p (scenario "3") path (h ++ e1 ++ e2) = (r3, e3) ->
  PyStr.sorted (map fst UploadFlow.TESTS) = ["1"; "2"; "3"] /\
  (forall b1 b2 b3,
     r1 = Val b1 -> r2 = Val b2 -> r3 = Val b3 ->
     UploadFlow.main w p h =
     (Exited (if b1 && b2 && b3 then 0 else 1)%Z,
      e1 ++ e2 ++ e3 ++ map EvPrint (summary_lines b1 b2 b3)) /\
     List.length (filter (PyStr.ends_with "❌ FAIL") (summary_lines b1 b2 b3)) =
     List.length (filter negb [b1; b2; b3])) /\
  (forall b1 b2,
     r1 = Val b1 -> r2 = Val b2 -> (forall b3, r3 <> Val b3) ->
     UploadFlow.main w p h = (exit_with r3, e1 ++ e2 ++ e3)) /\
  (forall b1,
     r1 = Val b1 -> (forall b2, r2 <> Val b2) ->
     UploadFlow.main w p h = (exit_with r2, e1 ++ e2)) /\
  ((forall b1, r1 <> Val b1) ->
   UploadFlow.main w p h = (exit_with r1, e1)).
Proof.
  intros Hargv path H1 H2 H3.
  split; [reflexivity |].
  rewrite (main_all_unfold w p h script rest Hargv). fold path.
  simpl. monad_unfold. simpl.
  change (scenario "1") with
    {| UploadFlow.name := "Step 1: Local API → Local sc2reader";
       UploadFlow.api_url := UploadFlow.LOCAL_NEXT_API;
       UploadFlow.sc2reader_url := UploadFlow.LOCAL_SC2READER;
       UploadFlow.requires := ["next:3000"; "sc2reader:8000"] |} in *.
  change (scenario "2") with
    {| UploadFlow.name := "Step 2: Local API → Production sc2reader";
       UploadFlow.api_url := UploadFlow.LOCAL_NEXT_API;
       UploadFlow.sc2reader_url := UploadFlow.PROD_SC2READER;
       UploadFlow.requires := ["next:3000"] |} in *.
  change (scenario "3") with
    {| UploadFlow.name := "Step 3: Production API → Production sc2reader";
       UploadFlow.api_url := UploadFlow.PROD_NEXT_API;
       UploadFlow.sc2reader_url := UploadFlow.PROD_SC2READER;
       UploadFlow.requires := [] |} in *.
  rewrite !app_nil_r. rewrite H1.
  destruct r1 as [b1 | x1 | c1]; simpl.
  - rewrite !app_nil_r. rewrite H2.
    destruct r2 as [b2 | x2 | c2]; simpl.
    + rewrite !app_nil_r, <- ?app_assoc. rewrite H3.
      destruct r3 as [b3 | x3 | c3]; simpl.
      * rewrite ?app_nil_r, <- ?app_assoc.
        split; [| split; [| split]].
        -- intros ? ? ? [= <-] [= <-] [= <-].
           split; destruct b1, b2, b3; reflexivity.
        -- intros ? ? _ _ Hno. exfalso. exact (Hno b3 eq_refl).
        -- intros ? _ Hno. exfalso. exact (Hno b2 eq_refl).
        -- intros Hno. exfalso. exact (Hno b1 eq_refl).
      * rewrite ?app_nil_r, <- ?app_assoc.
        split; [| split; [| split]].
        -- intros ? ? ? _ _ [=].
        -- intros ? ? _ _ _. reflexivity.
        -- intros ? _ Hno. exfalso. exact (Hno b2 eq_refl).
        -- intros Hno. exfalso. exact (Hno b1 eq_refl).
      * rewrite ?app_nil_r, <- ?app_assoc.
        split; [| split; [| split]].
        -- intros ? ? ? _ _ [=].
        -- intros ? ? _ _ _. reflexivity.
        -- intros ? _ Hno. exfalso. exact (Hno b2 eq_refl).
        -- intros Hno. exfalso. exact (Hno b1 eq_refl).
    + split; [| split; [| split]].
      * intros ? ? ? _ [=].
      * intros ? ? _ [=].
      * intros ? _ _. reflexivity.
      * intros Hno. exfalso. exact (Hno b1 eq_refl).
    + split; [| split; [| split]].
      * intros ? ? ? _ [=].
      * intros ? ? _ [=].
      * intros ? _ _. reflexivity.
      * intros Hno. exfalso. exact (Hno b1 eq_refl).
  - split; [| split; [| split]].
    + intros ? ? ? [=].
    + intros ? ? [=].
    + intros ? [=].
    + intros _. reflexivity.
  - split; [| split; [| split]].
    + intros ? ? ? [=].
    + intros ? ? [=].
    + intros ? [=].
    + intros _. reflexivity.
Qed.

Lemma all_runs_every_scenario_once_witness :
  let w := sample_world
             (Responded (sample_ok [("success", PBool true);
                                    ("replay", PDict [("id", PStr "X")])])) in
  let p := sample_process ["test-upload-flow.py"; "all"; "/tmp/game.SC2Replay"] in
  fst (UploadFlow.main w p []) = Exited 0%Z /\
  List.length (filter (PyStr.ends_with "✅ PASS")
                 (printed (snd (UploadFlow.main w p [])))) = 3%nat.
Proof.
  intros w p.
  set (run1 := UploadFlow.test_upload w p (scenario "1") "/tmp/game.SC2Replay" []).
  set (run2 := UploadFlow.test_upload w p (scenario "2") "/tmp/game.SC2Replay"
                 ([] ++ snd run1)).
  set (run3 := UploadFlow.test_upload w p (scenario "3") "/tmp/game.SC2Replay"
                 ([] ++ snd run1 ++ snd run2)).
  assert (H1 : run1 = (Val true, snd run1)) by (vm_compute; reflexivity).
  assert (H2 : run2 = (Val true, snd run2)) by (vm_compute; reflexivity).
  assert (H3 : run3 = (Val true, snd run3)) by (vm_compute; reflexivity).
  destruct (all_runs_every_scenario_once w p [] "test-upload-flow.py"
              ["/tmp/game.SC2Replay"] (Val true) (snd run1) (Val true) (snd run2)
              (Val true) (snd run3) eq_refl H1 H2 H3)
    as (_ & Hall & _).
  destruct (Hall true true true eq_refl eq_refl eq_refl) as [Hmain _].
  rewrite Hmain. split; [reflexivity | vm_compute; reflexivity].
Defined.

(** With one scenario failing (here the second, whose request is refused),
    the exit code is 1 and the summary has one [FAIL] line. *)
Lemma one_failing_scenario :
  let w := {| w_utcnow := fun _ => 1735689600000000%Z;
              w_lsof := fun _ _ => Some 0%Z;
              w_exists := fun _ _ => true;
              w_open := fun _ _ => Opened;
              w_post := fun h _ =>
                if (List.length (posted h) =? 1)%nat
                then PostRaised (ConnectionError "Connection refused")
                else Responded (sample_ok [("success", PBool true);
                                           ("replay", PDict [("id", PStr "X")])]);
              w_repr := fun _ => "<object>" |} in
  let p := sample_process ["test-upload-flow.py"; "all"; "/tmp/game.SC2Replay"] in
  fst (UploadFlow.main w p []) = Exited 1%Z /\
  filter (PyStr.ends_with "FAIL") (printed (snd (UploadFlow.main w p []))) =
  ["Step 2: Local API → Production sc2reader: ❌ FAIL"].
Proof. vm_compute. split; reflexivity. Qed.

(** ** Missing secrets *)

(** Without the signing secret, a scenario of the second script ends in
    [False] or in [sys.exit(1)], before any token or request. *)
Lemma flow_test_upload_without_secret w p key cfg path h r evs :
  Py.lookup key UploadFlow.TESTS = Some cfg ->
  Py.truthy_opt (UploadFlow.AUTH_SECRET p) = false ->
  UploadFlow.test_upload w p cfg path h = (r, evs) ->
  (r = Val false \/ r = Exited 1%Z) /\
  printed evs <> [] /\ signed evs = [] /\ posted evs = [].
Proof.
  intros Hcfg Hs.
  destruct (tests_scenarios key cfg Hcfg) as [-> | [-> | ->]]; clear Hcfg;
    unfold UploadFlow.test_upload, UploadFlow.check_requirements,
      UploadFlow.generate_token, scenario; rewrite Hs;
    repeat (progress (simpl; monad_unfold;
                      unfold UploadFlow.check_process_running, negb));
    run_cases.
  all: intros Hrun; injection Hrun as <- <-.
  all: split; [auto |]; split; [discriminate |]; split; reflexivity.
Qed.

Lemma printed_nonempty_app (l1 l2 : list event) :
  printed l1 <> [] -> printed (l1 ++ l2) <> [].
Proof.
  rewrite printed_app. destruct (printed l1); [congruence | discriminate].
Qed.

(** The next scenario of a run of [main] without the signing secret. *)
Ltac scenario_without_secret Hs :=
  match goal with
  | |- context [UploadFlow.test_upload ?w ?p ?c ?path ?h] =>
      let r := fresh "r" in
      let e := fresh "e" in
      let H := fresh "H" in
      destruct (UploadFlow.test_upload w p c path h) as [r e] eqn:H;
      let Hp := fresh "Hp" in
      let Hg := fresh "Hg" in
      let Ho := fresh "Ho" in
      first
        [ destruct (flow_test_upload_without_secret w p "1" c path h r e
                      eq_refl Hs H) as ([-> | ->] & Hp & Hg & Ho)
        | destruct (flow_test_upload_without_secret w p "2" c path h r e
                      eq_refl Hs H) as ([-> | ->] & Hp & Hg & Ho)
        | destruct (flow_test_upload_without_secret w p "3" c path h r e
                      eq_refl Hs H) as ([-> | ->] & Hp & Hg & Ho) ];
      clear H; simpl
  end.

Lemma flow_script_without_secret :
  stops_when_missing ["AUTH_SECRET"] UploadFlow.script.
Proof.
  intros w p (n & [<- | []] & Hs).
  change (Py.truthy_opt (UploadFlow.AUTH_SECRET p) = false) in Hs.
  unfold UploadFlow.script, UploadFlow.main.
  destruct (List.length (argv p) <? 2)%nat.
  - vm_compute. repeat split; discriminate.
  - cbv zeta.
    set (path := if (2 <? List.length (argv p))%nat then _ else _).
    clearbody path.
    destruct (String.eqb (nth 1 (argv p) EmptyString) "all").
    + rewrite sorted_keys. simpl. monad_unfold. simpl.
      repeat scenario_without_secret Hs.
      all: rewrite ?signed_app, ?posted_app.
      all: repeat match goal with H : _ = [] |- _ => rewrite H end.
      all: repeat split; try reflexivity.
      all: repeat apply printed_nonempty_app; assumption.
    + destruct (Py.lookup (nth 1 (argv p) EmptyString) UploadFlow.TESTS)
        as [cfg |] eqn:Hcfg.
      * monad_unfold.
        destruct (UploadFlow.test_upload w p cfg path []) as [r e] eqn:H.
        destruct (flow_test_upload_without_secret w p _ cfg path [] r e Hcfg Hs H)
          as ([-> | ->] & Hp & Hg & Ho); simpl;
          rewrite ?app_nil_r; repeat split; assumption.
      * vm_compute. repeat split; discriminate.
Qed.

Lemma step1_script_without_secret :
  stops_when_missing ["AUTH_SECRET"; "SC2READER_API_KEY"] Step1.script.
Proof.
  intros w p (n & Hn & Hs). unfold Step1.script.
  destruct (Py.truthy_opt (Step1.LOCAL_JWT_SECRET p)) eqn:H1.
  - destruct (Py.truthy_opt (Step1.SC2READER_API_KEY p)) eqn:H2.
    + exfalso. unfold Step1.LOCAL_JWT_SECRET, Step1.SC2READER_API_KEY in *.
      destruct Hn as [<- | [<- | []]]; congruence.
    + vm_compute. repeat split; discriminate.
  - vm_compute. repeat split; discriminate.
Qed.

(** C2, as stated, fails for the second script: it never tests the API
    key. Without the key, with the signing secret and a replay service
    that accepts the upload, scenario 3 signs a token, sends the request
    and exits with code 0. *)
Lemma api_key_is_not_required :
  ~ stops_when_missing ["AUTH_SECRET"; "SC2READER_API_KEY"] UploadFlow.script.
Proof.
  intros H.
  destruct (H (sample_world
                 (Responded (sample_ok [("success", PBool true);
                                        ("replay", PDict [("id", PStr "X")])])))
              {| environ := [("AUTH_SECRET", "s3cr3t")];
                 home := "/Users/tester";
                 argv := ["test-upload-flow.py"; "3"; "/tmp/game.SC2Replay"] |})
    as (Hexit & _).
  - exists "SC2READER_API_KEY". split; [simpl; auto | reflexivity].
  - vm_compute in Hexit. discriminate Hexit.
Qed.

(** C2, amended. The first script tests both secrets before anything else:
    if the signing secret is missing it prints that [AUTH_SECRET] was not
    found and exits with code 1, otherwise if the API key is missing it
    prints that [SC2READER_API_KEY] was not found and exits with code 1;
    nothing else happens. The second script tests the signing secret only,
    when a scenario asks for a token: without it, the script exits with
    code 1 and no token is signed and no request is sent. *)
Theorem missing_secret_stops_the_script :
  (forall w p,
     Py.truthy_opt (getenv p "AUTH_SECRET") = false ->
     Step1.script w p [] =
     (Exited 1%Z, [EvPrint "❌ Error: AUTH_SECRET not found in .env.local"])) /\
  (forall w p,
     Py.truthy_opt (getenv p "AUTH_SECRET") = true ->
     Py.truthy_opt (getenv p "SC2READER_API_KEY") = false ->
     Step1.script w p [] =
     (Exited 1%Z, [EvPrint "❌ Error: SC2READER_API_KEY not found in .env.local"])) /\
  stops_when_missing ["AUTH_SECRET"; "SC2READER_API_KEY"] Step1.script /\
  stops_when_missing ["AUTH_SECRET"] UploadFlow.script /\
  (forall w p h,
     Py.truthy_opt (getenv p "AUTH_SECRET") = false ->
     UploadFlow.generate_token w p h =
     (Exited 1%Z, [EvPrint "❌ Error: AUTH_SECRET not found in .env.local"])).
Proof.
  split; [| split; [| split; [| split]]].
  - intros w p Hs. unfold Step1.script, Step1.LOCAL_JWT_SECRET. rewrite Hs.
    reflexivity.
  - intros w p Hs Hk.
    unfold Step1.script, Step1.LOCAL_JWT_SECRET, Step1.SC2READER_API_KEY.
    rewrite Hs, Hk. reflexivity.
  - exact step1_script_without_secret.
  - exact flow_script_without_secret.
  - intros w p h Hs. unfold UploadFlow.generate_token, UploadFlow.AUTH_SECRET.
    rewrite Hs. reflexivity.
Qed.

Lemma missing_secret_stops_the_script_witness :
  let p := {| environ := [("SC2READER_API_KEY", "k3y")];
              home := "/Users/tester";
              argv := ["script.py"; "all"] |} in
  let w := sample_world (Responded sample_error_page) in
  fst (Step1.script w p []) = Exited 1%Z /\
  fst (UploadFlow.script w p []) = Exited 1%Z /\
  posted (snd (UploadFlow.script w p [])) = [].
Proof.
  intros p w.
  destruct missing_secret_stops_the_script as (H1 & _ & _ & H2 & _).
  split.
  - rewrite (H1 w p); reflexivity.
  - destruct (H2 w p) as (Hexit & _ & _ & Hposted).
    + exists "AUTH_SECRET". split; [simpl; auto | reflexivity].
    + split; [exact Hexit | exact Hposted].
Defined.

(** * Further properties *)

(** ** Every kind of response *)

Lemma step1_on_exception_generic p e h :
  isinstance_ConnectionError e = false ->
  Step1.on_exception p e h = (Val false, [EvPrint ("❌ Error: " ++ exn_str e)]).
Proof. intros H. unfold Step1.on_exception. rewrite H. reflexivity. Qed.

Lemma flow_on_exception_generic cfg e h :
  isinstance_Timeout e = false ->
  isinstance_ConnectionError e = false ->
  UploadFlow.on_exception cfg e h =
  (Val false, [EvPrint ("❌ FAILED: " ++ exn_str e); EvPrint EmptyString]).
Proof.
  intros H1 H2. unfold UploadFlow.on_exception. rewrite H1, H2. reflexivity.
Qed.

Lemma step1_on_exception_false p e h :
  fst (Step1.on_exception p e h) = Val false.
Proof.
  unfold Step1.on_exception. destruct (isinstance_ConnectionError e); reflexivity.
Qed.

Lemma body_error_not_requests r e :
  body_error r = Some e ->
  isinstance_Timeout e = false /\ isinstance_ConnectionError e = false.
Proof.
  unfold body_error.
  destruct (json r) as [msg | []]; intros [= <-]; split; reflexivity.
Qed.

Lemma step1_interpret_body_error w resp e h :
  status_code resp = 200%Z ->
  body_error resp = Some e ->
  Step1.interpret_response w resp h = (Raised e, [EvPrint "Status: 200"]).
Proof.
  intros Hs. interpret_unfold. unfold body_error. rewrite Hs.
  destruct (json resp) as [msg | []]; intros [= <-]; reflexivity.
Qed.

Lemma flow_interpret_body_error w resp e h :
  status_code resp = 200%Z ->
  body_error resp = Some e ->
  UploadFlow.interpret_response w resp h = (Raised e, [EvPrint "📊 Status: 200"]).
Proof.
  intros Hs. interpret_unfold. unfold body_error. rewrite Hs.
  destruct (json resp) as [msg | []]; intros [= <-]; reflexivity.
Qed.

Lemma step1_interpret_refused w resp body h :
  status_code resp = 200%Z ->
  json resp = inr (PDict body) ->
  Py.truthy (field body "success") = false ->
  Step1.interpret_response w resp h =
  (Val false, [EvPrint "Status: 200";
               EvPrint ("❌ FAILED: " ++ py_str w (PDict body))]).
Proof.
  intros Hs Hj Hok. interpret_unfold. rewrite Hs, Hj. simpl. rewrite Hok.
  reflexivity.
Qed.

Lemma flow_interpret_refused w resp body h :
  status_code resp = 200%Z ->
  json resp = inr (PDict body) ->
  Py.truthy (field body "success") = false ->
  UploadFlow.interpret_response w resp h =
  (Val false, [EvPrint "📊 Status: 200";
               EvPrint ("❌ FAILED: " ++ py_str w (PDict body));
               EvPrint EmptyString]).
Proof.
  intros Hs Hj Hok. interpret_unfold. rewrite Hs, Hj. simpl. rewrite Hok.
  reflexivity.
Qed.

Lemma step1_interpret_error_status w resp h :
  status_code resp <> 200%Z ->
  Step1.interpret_response w resp h =
  (Val false,
   [EvPrint ("Status: " ++ PyStr.str_of_Z (status_code resp));
    EvPrint ("❌ FAILED: HTTP " ++ PyStr.str_of_Z (status_code resp));
    EvPrint (match json resp with
             | inl _ => "   Response: " ++ PyStr.slice_to 200 (text resp)
             | inr v => "   Error: " ++ py_str w v
             end)]).
Proof.
  intros Hs. apply Z.eqb_neq in Hs. interpret_unfold. rewrite Hs.
  destruct (json resp); reflexivity.
Qed.

Lemma flow_interpret_error_status w resp h :
  status_code resp <> 200%Z ->
  UploadFlow.interpret_response w resp h =
  (Val false,
   [EvPrint ("📊 Status: " ++ PyStr.str_of_Z (status_code resp));
    EvPrint ("❌ FAILED: HTTP " ++ PyStr.str_of_Z (status_code resp));
    EvPrint (match json resp with
             | inl _ => "   Response: " ++ PyStr.slice_to 200 (text resp)
             | inr v => "   Error: " ++ py_str w v
             end);
    EvPrint EmptyString]).
Proof.
  intros Hs. apply Z.eqb_neq in Hs. interpret_unfold. rewrite Hs.
  destruct (json resp); reflexivity.
Qed.

(** X1. Every response with a status other than 200 is a failure: the
    upload runner of either script returns [False] and prints the status
    after [FAILED: HTTP], then the body as JSON ([Error:]) when it parses
    and the first 200 characters of the text ([Response:]) when it does
    not. *)
Theorem error_status_is_failure w r evs req resp :
  upload_run w r evs ->
  In (EvPost req (Responded resp)) evs ->
  status_code resp <> 200%Z ->
  r = Val false /\
  In (EvPrint ("❌ FAILED: HTTP " ++ PyStr.str_of_Z (status_code resp))) evs /\
  In (EvPrint (match json resp with
               | inl _ => "   Response: " ++ PyStr.slice_to 200 (text resp)
               | inr v => "   Error: " ++ py_str w v
               end)) evs.
Proof.
  intros Hrun Hin Hs.
  destruct Hrun as [p path h r evs Hrun | p cfg path h r evs Hrun].
  - destruct (step1_upload_posted _ _ _ _ _ _ _ _ Hrun Hin)
      as (pre & _ & ri & ei & Hi & -> & ->).
    rewrite (step1_interpret_error_status _ _ _ Hs) in Hi.
    injection Hi as <- <-. split; [reflexivity |]. split; in_events.
  - destruct (flow_upload_posted _ _ _ _ _ _ _ _ _ Hrun Hin)
      as (pre & _ & ri & ei & Hi & -> & ->).
    rewrite (flow_interpret_error_status _ _ _ Hs) in Hi.
    injection Hi as <- <-. split; [reflexivity |]. split; in_events.
Qed.

Lemma error_status_is_failure_witness :
  let resp := {| status_code := 401;
                 text := "{...}";
                 json := inr (PDict [("error", PStr "Unauthorized")]) |} in
  let run := Step1.upload_replay (sample_world (Responded resp))
               (sample_process ["step1.py"]) "/tmp/game.SC2Replay" [] in
  fst run = Val false /\
  In (EvPrint "❌ FAILED: HTTP 401") (snd run) /\
  In (EvPrint "   Error: <object>") (snd run).
Proof.
  intros resp run.
  assert (Hin : exists req, In (EvPost req (Responded resp)) (snd run))
    by (eexists; in_list).
  destruct Hin as [req Hin].
  assert (Hs : status_code resp <> 200%Z) by (simpl; lia).
  exact (error_status_is_failure _ _ _ req resp
           (run_upload_replay _ _ _ _ _ _ (surjective_pairing run)) Hin Hs).
Defined.

(** X2. A response with status 200 whose body says that [success] is
    false (or has no [success]) is a failure: the upload runner of either
    script returns [False] and prints the whole body after [FAILED:]. *)
Theorem refused_upload_is_failure w r evs req resp body :
  upload_run w r evs ->
  In (EvPost req (Responded resp)) evs ->
  status_code resp = 200%Z ->
  json resp = inr (PDict body) ->
  Py.truthy (field body "success") = false ->
  r = Val false /\
  In (EvPrint ("❌ FAILED: " ++ py_str w (PDict body))) evs.
Proof.
  intros Hrun Hin Hs Hj Hok.
  destruct Hrun as [p path h r evs Hrun | p cfg path h r evs Hrun].
  - destruct (step1_upload_posted _ _ _ _ _ _ _ _ Hrun Hin)
      as (pre & _ & ri & ei & Hi & -> & ->).
    rewrite (step1_interpret_refused _ _ _ _ Hs Hj Hok) in Hi.
    injection Hi as <- <-. split; [reflexivity | in_events].
  - destruct (flow_upload_posted _ _ _ _ _ _ _ _ _ Hrun Hin)
      as (pre & _ & ri & ei & Hi & -> & ->).
    rewrite (flow_interpret_refused _ _ _ _ Hs Hj Hok) in Hi.
    injection Hi as <- <-. split; [reflexivity | in_events].
Qed.

Lemma refused_upload_is_failure_witness :
  let run := UploadFlow.test_upload
               (sample_world
                  (Responded (sample_ok [("success", PBool false);
                                         ("error", PStr "parse failed")])))
               (sample_process ["test-upload-flow.py"; "3"]) (scenario "3")
               "/tmp/game.SC2Replay" [] in
  fst run = Val false /\ In (EvPrint "❌ FAILED: <object>") (snd run).
Proof.
  intros run.
  assert (Hin : exists req resp,
             In (EvPost req (Responded resp)) (snd run) /\
             status_code resp = 200%Z /\
             json resp = inr (PDict [("success", PBool false);
                                     ("error", PStr "parse failed")]))
    by (eexists; eexists; split; [in_list | split; reflexivity]).
  destruct Hin as (req & resp & Hin & Hs & Hj).
  exact (refused_upload_is_failure _ _ _ req resp _
           (run_test_upload _ _ _ _ _ _ _ (surjective_pairing run))
           Hin Hs Hj eq_refl).
Defined.

(** X3. A response with status 200 whose body is not JSON, or is JSON
    but not a record, is a failure: reading it raises inside the [try],
    the last handler prints the error and the upload runner of either
    script returns [False]. *)
Theorem unreadable_body_is_failure w r evs req resp e :
  upload_run w r evs ->
  In (EvPost req (Responded resp)) evs ->
  status_code resp = 200%Z ->
  body_error resp = Some e ->
  r = Val false /\
  (In (EvPrint ("❌ Error: " ++ exn_str e)) evs \/
   In (EvPrint ("❌ FAILED: " ++ exn_str e)) evs).
Proof.
  intros Hrun Hin Hs He.
  destruct (body_error_not_requests _ _ He) as [Ht Hc].
  destruct Hrun as [p path h r evs Hrun | p cfg path h r evs Hrun].
  - destruct (step1_upload_posted _ _ _ _ _ _ _ _ Hrun Hin)
      as (pre & _ & ri & ei & Hi & -> & ->).
    rewrite (step1_interpret_body_error _ _ _ _ Hs He) in Hi.
    injection Hi as <- <-.
    rewrite (step1_on_exception_generic _ _ _ Hc). simpl.
    split; [reflexivity |]. left. in_events.
  - destruct (flow_upload_posted _ _ _ _ _ _ _ _ _ Hrun Hin)
      as (pre & _ & ri & ei & Hi & -> & ->).
    rewrite (flow_interpret_body_error _ _ _ _ Hs He) in Hi.
    injection Hi as <- <-.
    rewrite (flow_on_exception_generic _ _ _ Ht Hc). simpl.
    split; [reflexivity |]. right. in_events.
Qed.

Lemma unreadable_body_is_failure_witness :
  let resp := {| status_code := 200;
                 text := "[]";
                 json := inr (PList []) |} in
  let run := Step1.upload_replay (sample_world (Responded resp))
               (sample_process ["step1.py"]) "/tmp/game.SC2Replay" [] in
  fst run = Val false /\
  (In (EvPrint "❌ Error: 'list' object has no attribute 'get'") (snd run) \/
   In (EvPrint "❌ FAILED: 'list' object has no attribute 'get'") (snd run)).
Proof.
  intros resp run.
  assert (Hin : exists req, In (EvPost req (Responded resp)) (snd run))
    by (eexists; in_list).
  destruct Hin as [req Hin].
  exact (unreadable_body_is_failure _ _ _ req resp _
           (run_upload_replay _ _ _ _ _ _ (surjective_pairing run))
           Hin eq_refl eq_refl).
Defined.

(** ** The parts of a run that stay folded *)

Lemma posted_prints (l : list event) : Forall is_print l -> posted l = [].
Proof.
  intros F. apply posted_check. eapply Forall_impl; [| exact F].
  intros e; destruct e; simpl; tauto.
Qed.

(** The outcomes of the parts of a run that are kept folded: the
    interpretation of a response does not exit, and a handler returns
    [False]. *)
Ltac settle_parts :=
  repeat match goal with
    | H : Step1.interpret_response _ _ _ = (Exited ?c, _) |- _ =>
        exfalso;
        exact (proj2 (step1_interpret_response_confined _ _ _ _ _ H) c eq_refl)
    | H : UploadFlow.interpret_response _ _ _ = (Exited ?c, _) |- _ =>
        exfalso;
        exact (proj2 (flow_interpret_response_confined _ _ _ _ _ H) c eq_refl)
    | H : UploadFlow.check_requirements _ _ _ _ = (Exited ?c, _) |- _ =>
        exfalso;
        exact (proj2 (check_requirements_confined _ _ _ _ _ _ H) c eq_refl)
    | H : Step1.on_exception ?p ?e ?h = (?r, _) |- _ =>
        is_var r;
        let Hf := fresh "Hf" in
        pose proof (step1_on_exception_false p e h) as Hf;
        rewrite H in Hf; simpl in Hf; subst r
    | H : UploadFlow.on_exception ?c ?e ?h = (?r, _) |- _ =>
        is_var r;
        let Hf := fresh "Hf" in
        pose proof (flow_on_exception_false c e h) as Hf;
        rewrite H in Hf; simpl in Hf; subst r
    end.

(** The requests of the parts of a run that are kept folded: none. *)
Ltac posted_parts :=
  repeat match goal with
    | H : Step1.interpret_response _ _ _ = (_, ?l) |- _ =>
        pose proof (posted_prints l
                      (proj1 (step1_interpret_response_confined _ _ _ _ _ H)));
        clear H
    | H : UploadFlow.interpret_response _ _ _ = (_, ?l) |- _ =>
        pose proof (posted_prints l
                      (proj1 (flow_interpret_response_confined _ _ _ _ _ H)));
        clear H
    | H : Step1.on_exception _ _ _ = (_, ?l) |- _ =>
        pose proof (posted_prints l
                      (proj1 (step1_on_exception_confined _ _ _ _ _ H)));
        clear H
    | H : UploadFlow.on_exception _ _ _ = (_, ?l) |- _ =>
        pose proof (posted_prints l
                      (proj1 (flow_on_exception_confined _ _ _ _ _ H)));
        clear H
    | H : UploadFlow.check_requirements _ _ _ _ = (_, ?l) |- _ =>
        pose proof (posted_check l
                      (proj1 (check_requirements_confined _ _ _ _ _ _ H)));
        clear H
    end.

Ltac posted_events :=
  posted_parts; unfold posted in *; simpl;
  repeat (rewrite ?flat_map_app; simpl);
  repeat match goal with
    | H : flat_map _ ?l = [] |- _ => rewrite H; clear H; simpl
    end;
  rewrite ?app_nil_r.

(** ** Exceptions of the request *)

(** A handler prints at least one line. *)
Lemma step1_on_exception_speaks p e h r said :
  Step1.on_exception p e h = (r, said) -> said <> [].
Proof.
  unfold Step1.on_exception.
  destruct (isinstance_ConnectionError e); intros [= _ <-]; discriminate.
Qed.

Lemma flow_on_exception_speaks cfg e h r said :
  UploadFlow.on_exception cfg e h = (r, said) -> said <> [].
Proof.
  unfold UploadFlow.on_exception.
  destruct (isinstance_Timeout e), (isinstance_ConnectionError e);
    intros [= _ <-]; discriminate.
Qed.

(** The events of a list before its first request. *)
Ltac before_post l :=
  lazymatch l with
  | EvPost _ _ :: _ => constr:(@nil event)
  | ?x :: ?l' => let q := before_post l' in constr:(x :: q)
  | ?l1 ++ ?l' => let q := before_post l' in constr:(l1 ++ q)
  end.

(** What a handler printed, from the equation of its run. *)
Ltac handler_said :=
  match goal with
  | H : Step1.on_exception _ _ _ = (_, ?l) |- _ =>
      let Hp := fresh "Hprints" in
      let Hn := fresh "Hsaid" in
      pose proof (proj1 (step1_on_exception_confined _ _ _ _ _ H)) as Hp;
      pose proof (step1_on_exception_speaks _ _ _ _ _ H) as Hn
  | H : UploadFlow.on_exception _ _ _ = (_, ?l) |- _ =>
      let Hp := fresh "Hprints" in
      let Hn := fresh "Hsaid" in
      pose proof (proj1 (flow_on_exception_confined _ _ _ _ _ H)) as Hp;
      pose proof (flow_on_exception_speaks _ _ _ _ _ H) as Hn
  end.

Ltac split_at_post :=
  match goal with
  | |- exists before said, ?l = _ /\ _ =>
      let q := before_post l in
      exists q; eexists;
      split; [simpl; rewrite <- ?app_assoc; simpl; reflexivity |]
  end.

(** X4. Whatever exception the request raises, it is caught: the upload
    runner of either script returns [False]; no request was sent before
    this one, and all that happens after it is that the handler prints, at
    least one line. *)
Theorem failed_request_is_failure w r evs req e :
  upload_run w r evs ->
  In (EvPost req (PostRaised e)) evs ->
  r = Val false /\
  exists before said,
    evs = before ++ EvPost req (PostRaised e) :: said /\
    posted before = [] /\
    Forall is_print said /\
    said <> [].
Proof.
  intros Hrun.
  destruct Hrun as [p path h r evs Hrun | p cfg path h r evs Hrun];
    revert Hrun.
  - unfold Step1.upload_replay, Step1.generate_token. monad_unfold.
    unfold negb. simpl. run_cases.
    all: intros Hrun Hin; injection Hrun as <- <-; in_cases Hin;
      try (absent Hin).
    all: settle_parts; handler_said.
    all: split; [reflexivity |].
    all: split_at_post.
    all: split; [reflexivity |]. 
    all: split; assumption.
  - unfold UploadFlow.test_upload, UploadFlow.generate_token. monad_unfold.
    unfold negb. simpl. run_cases.
    all: intros Hrun Hin; injection Hrun as <- <-; in_cases Hin;
      try (absent Hin).
    all: settle_parts; handler_said.
    all: split; [reflexivity |].
    all: split_at_post.
    all: split; [| split; assumption].
    all: posted_events; reflexivity.
Qed.

Lemma failed_request_is_failure_witness :
  let e := RequestFailure "SSL: CERTIFICATE_VERIFY_FAILED" in
  let run := Step1.upload_replay (sample_world (PostRaised e))
               (sample_process ["step1.py"]) "/tmp/game.SC2Replay" [] in
  fst run = Val false /\
  exists req before said,
    snd run = before ++ EvPost req (PostRaised e) :: said /\
    posted before = [] /\
    Forall is_print said /\
    said <> [].
Proof.
  intros e run.
  assert (Hin : exists req, In (EvPost req (PostRaised e)) (snd run))
    by (eexists; in_list).
  destruct Hin as [req Hin].
  destruct (failed_request_is_failure _ _ _ req e
              (run_upload_replay _ _ _ _ _ _ (surjective_pairing run)) Hin)
    as (Hr & before & said & Hev).
  split; [exact Hr |].
  exists req, before, said. exact Hev.
Defined.

(** X5. Timeouts. The second script has a clause for them, tried first:
    a timeout of the request, while connecting or while reading, makes
    [test_upload] print that the request timed out after 60 s. The first
    script has none: a timeout while connecting is a connection error for
    it, reported with the command that starts the server, and a timeout
    while reading reaches the last clause, which prints its message. *)
Theorem timeouts_are_reported :
  (forall w p cfg path h r evs req e,
     UploadFlow.test_upload w p cfg path h = (r, evs) ->
     In (EvPost req (PostRaised e)) evs ->
     isinstance_Timeout e = true ->
     r = Val false /\
     exists pre,
       posted pre = [req] /\
       evs = pre ++ [EvPrint "❌ FAILED: Request timed out after 60s";
                     EvPrint EmptyString]) /\
  (forall w p path h r evs req msg,
     Step1.upload_replay w p path h = (r, evs) ->
     In (EvPost req (PostRaised (ConnectTimeout msg))) evs ->
     r = Val false /\
     exists pre,
       posted pre = [req] /\
       evs = pre ++
         [EvPrint ("❌ Connection Error: Could not connect to " ++ Step1.NEXT_API_URL);
          EvPrint "   Make sure Next.js dev server is running with:";
          EvPrint ("   SC2READER_API_URL='" ++ Step1.SC2READER_API_URL
                   ++ "' SC2READER_API_KEY='"
                   ++ Py.fmt_opt (Step1.SC2READER_API_KEY p)
                   ++ "' npm run dev")]) /\
  (forall w p path h r evs req msg,
     Step1.upload_replay w p path h = (r, evs) ->
     In (EvPost req (PostRaised (ReadTimeout msg))) evs ->
     r = Val false /\
     exists pre,
       posted pre = [req] /\
       evs = pre ++ [EvPrint ("❌ Error: " ++ msg)]).
Proof.
  split; [| split].
  - intros w p cfg path h r evs req e Hrun Hin Ht.
    destruct (flow_upload_posted _ _ _ _ _ _ _ _ _ Hrun Hin)
      as (pre & Hpre & -> & ->).
    unfold UploadFlow.on_exception. rewrite Ht.
    split; [reflexivity |]. exists pre. split; [exact Hpre | reflexivity].
  - intros w p path h r evs req msg Hrun Hin.
    destruct (step1_upload_posted _ _ _ _ _ _ _ _ Hrun Hin)
      as (pre & Hpre & -> & ->).
    split; [reflexivity |]. exists pre. split; [exact Hpre | reflexivity].
  - intros w p path h r evs req msg Hrun Hin.
    destruct (step1_upload_posted _ _ _ _ _ _ _ _ Hrun Hin)
      as (pre & Hpre & -> & ->).
    split; [reflexivity |]. exists pre. split; [exact Hpre | reflexivity].
Qed.

Lemma timeouts_are_reported_witness :
  In (EvPrint "❌ FAILED: Request timed out after 60s")
     (snd (UploadFlow.test_upload
             (sample_world (PostRaised (ReadTimeout "Read timed out.")))
             (sample_process ["test-upload-flow.py"; "3"]) (scenario "3")
             "/tmp/game.SC2Replay" [])) /\
  In (EvPrint "❌ Error: Read timed out.")
     (snd (Step1.upload_replay
             (sample_world (PostRaised (ReadTimeout "Read timed out.")))
             (sample_process ["step1.py"]) "/tmp/game.SC2Replay" [])).
Proof.
  destruct timeouts_are_reported as (Hflow & _ & Hread).
  split.
  - set (run := UploadFlow.test_upload _ _ _ _ _).
    assert (Hin : exists req,
               In (EvPost req (PostRaised (ReadTimeout "Read timed out.")))
                  (snd run))
      by (eexists; in_list).
    destruct Hin as [req Hin].
    destruct (Hflow _ _ _ _ _ _ _ req _ (surjective_pairing run) Hin eq_refl)
      as (_ & pre & _ & ->).
    in_events.
  - set (run := Step1.upload_replay _ _ _ _).
    assert (Hin : exists req,
               In (EvPost req (PostRaised (ReadTimeout "Read timed out.")))
                  (snd run))
      by (eexists; in_list).
    destruct Hin as [req Hin].
    destruct (Hread _ _ _ _ _ _ req _ (surjective_pairing run) Hin)
      as (_ & pre & _ & ->).
    in_events.
Defined.

(** ** One request, and what it carries *)

Lemma posted_none_or_some (l : list event) :
  posted l = [] \/ exists req a, In (EvPost req a) l.
Proof.
  induction l as [| e l IH]; [left; reflexivity |].
  destruct e; simpl;
    try (destruct IH as [IH | (rq & an & IH)];
         [left; exact IH | right; exists rq, an; right; exact IH]).
  right. eexists. eexists. left. reflexivity.
Qed.

(** X6. No retry: a run of the upload runner of either script sends at
    most one request. *)
Theorem at_most_one_request w r evs :
  upload_run w r evs ->
  (List.length (posted evs) <= 1)%nat.
Proof.
  intros Hrun.
  destruct (posted_none_or_some evs) as [-> | (req & a & Hin)];
    [simpl; lia |].
  assert (Hone : posted evs = [req]); [| rewrite Hone; simpl; lia].
  destruct Hrun as [p path h r evs Hrun | p cfg path h r evs Hrun].
  - destruct (step1_upload_posted _ _ _ _ _ _ _ _ Hrun Hin) as (pre & Hpre & Ha).
    destruct a as [resp | e].
    + destruct Ha as (ri & ei & Hi & -> & _).
      rewrite !posted_app, Hpre.
      rewrite (posted_prints ei
                 (proj1 (step1_interpret_response_confined _ _ _ _ _ Hi))).
      destruct ri; simpl; try reflexivity.
      rewrite (posted_prints _
                 (proj1 (step1_on_exception_confined p e [] _ _
                           (surjective_pairing _)))).
      reflexivity.
    + destruct Ha as (-> & _). rewrite posted_app, Hpre.
      rewrite (posted_prints _
                 (proj1 (step1_on_exception_confined p e [] _ _
                           (surjective_pairing _)))).
      reflexivity.
  - destruct (flow_upload_posted _ _ _ _ _ _ _ _ _ Hrun Hin) as (pre & Hpre & Ha).
    destruct a as [resp | e].
    + destruct Ha as (ri & ei & Hi & -> & _).
      rewrite !posted_app, Hpre.
      rewrite (posted_prints ei
                 (proj1 (flow_interpret_response_confined _ _ _ _ _ Hi))).
      destruct ri; simpl; try reflexivity.
      rewrite (posted_prints _
                 (proj1 (flow_on_exception_confined cfg e [] _ _
                           (surjective_pairing _)))).
      reflexivity.
    + destruct Ha as (-> & _). rewrite posted_app, Hpre.
      rewrite (posted_prints _
                 (proj1 (flow_on_exception_confined cfg e [] _ _
                           (surjective_pairing _)))).
      reflexivity.
Qed.

Lemma at_most_one_request_witness :
  List.length
    (posted (snd (Step1.upload_replay
                    (sample_world (Responded sample_error_page))
                    (sample_process ["step1.py"]) "/tmp/game.SC2Replay" []))) = 1%nat.
Proof.
  set (run := Step1.upload_replay _ _ _ _).
  pose proof (at_most_one_request _ _ _
                (run_upload_replay _ _ _ _ _ _ (surjective_pairing run))) as H.
  assert (H0 : (1 <= List.length (posted (snd run)))%nat) by (vm_compute; lia).
  lia.
Defined.

Lemma signed_check (l : list event) : Forall is_check l -> signed l = [].
Proof.
  induction 1 as [| e l He _ IH]; [reflexivity |].
  destruct e; simpl in *; try contradiction; exact IH.
Qed.

Lemma signed_prints (l : list event) : Forall is_print l -> signed l = [].
Proof.
  intros F. apply signed_check. eapply Forall_impl; [| exact F].
  intros e; destruct e; simpl; tauto.
Qed.

(** The tokens signed by the parts of a run that are kept folded: none. *)
Ltac signed_parts :=
  repeat match goal with
    | H : Step1.interpret_response _ _ _ = (_, ?l) |- _ =>
        pose proof (signed_prints l
                      (proj1 (step1_interpret_response_confined _ _ _ _ _ H)));
        clear H
    | H : UploadFlow.interpret_response _ _ _ = (_, ?l) |- _ =>
        pose proof (signed_prints l
                      (proj1 (flow_interpret_response_confined _ _ _ _ _ H)));
        clear H
    | H : Step1.on_exception _ _ _ = (_, ?l) |- _ =>
        pose proof (signed_prints l
                      (proj1 (step1_on_exception_confined _ _ _ _ _ H)));
        clear H
    | H : UploadFlow.on_exception _ _ _ = (_, ?l) |- _ =>
        pose proof (signed_prints l
                      (proj1 (flow_on_exception_confined _ _ _ _ _ H)));
        clear H
    | H : UploadFlow.check_requirements _ _ _ _ = (_, ?l) |- _ =>
        pose proof (signed_check l
                      (proj1 (check_requirements_confined _ _ _ _ _ _ H)));
        clear H
    end.

Ltac signed_events :=
  signed_parts; unfold signed in *; simpl;
  repeat (rewrite ?flat_map_app; simpl);
  repeat match goal with
    | H : flat_map _ ?l = [] |- _ => rewrite H; clear H; simpl
    end;
  rewrite ?app_nil_r.

(** What the request of a run of [upload_replay] carries, and what the run
    did before it. *)
Lemma step1_request w p path h r evs req a :
  Step1.upload_replay w p path h = (r, evs) ->
  In (EvPost req a) evs ->
  req_url req = (Step1.NEXT_API_URL ++ "/api/my-replays")%string /\
  req_file_path req = path /\
  req_file_name req = PyStr.basename path /\
  req_file_type req = "application/octet-stream" /\
  req_timeout req = 60%Z /\
  In (EvOpen path Opened) evs /\
  signed evs = [req_bearer req] /\
  tok_alg (req_bearer req) = "HS256" /\
  Step1.LOCAL_JWT_SECRET p = Some (tok_key (req_bearer req)).
Proof.
  unfold Step1.upload_replay, Step1.generate_token. monad_unfold.
  unfold negb. simpl.
  destruct (Step1.LOCAL_JWT_SECRET p) as [key |]; simpl.
  - run_cases.
    all: intros Hrun Hin; injection Hrun as <- <-; in_cases Hin;
      try (absent Hin).
    all: repeat (split; [first [reflexivity | in_events] |]).
    all: split; [signed_events; reflexivity | split; reflexivity].
  - intros Hrun Hin; injection Hrun as <- <-; in_cases Hin.
Qed.

(** The same for [test_upload]; the key is the secret with [\$] replaced
    by [$]. *)
Lemma flow_request w p cfg path h r evs req a :
  UploadFlow.test_upload w p cfg path h = (r, evs) ->
  In (EvPost req a) evs ->
  req_url req = (UploadFlow.api_url cfg ++ "/api/my-replays")%string /\
  req_file_path req = path /\
  req_file_name req = PyStr.basename path /\
  req_file_type req = "application/octet-stream" /\
  req_timeout req = 60%Z /\
  In (EvOpen path Opened) evs /\
  signed evs = [req_bearer req] /\
  tok_alg (req_bearer req) = "HS256" /\
  option_map unescape_dollar (UploadFlow.AUTH_SECRET p)
  = Some (tok_key (req_bearer req)).
Proof.
  unfold UploadFlow.test_upload, UploadFlow.generate_token. monad_unfold.
  unfold negb, unescape_dollar. simpl.
  destruct (UploadFlow.AUTH_SECRET p) as [key |]; simpl.
  - run_cases.
    all: intros Hrun Hin; injection Hrun as <- <-; in_cases Hin;
      try (absent Hin).
    all: repeat (split; [first [reflexivity | simpl; in_events] |]).
    all: split; [signed_events; reflexivity | split; reflexivity].
  - run_cases.
    all: intros Hrun Hin; injection Hrun as <- <-; in_cases Hin;
      try (absent Hin).
Qed.

(** X7. What the one request carries, in either script: the opened file
    under its base name with the type [application/octet-stream], a timeout
    of 60 seconds, and as bearer the one token signed in the run, signed
    with HS256; the file was opened before. *)
Theorem request_shape w r evs req a :
  upload_run w r evs ->
  In (EvPost req a) evs ->
  req_file_name req = PyStr.basename (req_file_path req) /\
  req_file_type req = "application/octet-stream" /\
  req_timeout req = 60%Z /\
  In (EvOpen (req_file_path req) Opened) evs /\
  signed evs = [req_bearer req] /\
  tok_alg (req_bearer req) = "HS256".
Proof.
  intros Hrun Hin.
  destruct Hrun as [p path h r evs Hrun | p cfg path h r evs Hrun].
  - destruct (step1_request _ _ _ _ _ _ _ _ Hrun Hin)
      as (_ & Hp & Hn & Ht & Hs & Ho & Hb & Ha & _).
    rewrite Hp. auto 10.
  - destruct (flow_request _ _ _ _ _ _ _ _ _ Hrun Hin)
      as (_ & Hp & Hn & Ht & Hs & Ho & Hb & Ha & _).
    rewrite Hp. auto 10.
Qed.

Lemma request_shape_witness :
  let run := UploadFlow.test_upload (sample_world (Responded sample_error_page))
               (sample_process ["test-upload-flow.py"; "1"]) (scenario "1")
               "/tmp/replays/game.SC2Replay" [] in
  map req_file_name (posted (snd run)) = ["game.SC2Replay"] /\
  map req_timeout (posted (snd run)) = [60%Z] /\
  signed (snd run) = map req_bearer (posted (snd run)).
Proof.
  intros run.
  assert (Hin : exists req a,
             In (EvPost req a) (snd run) /\ posted (snd run) = [req])
    by (eexists; eexists; split; [in_list | reflexivity]).
  destruct Hin as (req & a & Hin & Hp).
  destruct (request_shape _ _ _ req a
              (run_test_upload _ _ _ _ _ _ _ (surjective_pairing run)) Hin)
    as (Hn & _ & Ht & Ho & Hs & _).
  assert (Hpath : map req_file_path (posted (snd run))
                  = ["/tmp/replays/game.SC2Replay"]) by reflexivity.
  rewrite Hp in *. simpl in *. injection Hpath as Hpath.
  rewrite Hn, Ht, Hs, Hpath. repeat split.
Defined.

(** X8. Where the request goes. The first script posts the file it was
    given to [/api/my-replays] of the local server, whatever the
    environment says; the second posts it to [/api/my-replays] of the API
    of its scenario. *)
Theorem request_destination :
  (forall w p path h r evs req a,
     Step1.upload_replay w p path h = (r, evs) ->
     In (EvPost req a) evs ->
     req_url req = "http://localhost:3000/api/my-replays" /\
     req_file_path req = path) /\
  (forall w p cfg path h r evs req a,
     UploadFlow.test_upload w p cfg path h = (r, evs) ->
     In (EvPost req a) evs ->
     req_url req = (UploadFlow.api_url cfg ++ "/api/my-replays")%string /\
     req_file_path req = path).
Proof.
  split.
  - intros w p path h r evs req a Hrun Hin.
    destruct (step1_request _ _ _ _ _ _ _ _ Hrun Hin) as (Hu & Hp & _).
    split; [exact Hu | exact Hp].
  - intros w p cfg path h r evs req a Hrun Hin.
    destruct (flow_request _ _ _ _ _ _ _ _ _ Hrun Hin) as (Hu & Hp & _).
    split; [exact Hu | exact Hp].
Qed.

Lemma request_destination_witness :
  map req_url
    (posted (snd (UploadFlow.test_upload (sample_world (Responded sample_error_page))
                    (sample_process ["test-upload-flow.py"; "3"]) (scenario "3")
                    "/tmp/game.SC2Replay" [])))
  = ["https://www.ladderlegendsacademy.com/api/my-replays"].
Proof.
  set (run := UploadFlow.test_upload _ _ _ _ _).
  assert (Hin : exists req a,
             In (EvPost req a) (snd run) /\ posted (snd run) = [req])
    by (eexists; eexists; split; [in_list | reflexivity]).
  destruct Hin as (req & a & Hin & Hp).
  destruct (proj2 request_destination _ _ _ _ _ _ _ req a
              (surjective_pairing run) Hin) as (Hu & _).
  rewrite Hp. simpl. rewrite Hu. reflexivity.
Defined.

(** ** Opening the file *)

(** X9. The file is opened outside the [try]: when [open] fails, its
    error leaves the upload runner of either script, and no request is
    sent. *)
Theorem open_failure_escapes w r evs path msg :
  upload_run w r evs ->
  In (EvOpen path (OpenFailed msg)) evs ->
  r = Raised (OSError msg) /\ posted evs = [].
Proof.
  intros Hrun.
  destruct Hrun as [p path' h r evs Hrun | p cfg path' h r evs Hrun];
    revert Hrun.
  - unfold Step1.upload_replay, Step1.generate_token. monad_unfold.
    unfold negb. simpl. run_cases.
    all: intros Hrun Hin; injection Hrun as <- <-; in_cases Hin;
      try (absent Hin).
    all: split; reflexivity.
  - unfold UploadFlow.test_upload, UploadFlow.generate_token. monad_unfold.
    unfold negb. simpl. run_cases.
    all: intros Hrun Hin; injection Hrun as <- <-; in_cases Hin;
      try (absent Hin).
    all: split; [reflexivity | posted_events; reflexivity].
Qed.

Lemma open_failure_escapes_witness :
  let w := {| w_utcnow := fun _ => 1735689600000000%Z;
              w_lsof := fun _ _ => Some 0%Z;
              w_exists := fun _ _ => true;
              w_open := fun _ _ => OpenFailed "Permission denied";
              w_post := fun _ _ => Responded sample_error_page;
              w_repr := fun _ => "<object>" |} in
  let run := UploadFlow.test_upload w (sample_process ["test-upload-flow.py"; "1"])
               (scenario "1") "/tmp/game.SC2Replay" [] in
  fst run = Raised (OSError "Permission denied") /\ posted (snd run) = [].
Proof.
  eapply (open_failure_escapes _ _ _ "/tmp/game.SC2Replay").
  - eapply run_test_upload. apply surjective_pairing.
  - in_list.
Defined.

(** X10. Once the file is open, the upload runner of either script sends
    its request and returns a boolean: no exception of the request or of
    the reading of the response leaves it. *)
Theorem opened_file_is_posted w r evs path :
  upload_run w r evs ->
  In (EvOpen path Opened) evs ->
  (exists b, r = Val b) /\
  (exists req, posted evs = [req] /\ req_file_path req = path).
Proof.
  intros Hrun.
  destruct Hrun as [p path' h r evs Hrun | p cfg path' h r evs Hrun];
    revert Hrun.
  - unfold Step1.upload_replay, Step1.generate_token. monad_unfold.
    unfold negb. simpl. run_cases.
    all: intros Hrun Hin; injection Hrun as <- <-; in_cases Hin;
      try (absent Hin).
    all: settle_parts.
    all: split; [eexists; reflexivity |].
    all: eexists; split; [posted_events; reflexivity | reflexivity].
  - unfold UploadFlow.test_upload, UploadFlow.generate_token. monad_unfold.
    unfold negb. simpl. run_cases.
    all: intros Hrun Hin; injection Hrun as <- <-; in_cases Hin;
      try (absent Hin).
    all: settle_parts.
    all: split; [eexists; reflexivity |].
    all: eexists; split; [posted_events; reflexivity | reflexivity].
Qed.

Lemma opened_file_is_posted_witness :
  let run := Step1.upload_replay
               (sample_world (PostRaised (ReadTimeout "Read timed out.")))
               (sample_process ["step1.py"]) "/tmp/game.SC2Replay" [] in
  (exists b, fst run = Val b) /\
  (exists req, posted (snd run) = [req] /\
               req_file_path req = "/tmp/game.SC2Replay").
Proof.
  eapply (opened_file_is_posted _ _ _ "/tmp/game.SC2Replay").
  - eapply run_upload_replay. apply surjective_pairing.
  - in_list.
Defined.

(** ** What [True] means *)

(** The interpretation of a response gives [True] only for status 200 and
    a body that is a record with a true [success] and a record [replay]
    with an [id]; the identifier is printed. *)
Lemma step1_interpret_true w resp h ei :
  Step1.interpret_response w resp h = (Val true, ei) ->
  status_code resp = 200%Z /\
  exists body id,
    json resp = inr (PDict body) /\
    Py.truthy (field body "success") = true /\
    replay_id body = Some id /\
    In (EvPrint "✅ SUCCESS! Replay uploaded and analyzed") ei /\
    In (EvPrint ("   Replay ID: " ++ py_str w id)) ei.
Proof.
  unfold Step1.interpret_response. monad_unfold.
  unfold Py.get, Py.get_or, Py.getitem, field, replay_id.
  destruct (status_code resp =? 200)%Z eqn:Hs; simpl.
  - apply Z.eqb_eq in Hs.
    destruct (json resp) as [m | [| | | | | |body]]; simpl;
      try discriminate.
    destruct (Py.truthy match Py.lookup "success" body with
                        | Some x => x
                        | None => PNone
                        end) eqn:Hok; simpl; [| discriminate].
    destruct (Py.lookup "replay" body) as [[| | | | | | replay] |] eqn:Hr;
      simpl; try discriminate.
    destruct (Py.lookup "id" replay) as [id |] eqn:Hid; simpl;
      [| discriminate].
    destruct (Step1.print_fingerprint w (PDict body) _) as [[u | e | c] ef];
      simpl; try discriminate.
    intros [= <-]. split; [exact Hs |].
    exists body, id.
    split; [reflexivity |]. split; [exact Hok |]. split; [rewrite Hr; exact Hid |].
    split; in_list.
  - destruct (json resp) as [m | v]; simpl; discriminate.
Qed.

Lemma flow_interpret_true w resp h ei :
  UploadFlow.interpret_response w resp h = (Val true, ei) ->
  status_code resp = 200%Z /\
  exists body id,
    json resp = inr (PDict body) /\
    Py.truthy (field body "success") = true /\
    replay_id body = Some id /\
    In (EvPrint "✅ SUCCESS! Replay uploaded and analyzed") ei /\
    In (EvPrint ("   Replay ID: " ++ py_str w id)) ei.
Proof.
  unfold UploadFlow.interpret_response. monad_unfold.
  unfold Py.get, Py.get_or, Py.getitem, field, replay_id.
  destruct (status_code resp =? 200)%Z eqn:Hs; simpl.
  - apply Z.eqb_eq in Hs.
    destruct (json resp) as [m | [| | | | | |body]]; simpl;
      try discriminate.
    destruct (Py.truthy match Py.lookup "success" body with
                        | Some x => x
                        | None => PNone
                        end) eqn:Hok; simpl; [| discriminate].
    destruct (Py.lookup "replay" body) as [[| | | | | | replay] |] eqn:Hr;
      simpl; try discriminate.
    destruct (Py.lookup "id" replay) as [id |] eqn:Hid; simpl;
      [| discriminate].
    destruct (UploadFlow.print_fingerprint w (PDict body) _) as [[u | e | c] ef];
      simpl; try discriminate.
    intros [= <-]. split; [exact Hs |].
    exists body, id.
    split; [reflexivity |]. split; [exact Hok |]. split; [rewrite Hr; exact Hid |].
    split; in_list.
  - destruct (json resp) as [m | v]; simpl; discriminate.
Qed.

(** An event is in a list, the event being found by the search. *)
Ltac find_event :=
  simpl; repeat first [left; reflexivity | right | apply in_or_app; right].

(** A run that returned [True] has sent its request and got a response. *)
Lemma step1_true_posted w p path h evs :
  Step1.upload_replay w p path h = (Val true, evs) ->
  exists req resp, In (EvPost req (Responded resp)) evs.
Proof.
  unfold Step1.upload_replay, Step1.generate_token. monad_unfold.
  unfold negb. simpl. run_cases.
  all: settle_parts.
  all: intros Hrun; first [discriminate Hrun | injection Hrun as Hb He; subst].
  all: eexists; eexists; find_event.
Qed.

Lemma flow_true_posted w p cfg path h evs :
  UploadFlow.test_upload w p cfg path h = (Val true, evs) ->
  exists req resp, In (EvPost req (Responded resp)) evs.
Proof.
  unfold UploadFlow.test_upload, UploadFlow.generate_token. monad_unfold.
  unfold negb. simpl. run_cases.
  all: settle_parts.
  all: intros Hrun; first [discriminate Hrun | injection Hrun as Hb He; subst].
  all: eexists; eexists; find_event.
Qed.

(** A run that returned [True] shows an accepted upload. *)
Lemma step1_true_uploaded w p path h evs :
  Step1.upload_replay w p path h = (Val true, evs) -> uploaded w evs.
Proof.
  intros Hrun.
  destruct (step1_true_posted _ _ _ _ _ Hrun) as (req & resp & Hin).
  destruct (step1_upload_posted _ _ _ _ _ _ _ _ Hrun Hin)
    as (pre & _ & ri & ei & Hi & -> & Hr).
  destruct ri as [b | e | c]; simpl in Hr.
  - injection Hr as <-.
    destruct (step1_interpret_true _ _ _ _ Hi)
      as (Hs & body & id & Hj & Hok & Hid & H1 & H2).
    exists req, resp, body, id.
    repeat split; try assumption; in_events.
  - rewrite step1_on_exception_false in Hr. discriminate Hr.
  - discriminate Hr.
Qed.

Lemma flow_true_uploaded w p cfg path h evs :
  UploadFlow.test_upload w p cfg path h = (Val true, evs) -> uploaded w evs.
Proof.
  intros Hrun.
  destruct (flow_true_posted _ _ _ _ _ _ Hrun) as (req & resp & Hin).
  destruct (flow_upload_posted _ _ _ _ _ _ _ _ _ Hrun Hin)
    as (pre & _ & ri & ei & Hi & -> & Hr).
  destruct ri as [b | e | c]; simpl in Hr.
  - injection Hr as <-.
    destruct (flow_interpret_true _ _ _ _ Hi)
      as (Hs & body & id & Hj & Hok & Hid & H1 & H2).
    exists req, resp, body, id.
    repeat split; try assumption; in_events.
  - rewrite flow_on_exception_false in Hr. discriminate Hr.
  - discriminate Hr.
Qed.

(** X11. The upload runner of either script returns [True] only when its
    request was answered with status 200 and a JSON record with a true
    [success] and a record [replay] with an [id]; it has then printed the
    line of success and the identifier. *)
Theorem true_means_uploaded w evs :
  upload_run w (Val true) evs ->
  uploaded w evs.
Proof.
  intros Hrun.
  remember (Val true) as r eqn:Hr.
  destruct Hrun as [p path h r evs Hrun | p cfg path h r evs Hrun]; subst r.
  - exact (step1_true_uploaded _ _ _ _ _ Hrun).
  - exact (flow_true_uploaded _ _ _ _ _ _ Hrun).
Qed.

Lemma true_means_uploaded_witness :
  let resp := sample_ok [("success", PBool true);
                         ("replay", PDict [("id", PStr "r-42")])] in
  let run := Step1.upload_replay (sample_world (Responded resp))
               (sample_process ["step1.py"]) "/tmp/game.SC2Replay" [] in
  uploaded (sample_world (Responded resp)) (snd run).
Proof.
  intros resp run.
  assert (Hr : run = (Val true, snd run)) by (vm_compute; reflexivity).
  apply true_means_uploaded.
  exact (run_upload_replay _ _ _ _ _ _ Hr).
Defined.

(** ** The check of the requirements *)

(** The check of one port never raises: when [lsof] cannot be run, the
    port counts as closed. *)
Lemma check_process_running_run w port h :
  UploadFlow.check_process_running w port h
  = (Val (listening (w_lsof w h port)), [EvLsof port (w_lsof w h port)]).
Proof.
  unfold UploadFlow.check_process_running. monad_unfold.
  destruct (w_lsof w h port) as [rc |]; reflexivity.
Qed.

Lemma marker_ok_split (m : string) :
  marker_ok m = true ->
  exists service,
    PyStr.split_on ":"%char m = [service; port_of m].
Proof.
  unfold marker_ok, port_of.
  destruct (PyStr.split_on ":"%char m) as [| a [| b [| c l]]];
    try discriminate.
  intros _. exists a. reflexivity.
Qed.

(** The loop over well-formed markers asks about each of them, in order,
    and adds those found closed to the list. *)
Lemma find_missing_run w reqs :
  forallb marker_ok reqs = true ->
  forall missing h,
  exists answers,
    List.length answers = List.length reqs /\
    UploadFlow.find_missing w reqs missing h
    = (Val (missing ++ closed_markers reqs answers), lsof_events reqs answers).
Proof.
  induction reqs as [| req rest IH]; intros Hok missing h.
  - exists []. split; [reflexivity |].
    simpl. unfold ret. rewrite app_nil_r. reflexivity.
  - simpl in Hok. apply andb_prop in Hok. destruct Hok as [Hreq Hrest].
    destruct (marker_ok_split req Hreq) as [service Hsplit].
    set (rc := w_lsof w h (port_of req)).
    destruct (IH Hrest
                (if negb (listening rc) then missing ++ [req] else missing)
                (h ++ [EvLsof (port_of req) rc]))
      as (answers & Hlen & Hrun).
    exists (rc :: answers). split; [simpl; rewrite Hlen; reflexivity |].
    simpl. unfold bind at 1. unfold lift. rewrite Hsplit. simpl.
    unfold bind at 1. rewrite app_nil_r.
    rewrite check_process_running_run. fold rc. simpl.
    rewrite Hrun. unfold closed_markers, lsof_events. simpl.
    destruct (negb (listening rc)); simpl;
      rewrite <- ?app_assoc; reflexivity.
Qed.

(** A loop that returns has met well-formed markers only; otherwise it
    raises the [ValueError] of the unpacking. *)
Lemma find_missing_outcome w reqs :
  forall missing h,
    match fst (UploadFlow.find_missing w reqs missing h) with
    | Val _ => forallb marker_ok reqs = true
    | Raised e => forallb marker_ok reqs = false /\ exists msg, e = ValueError msg
    | Exited _ => False
    end.
Proof.
  induction reqs as [| req rest IH]; intros missing h; [reflexivity |].
  cbn [UploadFlow.find_missing forallb]. unfold bind at 1. unfold lift.
  assert (Hm : marker_ok req = match PyStr.split_on ":"%char req with
                               | [_; _] => true
                               | _ => false
                               end) by reflexivity.
  rewrite Hm. clear Hm.
  destruct (PyStr.split_on ":"%char req) as [| a [| b [| c l]]];
    cbn [UploadFlow.unpack2 fst snd andb];
    try (split; [reflexivity | eexists; reflexivity]).
  unfold ret at 1. cbn [snd]. unfold bind at 1.
  rewrite check_process_running_run.
  match goal with
  | |- context [UploadFlow.find_missing w rest ?m ?h'] =>
      specialize (IH m h');
      destruct (UploadFlow.find_missing w rest m h') as [[v | e | c] evs]
  end; simpl in *; exact IH.
Qed.

Lemma closed_markers_ok reqs :
  forall answers,
    forallb marker_ok reqs = true ->
    forallb marker_ok (closed_markers reqs answers) = true.
Proof.
  unfold closed_markers.
  induction reqs as [| req rest IH]; intros [| rc answers] Hok;
    try reflexivity.
  simpl in *. apply andb_prop in Hok. destruct Hok as [Hreq Hrest].
  destruct (negb (listening rc)); simpl; [rewrite Hreq; simpl |];
    apply IH; exact Hrest.
Qed.

(** For well-formed markers, the commands are printed, and nothing else
    happens. *)
Lemma print_start_commands_run p cfg missing :
  forallb marker_ok missing = true ->
  forall h,
  exists said,
    UploadFlow.print_start_commands p cfg missing h = (Val tt, said) /\
    Forall is_print said.
Proof.
  induction missing as [| req rest IH]; intros Hok h.
  - exists []. split; [reflexivity | constructor].
  - simpl in Hok. apply andb_prop in Hok. destruct Hok as [Hreq Hrest].
    destruct (marker_ok_split req Hreq) as [service Hsplit].
    simpl. unfold bind at 1. unfold lift. rewrite Hsplit. simpl.
    destruct (String.eqb service "next");
      [| destruct (String.eqb service "sc2reader")];
      monad_unfold; simpl;
      match goal with
      | |- context [UploadFlow.print_start_commands p cfg rest ?h'] =>
          destruct (IH Hrest h') as (said & -> & Hsaid)
      end; simpl; eexists; (split; [reflexivity |]);
      repeat (constructor; [exact I |]); exact Hsaid.
Qed.

Lemma all_listening_app (l1 l2 : list event) :
  all_listening (l1 ++ l2) = all_listening l1 && all_listening l2.
Proof. apply forallb_app. Qed.

Lemma all_listening_prints (l : list event) :
  Forall is_print l -> all_listening l = true.
Proof.
  induction 1 as [| e l He _ IH]; [reflexivity |].
  destruct e; simpl in *; try contradiction; exact IH.
Qed.

Lemma lsof_ports_app (l1 l2 : list event) :
  lsof_ports (l1 ++ l2) = lsof_ports l1 ++ lsof_ports l2.
Proof. apply flat_map_app. Qed.

Lemma lsof_answers_app (l1 l2 : list event) :
  lsof_answers (l1 ++ l2) = lsof_answers l1 ++ lsof_answers l2.
Proof. apply flat_map_app. Qed.

Lemma lsof_ports_prints (l : list event) : Forall is_print l -> lsof_ports l = [].
Proof.
  induction 1 as [| e l He _ IH]; [reflexivity |].
  destruct e; simpl in *; try contradiction; exact IH.
Qed.

Lemma lsof_answers_prints (l : list event) :
  Forall is_print l -> lsof_answers l = [].
Proof.
  induction 1 as [| e l He _ IH]; [reflexivity |].
  destruct e; simpl in *; try contradiction; exact IH.
Qed.

Lemma lsof_events_facts reqs :
  forall answers,
    List.length answers = List.length reqs ->
    lsof_ports (lsof_events reqs answers) = map port_of reqs /\
    lsof_answers (lsof_events reqs answers) = answers /\
    all_listening (lsof_events reqs answers) = forallb listening answers /\
    (closed_markers reqs answers = [] <-> forallb listening answers = true).
Proof.
  unfold lsof_events, closed_markers.
  induction reqs as [| req rest IH]; intros [| rc answers] Hlen;
    try discriminate Hlen.
  - repeat split; reflexivity.
  - injection Hlen as Hlen.
    destruct (IH answers Hlen) as (Hp & Ha & Hl & Hc).
    simpl. unfold lsof_ports, lsof_answers in *. simpl.
    rewrite Hp, Ha, Hl.
    repeat split; destruct (listening rc); simpl; try apply Hc;
      discriminate.
Qed.

Lemma printed_lsof_events reqs answers :
  printed (lsof_events reqs answers) = [].
Proof.
  unfold lsof_events.
  induction (combine reqs answers) as [| mr l IH]; [reflexivity | exact IH].
Qed.

(** What a run of the check over well-formed markers does and gives. *)
Lemma check_requirements_run w p cfg h r evs :
  forallb marker_ok (UploadFlow.requires cfg) = true ->
  UploadFlow.check_requirements w p cfg h = (r, evs) ->
  lsof_ports evs = map port_of (UploadFlow.requires cfg) /\
  r = Val (all_listening evs) /\
  (all_listening evs = true -> printed evs = []) /\
  (all_listening evs = false ->
   In (EvPrint ("❌ Missing required services: "
                ++ PyStr.join ", "
                     (closed_markers (UploadFlow.requires cfg)
                        (lsof_answers evs)))) evs).
Proof.
  intros Hok. unfold UploadFlow.check_requirements. unfold bind at 1.
  destruct (find_missing_run w _ Hok [] h) as (answers & Hlen & ->).
  destruct (lsof_events_facts _ _ Hlen) as (Hp & Ha & Hl & Hc).
  simpl.
  destruct (closed_markers (UploadFlow.requires cfg) answers)
    as [| m missing] eqn:Hm.
  - unfold ret. intros [= <- <-]. rewrite app_nil_r, Hp, Hl.
    rewrite (proj1 Hc eq_refl).
    repeat split; try discriminate.
    intros _. apply printed_lsof_events.
  - pose proof (closed_markers_ok _ answers Hok) as Hmok. rewrite Hm in Hmok.
    monad_unfold.
    match goal with
    | |- context [UploadFlow.print_start_commands p cfg (m :: missing) ?h'] =>
        destruct (print_start_commands_run p cfg _ Hmok h') as (said & -> & Hsaid)
    end.
    simpl. intros [= <- <-].
    assert (Hnot : forallb listening answers = false).
    { destruct (forallb listening answers); [| reflexivity].
      destruct Hc as [_ Hc]. discriminate (Hc eq_refl). }
    rewrite !lsof_ports_app, !lsof_answers_app, !all_listening_app, Hp, Ha, Hl, Hnot.
    assert (Hrest : Forall is_print
                      (EvPrint ("❌ Missing required services: "
                                ++ PyStr.join ", " (m :: missing))
                       :: EvPrint EmptyString :: said ++ [EvPrint EmptyString])).
    { repeat (constructor; [exact I |]).
      apply Forall_app. split; [exact Hsaid | repeat constructor]. }
    rewrite (lsof_ports_prints _ Hrest), (lsof_answers_prints _ Hrest).
    rewrite !app_nil_r, Hm. simpl.
    repeat split; try discriminate.
    intros _. apply in_or_app. right. left. reflexivity.
Qed.

(** X12. The check of the requirements of any scenario whose markers have
    the form [service:port]: [lsof] is asked about the port of every
    marker, in their order, also after one was found closed; the result is
    [True] exactly when every answer found a listener, and then nothing is
    printed; otherwise the markers whose answer found none are printed as
    missing, joined by commas. *)
Theorem requirements_are_all_checked w p cfg h r evs :
  forallb marker_ok (UploadFlow.requires cfg) = true ->
  UploadFlow.check_requirements w p cfg h = (r, evs) ->
  lsof_ports evs = map port_of (UploadFlow.requires cfg) /\
  r = Val (all_listening evs) /\
  (all_listening evs = true -> printed evs = []) /\
  (all_listening evs = false ->
   In (EvPrint ("❌ Missing required services: "
                ++ PyStr.join ", "
                     (closed_markers (UploadFlow.requires cfg)
                        (lsof_answers evs)))) evs).
Proof. exact (check_requirements_run w p cfg h r evs). Qed.

Lemma requirements_are_all_checked_witness :
  let w := {| w_utcnow := fun _ => 1735689600000000%Z;
              w_lsof := fun _ port => if String.eqb port "3000" then Some 1%Z
                                      else Some 0%Z;
              w_exists := fun _ _ => true;
              w_open := fun _ _ => Opened;
              w_post := fun _ _ => Responded sample_error_page;
              w_repr := fun _ => "<object>" |} in
  let run := UploadFlow.check_requirements w (sample_process ["test-upload-flow.py"; "1"])
               (scenario "1") [] in
  lsof_ports (snd run) = ["3000"; "8000"] /\
  fst run = Val false /\
  In (EvPrint "❌ Missing required services: next:3000") (snd run).
Proof.
  intros w run.
  destruct (requirements_are_all_checked w _ (scenario "1") [] (fst run) (snd run)
              eq_refl (surjective_pairing run))
    as (Hp & Hr & _ & Hm).
  split; [exact Hp |]. split; [exact Hr |]. exact (Hm eq_refl).
Defined.

(** A check that gives [True] found a listener at every answer. *)
Lemma check_requirements_true w p cfg h ec :
  UploadFlow.check_requirements w p cfg h = (Val true, ec) ->
  all_listening ec = true.
Proof.
  pose proof (find_missing_outcome w (UploadFlow.requires cfg) [] h) as Hout.
  unfold UploadFlow.check_requirements. unfold bind at 1.
  destruct (UploadFlow.find_missing w (UploadFlow.requires cfg) [] h)
    as [[missing | e | c] evs] eqn:Hfm; simpl in Hout; try discriminate.
  destruct (find_missing_run w _ Hout [] h) as (answers & Hlen & Hrun).
  rewrite Hrun in Hfm. injection Hfm as <- <-.
  destruct (lsof_events_facts _ _ Hlen) as (_ & _ & Hl & Hc).
  simpl.
  destruct (closed_markers (UploadFlow.requires cfg) answers) as [| m missing].
  - unfold ret. intros [= <-]. rewrite app_nil_r, Hl. apply Hc. reflexivity.
  - monad_unfold.
    match goal with
    | |- context [UploadFlow.print_start_commands p cfg (m :: missing) ?h'] =>
        destruct (UploadFlow.print_start_commands p cfg (m :: missing) h')
          as [[u | e | c] said]
    end; simpl; discriminate.
Qed.

(** A marker that does not split into a service and a port makes the
    check raise the [ValueError] of the unpacking, after the questions
    about the markers before it. *)
Lemma check_requirements_malformed w p cfg h :
  forallb marker_ok (UploadFlow.requires cfg) = false ->
  exists msg evs,
    UploadFlow.check_requirements w p cfg h = (Raised (ValueError msg), evs).
Proof.
  intros Hbad.
  pose proof (find_missing_outcome w (UploadFlow.requires cfg) [] h) as Hout.
  unfold UploadFlow.check_requirements. unfold bind at 1.
  destruct (UploadFlow.find_missing w (UploadFlow.requires cfg) [] h)
    as [[missing | e | c] evs]; simpl in Hout.
  - rewrite Hout in Hbad. discriminate Hbad.
  - destruct Hout as (_ & msg & ->). exists msg, evs. reflexivity.
  - destruct Hout.
Qed.

(** X13. A marker that is not of the form [service:port] makes
    [check_requirements] raise a [ValueError], which leaves [test_upload]
    before the file is looked for: no token is signed and no request is
    sent. The scenarios of [TESTS] have no such marker. *)
Theorem malformed_marker_raises w p cfg path h r evs :
  forallb marker_ok (UploadFlow.requires cfg) = false ->
  UploadFlow.test_upload w p cfg path h = (r, evs) ->
  (exists msg, r = Raised (ValueError msg)) /\
  signed evs = [] /\
  posted evs = [] /\
  Forall is_check evs /\
  forall key config,
    Py.lookup key UploadFlow.TESTS = Some config ->
    forallb marker_ok (UploadFlow.requires config) = true.
Proof.
  intros Hbad.
  unfold UploadFlow.test_upload. monad_unfold. simpl.
  match goal with
  | |- context [UploadFlow.check_requirements w p cfg ?h'] =>
      destruct (check_requirements_malformed w p cfg h' Hbad)
        as (msg & ec & Hc);
      pose proof (proj1 (check_requirements_confined _ _ _ _ _ _ Hc)) as Hconf;
      rewrite Hc
  end.
  simpl. intros [= <- <-].
  split; [exists msg; reflexivity |].
  assert (Hall : Forall is_check
                   (EvPrint (PyStr.repeat_str "=" 60)
                    :: EvPrint (UploadFlow.name cfg)
                    :: EvPrint (PyStr.repeat_str "=" 60)
                    :: EvPrint ("📤 API: " ++ UploadFlow.api_url cfg)
                    :: EvPrint ("🔧 sc2reader: " ++ UploadFlow.sc2reader_url cfg)
                    :: EvPrint ("📁 File: " ++ path)
                    :: EvPrint EmptyString :: ec))
    by (repeat (constructor; [exact I |]); exact Hconf).
  split; [exact (signed_check _ Hall) |].
  split; [exact (posted_check _ Hall) |].
  split; [exact Hall |].
  intros key config Hk.
  destruct (tests_scenarios key config Hk) as [-> | [-> | ->]]; reflexivity.
Qed.

Lemma malformed_marker_raises_witness :
  let cfg := {| UploadFlow.name := "Step 4: staging";
                UploadFlow.api_url := "http://localhost:3001";
                UploadFlow.sc2reader_url := "http://localhost:8001";
                UploadFlow.requires := ["next:3001"; "sc2reader"] |} in
  let run := UploadFlow.test_upload (sample_world (Responded sample_error_page))
               (sample_process ["test-upload-flow.py"; "4"]) cfg
               "/tmp/game.SC2Replay" [] in
  fst run = Raised (ValueError "not enough values to unpack (expected 2, got 1)") /\
  lsof_ports (snd run) = ["3001"] /\
  posted (snd run) = [].
Proof.
  intros cfg run.
  destruct (malformed_marker_raises _ _ cfg _ _ (fst run) (snd run)
              eq_refl (surjective_pairing run))
    as (_ & _ & Hp & _).
  split; [reflexivity |]. split; [reflexivity | exact Hp].
Defined.

(** ** When the token is signed *)

Ltac listening_parts :=
  repeat match goal with
    | H : Step1.interpret_response _ _ _ = (_, ?l) |- _ =>
        pose proof (all_listening_prints l
                      (proj1 (step1_interpret_response_confined _ _ _ _ _ H)));
        clear H
    | H : UploadFlow.interpret_response _ _ _ = (_, ?l) |- _ =>
        pose proof (all_listening_prints l
                      (proj1 (flow_interpret_response_confined _ _ _ _ _ H)));
        clear H
    | H : Step1.on_exception _ _ _ = (_, ?l) |- _ =>
        pose proof (all_listening_prints l
                      (proj1 (step1_on_exception_confined _ _ _ _ _ H)));
        clear H
    | H : UploadFlow.on_exception _ _ _ = (_, ?l) |- _ =>
        pose proof (all_listening_prints l
                      (proj1 (flow_on_exception_confined _ _ _ _ _ H)));
        clear H
    | H : UploadFlow.check_requirements _ _ _ _ = (Val true, ?l) |- _ =>
        pose proof (check_requirements_true _ _ _ _ _ H);
        clear H
    end.

Ltac listening_events :=
  listening_parts; unfold all_listening in *; simpl;
  repeat (rewrite ?forallb_app; simpl);
  repeat match goal with
    | H : forallb _ ?l = true |- _ => rewrite H; clear H; simpl
    end.

(** X14. The first script signs its token before it looks for the file:
    a run that found no file has signed one all the same. The second
    script signs only after every required port was found listening and
    the file was found. *)
Theorem signing_order :
  (forall w p path h r evs found,
     Step1.upload_replay w p path h = (r, evs) ->
     In (EvExists path found) evs ->
     exists tok, signed evs = [tok]) /\
  (forall w p cfg path h r evs,
     UploadFlow.test_upload w p cfg path h = (r, evs) ->
     signed evs <> [] ->
     In (EvExists path true) evs /\ all_listening evs = true).
Proof.
  split.
  - intros w p path h r evs found.
    unfold Step1.upload_replay, Step1.generate_token. monad_unfold.
    unfold negb. simpl. run_cases.
    all: intros Hrun Hin; injection Hrun as <- <-; in_cases Hin;
      try (absent Hin).
    all: eexists; signed_events; reflexivity.
  - intros w p cfg path h r evs.
    unfold UploadFlow.test_upload, UploadFlow.generate_token. monad_unfold.
    unfold negb. simpl. run_cases.
    all: intros Hrun Hs; injection Hrun as <- <-.
    all: try (exfalso; apply Hs; signed_events; reflexivity).
    all: split; [find_event | listening_events; reflexivity].
Qed.

Lemma signing_order_witness :
  let w := {| w_utcnow := fun _ => 1735689600000000%Z;
              w_lsof := fun _ _ => Some 0%Z;
              w_exists := fun _ _ => false;
              w_open := fun _ _ => Opened;
              w_post := fun _ _ => Responded sample_error_page;
              w_repr := fun _ => "<object>" |} in
  List.length (signed (snd (Step1.upload_replay w (sample_process ["step1.py"])
                              "/tmp/none" []))) = 1%nat /\
  signed (snd (UploadFlow.test_upload w (sample_process ["test-upload-flow.py"; "1"])
                 (scenario "1") "/tmp/none" [])) = [].
Proof.
  intros w. split.
  - set (run := Step1.upload_replay _ _ _ _).
    destruct (proj1 signing_order w _ "/tmp/none" [] (fst run) (snd run) false
                (surjective_pairing run)) as [tok ->].
    + in_list.
    + reflexivity.
  - reflexivity.
Defined.

(** ** Tokens *)

(** A token that was generated, in either script: what the run did and
    what the token carries. *)
Lemma token_run_shape w p tok evs :
  token_run w p (Val tok) evs ->
  exists t1 t2,
    evs = [EvUtcnow t1; EvUtcnow t2; EvJwtEncode tok] /\
    tok_alg tok = "HS256" /\
    userId (jwt_decode tok) = getenv_or p "TEST_USER_ID" "161384451518103552" /\
    type_ (jwt_decode tok) = "uploader" /\
    roles (jwt_decode tok) = [getenv_or p "TEST_ROLE_ID" "1386739785283928124"] /\
    iat (jwt_decode tok) = (t1 / 1000000)%Z /\
    exp (jwt_decode tok) = (t2 / 1000000 + 3600)%Z.
Proof.
  intros Hrun.
  remember (Val tok) as r eqn:Hr.
  destruct Hrun as [h r evs Hrun | h r evs Hrun]; subst r.
  - destruct (Step1.LOCAL_JWT_SECRET p) as [secret |] eqn:Hs.
    + rewrite (step1_generate_token_run w p h secret Hs) in Hrun.
      injection Hrun as <- <-.
      do 2 eexists. repeat split; reflexivity.
    + revert Hrun. unfold Step1.generate_token. monad_unfold.
      rewrite Hs. simpl. discriminate.
  - destruct (UploadFlow.AUTH_SECRET p) as [secret |] eqn:Hs.
    + destruct (String.eqb secret EmptyString) eqn:Hne.
      * revert Hrun. unfold UploadFlow.generate_token. monad_unfold.
        rewrite Hs. simpl. rewrite Hne. simpl. discriminate.
      * apply String.eqb_neq in Hne.
        rewrite (flow_generate_token_run w p h secret Hs Hne) in Hrun.
        injection Hrun as <- <-.
        do 2 eexists. repeat split; reflexivity.
    + revert Hrun. unfold UploadFlow.generate_token. monad_unfold.
      rewrite Hs. simpl. discriminate.
Qed.

(** X15. The lifetime of a generated token, in either script: the clock is
    read twice and nothing else happens before the signing; the expiry is
    3600 seconds after the issue plus the whole seconds that lie between
    the two readings. With a clock that does not go back the token lasts
    at least an hour, and when the second reading is less than a second
    after the first, at most 3601 seconds. *)
Theorem token_lifetime w p tok evs :
  token_run w p (Val tok) evs ->
  exists t1 t2,
    evs = [EvUtcnow t1; EvUtcnow t2; EvJwtEncode tok] /\
    (exp (jwt_decode tok) - iat (jwt_decode tok)
     = 3600 + (t2 / 1000000 - t1 / 1000000))%Z /\
    ((t1 <= t2)%Z ->
     (3600 <= exp (jwt_decode tok) - iat (jwt_decode tok))%Z) /\
    ((t2 < t1 + 1000000)%Z ->
     (exp (jwt_decode tok) - iat (jwt_decode tok) <= 3601)%Z).
Proof.
  intros Hrun.
  destruct (token_run_shape _ _ _ _ Hrun)
    as (t1 & t2 & He & _ & _ & _ & _ & Hi & Hx).
  exists t1, t2. rewrite Hi, Hx.
  split; [exact He |]. split; [lia |]. split.
  - intros Hle.
    pose proof (Z.div_le_mono t1 t2 1000000 eq_refl Hle). lia.
  - intros Hlt.
    assert (H : (t2 / 1000000 <= (t1 + 1 * 1000000) / 1000000)%Z)
      by (apply Z.div_le_mono; lia).
    rewrite Z.div_add in H by discriminate. lia.
Qed.

Lemma token_lifetime_witness :
  let w := ticking_world 1735689600250000%Z 1735689600750000%Z in
  let run := UploadFlow.generate_token w (sample_process ["script.py"]) [] in
  exists tok t1 t2,
    run = (Val tok, [EvUtcnow t1; EvUtcnow t2; EvJwtEncode tok]) /\
    (exp (jwt_decode tok) - iat (jwt_decode tok)
     = 3600 + (t2 / 1000000 - t1 / 1000000))%Z.
Proof.
  intros w run.
  assert (Hex : exists tok, run = (Val tok, snd run))
    by (eexists; vm_compute; reflexivity).
  destruct Hex as [tok Hr].
  destruct (token_lifetime w _ tok (snd run)
              (run_flow_generate_token _ _ _ _ _ Hr))
    as (t1 & t2 & He & Hd & _).
  exists tok, t1, t2. split; [rewrite <- He; exact Hr | exact Hd].
Defined.

(** X16. Whom a generated token names, in either script: the user of
    [TEST_USER_ID], or the default user when the variable is not set, as an
    [uploader], with the one role of [TEST_ROLE_ID] or the default role;
    it is signed with HS256 and is the one token the run signs. *)
Theorem token_identity w p tok evs :
  token_run w p (Val tok) evs ->
  tok_alg tok = "HS256" /\
  userId (jwt_decode tok) = getenv_or p "TEST_USER_ID" "161384451518103552" /\
  type_ (jwt_decode tok) = "uploader" /\
  roles (jwt_decode tok) = [getenv_or p "TEST_ROLE_ID" "1386739785283928124"] /\
  signed evs = [tok].
Proof.
  intros Hrun.
  destruct (token_run_shape _ _ _ _ Hrun)
    as (t1 & t2 & -> & Ha & Hu & Ht & Hr & _).
  repeat split; assumption || reflexivity.
Qed.

Lemma token_identity_witness :
  let p := {| environ := [("AUTH_SECRET", "s3cret"); ("TEST_USER_ID", "42")];
              home := "/Users/tester";
              argv := ["step1.py"] |} in
  let run := Step1.generate_token (sample_world (Responded sample_error_page)) p [] in
  exists tok, fst run = Val tok /\
              userId (jwt_decode tok) = "42" /\
              roles (jwt_decode tok) = ["1386739785283928124"].
Proof.
  intros p run.
  assert (Hex : exists tok, run = (Val tok, snd run))
    by (eexists; vm_compute; reflexivity).
  destruct Hex as [tok Hr].
  exists tok. split; [rewrite Hr; reflexivity |].
  destruct (token_identity _ p tok (snd run)
              (run_step1_generate_token _ _ _ _ _ Hr))
    as (_ & Hu & _ & Hro & _).
  split; [exact Hu | exact Hro].
Defined.

(** ** The scripts as started *)

Lemma chosen_replay_nth p n default :
  (if (n <? List.length (argv p))%nat then nth n (argv p) EmptyString
   else default) = chosen_replay p n default.
Proof.
  unfold chosen_replay.
  destruct (n <? List.length (argv p))%nat eqn:Hn.
  - apply Nat.ltb_lt in Hn.
    destruct (nth_error (argv p) n) as [x |] eqn:Hx.
    + exact (nth_error_nth _ _ _ Hx).
    + apply nth_error_None in Hx. lia.
  - apply Nat.ltb_ge in Hn. apply nth_error_None in Hn. rewrite Hn.
    reflexivity.
Qed.

Lemma all_is_no_step : Py.lookup "all" UploadFlow.TESTS = None.
Proof. reflexivity. Qed.

(** X17. The second script started wrongly only prints and exits with
    code 1, whatever the environment: without a step it prints the usage
    with the three steps; with a step that is neither [all] nor a key of
    [TESTS] it prints that the step is invalid. *)
Theorem bad_invocation_exits :
  (forall w p h,
     (List.length (argv p) < 2)%nat ->
     UploadFlow.main w p h = (Exited 1%Z, map EvPrint usage_lines)) /\
  (forall w p h,
     (2 <= List.length (argv p))%nat ->
     chosen_replay p 1 EmptyString <> "all" ->
     Py.lookup (chosen_replay p 1 EmptyString) UploadFlow.TESTS = None ->
     UploadFlow.main w p h =
     (Exited 1%Z,
      [EvPrint ("❌ Invalid step: " ++ chosen_replay p 1 EmptyString);
       EvPrint "   Valid steps: 1, 2, 3, all"])).
Proof.
  split.
  - intros w p h Hlen. unfold UploadFlow.main.
    apply Nat.ltb_lt in Hlen. rewrite Hlen. reflexivity.
  - intros w p h Hlen Hall Hkey. unfold UploadFlow.main.
    apply Nat.ltb_ge in Hlen. rewrite Hlen. cbv zeta.
    assert (Hstep : nth 1 (argv p) EmptyString = chosen_replay p 1 EmptyString).
    { rewrite <- (chosen_replay_nth p 1 EmptyString).
      destruct (1 <? List.length (argv p))%nat eqn:H1; [reflexivity |].
      apply Nat.ltb_ge in H1. apply Nat.ltb_ge in Hlen. lia. }
    rewrite Hstep. apply String.eqb_neq in Hall. rewrite Hall, Hkey.
    reflexivity.
Qed.

Lemma bad_invocation_exits_witness :
  UploadFlow.main (sample_world (Responded sample_error_page))
    (sample_process ["test-upload-flow.py"]) []
  = (Exited 1%Z, map EvPrint usage_lines) /\
  UploadFlow.main (sample_world (Responded sample_error_page))
    (sample_process ["test-upload-flow.py"; "4"]) []
  = (Exited 1%Z, [EvPrint "❌ Invalid step: 4";
                  EvPrint "   Valid steps: 1, 2, 3, all"]).
Proof.
  destruct bad_invocation_exits as [Husage Hstep]. split.
  - apply Husage. simpl. lia.
  - apply (Hstep _ (sample_process ["test-upload-flow.py"; "4"])).
    + simpl. lia.
    + discriminate.
    + reflexivity.
Defined.

(** X18. Started with a step that is a key of [TESTS], the second script
    runs the scenario under that key, once, on the replay file given as
    the next argument or on the default file, and nothing else; it exits
    with code 0 when the scenario returned [True] and with code 1 when it
    returned [False]. *)
Theorem single_step_runs_its_scenario w p h cfg r evs :
  Py.lookup (chosen_replay p 1 EmptyString) UploadFlow.TESTS = Some cfg ->
  UploadFlow.test_upload w p cfg
    (chosen_replay p 2 (UploadFlow.DEFAULT_REPLAY p)) h = (r, evs) ->
  UploadFlow.main w p h = (exit_with r, evs).
Proof.
  intros Hkey Hrun. unfold UploadFlow.main.
  destruct (List.length (argv p) <? 2)%nat eqn:Hlen.
  - exfalso. apply Nat.ltb_lt in Hlen. revert Hkey. unfold chosen_replay.
    destruct (nth_error (argv p) 1) as [x |] eqn:Hx; [| discriminate].
    assert (H : nth_error (argv p) 1 <> None) by congruence.
    apply nth_error_Some in H. lia.
  - cbv zeta. rewrite chosen_replay_nth.
    assert (Hstep : nth 1 (argv p) EmptyString = chosen_replay p 1 EmptyString).
    { rewrite <- (chosen_replay_nth p 1 EmptyString).
      destruct (1 <? List.length (argv p))%nat eqn:H1; [reflexivity |].
      apply Nat.ltb_ge in H1. apply Nat.ltb_ge in Hlen. lia. }
    rewrite Hstep.
    destruct (String.eqb (chosen_replay p 1 EmptyString) "all") eqn:Hall.
    + apply String.eqb_eq in Hall. rewrite Hall, all_is_no_step in Hkey.
      discriminate Hkey.
    + rewrite Hkey. unfold bind. rewrite Hrun.
      destruct r as [[|] | e | c]; unfold sys_exit; simpl;
        rewrite ?app_nil_r; reflexivity.
Qed.

Lemma single_step_runs_its_scenario_witness :
  let w := sample_world (PostRaised (ConnectionError "Connection refused")) in
  let p := sample_process ["test-upload-flow.py"; "2"; "/tmp/game.SC2Replay"] in
  fst (UploadFlow.main w p []) = Exited 1%Z /\
  snd (UploadFlow.main w p [])
  = snd (UploadFlow.test_upload w p (scenario "2") "/tmp/game.SC2Replay" []).
Proof.
  intros w p.
  set (run := UploadFlow.test_upload w p (scenario "2") "/tmp/game.SC2Replay" []).
  assert (Hr : run = (Val false, snd run)) by (vm_compute; reflexivity).
  rewrite (single_step_runs_its_scenario w p [] (scenario "2") (Val false)
             (snd run) eq_refl Hr).
  split; reflexivity.
Defined.

(** X19. With both secrets set, the first script prints its banner, runs
    [upload_replay] once, on the replay file given as its argument or on
    the default file, and exits with code 0 when the runner returned
    [True] and with code 1 when it returned [False]. *)
Theorem step1_script_runs_the_upload w p h r evs :
  Py.truthy_opt (getenv p "AUTH_SECRET") = true ->
  Py.truthy_opt (getenv p "SC2READER_API_KEY") = true ->
  Step1.upload_replay w p (chosen_replay p 1 (Step1.DEFAULT_REPLAY p))
    (h ++ map EvPrint step1_banner) = (r, evs) ->
  Step1.script w p h = (exit_with r, map EvPrint step1_banner ++ evs).
Proof.
  intros Hs Hk Hrun. unfold Step1.script.
  change (Step1.LOCAL_JWT_SECRET p) with (getenv p "AUTH_SECRET").
  change (Step1.SC2READER_API_KEY p) with (getenv p "SC2READER_API_KEY").
  rewrite Hs, Hk. cbv zeta. rewrite chosen_replay_nth.
  unfold negb, bind, print, sys_exit. simpl.
  repeat (rewrite <- app_assoc; simpl).
  unfold step1_banner in Hrun. simpl in Hrun. rewrite Hrun.
  destruct r as [[|] | e | c]; simpl; rewrite ?app_nil_r; reflexivity.
Qed.

Lemma step1_script_runs_the_upload_witness :
  let w := sample_world
             (Responded (sample_ok [("success", PBool true);
                                    ("replay", PDict [("id", PStr "r-42")])])) in
  let p := sample_process ["step1.py"; "/tmp/game.SC2Replay"] in
  fst (Step1.script w p []) = Exited 0%Z /\
  map EvPrint step1_banner = firstn 4 (snd (Step1.script w p [])).
Proof.
  intros w p.
  set (run := Step1.upload_replay w p "/tmp/game.SC2Replay"
                ([] ++ map EvPrint step1_banner)).
  assert (Hr : run = (Val true, snd run)) by (vm_compute; reflexivity).
  rewrite (step1_script_runs_the_upload w p [] (Val true) (snd run)
             eq_refl eq_refl Hr).
  split; reflexivity.
Defined.

(** An accepted upload stays one in a longer list of events. *)
Lemma uploaded_before w l1 l2 : uploaded w l1 -> uploaded w (l1 ++ l2).
Proof.
  intros (req & resp & body & id & Hin & Hs & Hj & Hok & Hid & H1 & H2).
  exists req, resp, body, id.
  repeat split; try assumption; rewrite !in_app_iff; tauto.
Qed.

Lemma uploaded_after w l1 l2 : uploaded w l2 -> uploaded w (l1 ++ l2).
Proof.
  intros (req & resp & body & id & Hin & Hs & Hj & Hok & Hid & H1 & H2).
  exists req, resp, body, id.
  repeat split; try assumption; rewrite !in_app_iff; tauto.
Qed.

(** The upload runner of the first script never exits; that of the second
    exits only with code 1, when the secret is missing. *)
Lemma step1_upload_no_exit w p path h c evs :
  Step1.upload_replay w p path h <> (Exited c, evs).
Proof.
  unfold Step1.upload_replay, Step1.generate_token.
  monad_unfold. unfold negb. simpl. run_cases.
  all: settle_parts.
  all: discriminate.
Qed.

Lemma flow_upload_exit_code w p cfg path h c evs :
  UploadFlow.test_upload w p cfg path h = (Exited c, evs) -> c = 1%Z.
Proof.
  unfold UploadFlow.test_upload, UploadFlow.generate_token.
  monad_unfold. unfold negb. simpl. run_cases.
  all: settle_parts.
  all: intros Hrun; first [discriminate Hrun | injection Hrun as <- _; reflexivity].
Qed.

(** The next scenario of a run of [main], with its outcome. *)
Ltac next_scenario :=
  match goal with
  | |- context [UploadFlow.test_upload ?w ?p ?c ?path ?h'] =>
      let H := fresh "Hrun" in
      destruct (UploadFlow.test_upload w p c path h') as [[[|] | ? | ?] ?] eqn:H;
      simpl
  end.

Ltac exit_code_one :=
  match goal with
  | H : UploadFlow.test_upload _ _ _ _ _ = (Exited ?c, _) |- _ =>
      apply flow_upload_exit_code in H; subst c
  end.

(** X20. Exit code 0 means an accepted upload, in both scripts: a script
    ends with code 0 only when a request of it was answered with status
    200 and a JSON record with a true [success] and a record [replay] with
    an [id]. *)
Theorem exit_zero_means_uploaded :
  (forall w p h evs,
     Step1.script w p h = (Exited 0%Z, evs) -> uploaded w evs) /\
  (forall w p h evs,
     UploadFlow.script w p h = (Exited 0%Z, evs) -> uploaded w evs).
Proof.
  split.
  - intros w p h evs. unfold Step1.script.
    destruct (negb (Py.truthy_opt (Step1.LOCAL_JWT_SECRET p)));
      [vm_compute; discriminate |].
    destruct (negb (Py.truthy_opt (Step1.SC2READER_API_KEY p)));
      [vm_compute; discriminate |].
    cbv zeta. rewrite chosen_replay_nth.
    unfold bind, print, sys_exit. simpl.
    match goal with
    | |- context [Step1.upload_replay w p ?path ?h'] =>
        destruct (Step1.upload_replay w p path h') as [[[|] | e | c] ev] eqn:Hrun
    end; simpl; try discriminate.
    + intros [= <-]. rewrite app_nil_r.
      apply (uploaded_after w [_; _; _; _]).
      exact (step1_true_uploaded _ _ _ _ _ Hrun).
    + exfalso. exact (step1_upload_no_exit _ _ _ _ _ _ Hrun).
  - intros w p h evs. unfold UploadFlow.script, UploadFlow.main.
    destruct (List.length (argv p) <? 2)%nat; [vm_compute; discriminate |].
    cbv zeta. rewrite chosen_replay_nth.
    set (path := chosen_replay p 2 (UploadFlow.DEFAULT_REPLAY p)).
    clearbody path.
    destruct (String.eqb (nth 1 (argv p) EmptyString) "all").
    + rewrite sorted_keys. simpl. unfold bind, lift, print, sys_exit, ret.
      simpl.
      repeat next_scenario.
      all: try discriminate.
      all: try (exit_code_one; discriminate).
      intros [= <-].
      repeat apply uploaded_before.
      exact (flow_true_uploaded _ _ _ _ _ _ Hrun).
    + destruct (Py.lookup (nth 1 (argv p) EmptyString) UploadFlow.TESTS)
        as [cfg |]; [| vm_compute; discriminate].
      unfold bind, sys_exit.
      next_scenario; try discriminate; try (exit_code_one; discriminate).
      intros [= <-]. rewrite app_nil_r.
      exact (flow_true_uploaded _ _ _ _ _ _ Hrun).
Qed.

Lemma exit_zero_means_uploaded_witness :
  let w := sample_world
             (Responded (sample_ok [("success", PBool true);
                                    ("replay", PDict [("id", PStr "r-42")])])) in
  let p := sample_process ["test-upload-flow.py"; "3"; "/tmp/game.SC2Replay"] in
  uploaded w (snd (UploadFlow.script w p [])).
Proof.
  intros w p.
  apply (proj2 exit_zero_means_uploaded w p []).
  vm_compute. reflexivity.
Defined.

(** ** A fingerprint that cannot be printed *)

Lemma fingerprint_error_attribute replay e :
  fingerprint_error replay = Some e ->
  isinstance_Timeout e = false /\ isinstance_ConnectionError e = false.
Proof.
  unfold fingerprint_error.
  destruct (Py.lookup "fingerprint" replay) as [[| b | z | f | s | l | fp] |];
    try discriminate;
    try (destruct (Py.truthy _); intros [= <-]; split; reflexivity).
  destruct fp as [| kv fp']; [discriminate |].
  destruct (Py.lookup "metadata" (kv :: fp')) as [[| | | | | |] |];
    intros [= <-]; split; reflexivity.
Qed.

Lemma step1_interpret_fingerprint_error w resp body replay id e h :
  status_code resp = 200%Z ->
  json resp = inr (PDict body) ->
  Py.truthy (field body "success") = true ->
  Py.lookup "replay" body = Some (PDict replay) ->
  Py.lookup "id" replay = Some id ->
  fingerprint_error replay = Some e ->
  exists said,
    Step1.interpret_response w resp h
    = (Raised e,
       EvPrint "Status: 200"
       :: EvPrint "✅ SUCCESS! Replay uploaded and analyzed"
       :: EvPrint ("   Replay ID: " ++ py_str w id) :: said).
Proof.
  intros Hs Hj Hok Hr Hid He. unfold fingerprint_error in He.
  interpret_unfold. rewrite Hs, Hj. simpl. rewrite Hok. simpl.
  rewrite Hr. simpl. rewrite Hid. simpl.
  destruct (Py.lookup "fingerprint" replay) as [v |]; [| discriminate He].
  destruct v as [| b | z | f | s | l | fp].
  1-6: match type of He with
       | (if ?c then _ else _) = _ =>
           destruct c eqn:Htr; [| discriminate He]
       end;
       injection He as <-; simpl in Htr |- *; try discriminate Htr;
       rewrite ?Htr; simpl; eexists; reflexivity.
  destruct fp as [| kv fp']; [discriminate He |]. cbv beta iota in He.
  change (Py.truthy (PDict (kv :: fp'))) with true. cbv beta iota.
  set (fp := kv :: fp') in *. clearbody fp. simpl.
  destruct (Py.lookup "metadata" fp) as [[| | | | | | md] |];
    try discriminate He; injection He as <-; eexists; reflexivity.
Qed.

Lemma flow_interpret_fingerprint_error w resp body replay id e h :
  status_code resp = 200%Z ->
  json resp = inr (PDict body) ->
  Py.truthy (field body "success") = true ->
  Py.lookup "replay" body = Some (PDict replay) ->
  Py.lookup "id" replay = Some id ->
  fingerprint_error replay = Some e ->
  exists said,
    UploadFlow.interpret_response w resp h
    = (Raised e,
       EvPrint "📊 Status: 200"
       :: EvPrint "✅ SUCCESS! Replay uploaded and analyzed"
       :: EvPrint ("   Replay ID: " ++ py_str w id) :: said).
Proof.
  intros Hs Hj Hok Hr Hid He. unfold fingerprint_error in He.
  interpret_unfold. rewrite Hs, Hj. simpl. rewrite Hok. simpl.
  rewrite Hr. simpl. rewrite Hid. simpl.
  destruct (Py.lookup "fingerprint" replay) as [v |]; [| discriminate He].
  destruct v as [| b | z | f | s | l | fp].
  1-6: match type of He with
       | (if ?c then _ else _) = _ =>
           destruct c eqn:Htr; [| discriminate He]
       end;
       injection He as <-; simpl in Htr |- *; try discriminate Htr;
       rewrite ?Htr; simpl; eexists; reflexivity.
  destruct fp as [| kv fp']; [discriminate He |]. cbv beta iota in He.
  change (Py.truthy (PDict (kv :: fp'))) with true. cbv beta iota.
  set (fp := kv :: fp') in *. clearbody fp. simpl.
  destruct (Py.lookup "metadata" fp) as [[| | | | | | md] |];
    try discriminate He; injection He as <-; eexists; reflexivity.
Qed.

(** X21. The line of success does not mean [True]. For a response with
    status 200, a true [success] and a record [replay] with an [id], whose
    fingerprint is true but no record, or has a metadata that is no record,
    the upload runner of either script prints the line of success and the
    identifier, then the error of the missing [get], and returns
    [False]. *)
Theorem unprintable_fingerprint_is_failure
  w r evs req resp body replay id e :
  upload_run w r evs ->
  In (EvPost req (Responded resp)) evs ->
  status_code resp = 200%Z ->
  json resp = inr (PDict body) ->
  Py.truthy (field body "success") = true ->
  Py.lookup "replay" body = Some (PDict replay) ->
  Py.lookup "id" replay = Some id ->
  fingerprint_error replay = Some e ->
  r = Val false /\
  In (EvPrint "✅ SUCCESS! Replay uploaded and analyzed") evs /\
  In (EvPrint ("   Replay ID: " ++ py_str w id)) evs /\
  (In (EvPrint ("❌ Error: " ++ exn_str e)) evs \/
   In (EvPrint ("❌ FAILED: " ++ exn_str e)) evs).
Proof.
  intros Hrun Hin Hs Hj Hok Hr Hid He.
  destruct (fingerprint_error_attribute _ _ He) as [Ht Hc].
  destruct Hrun as [p path h r evs Hrun | p cfg path h r evs Hrun].
  - destruct (step1_upload_posted _ _ _ _ _ _ _ _ Hrun Hin)
      as (pre & _ & ri & ei & Hi & -> & ->).
    destruct (step1_interpret_fingerprint_error w _ _ _ _ _ (h ++ pre)
                Hs Hj Hok Hr Hid He) as [said Hsaid].
    rewrite Hsaid in Hi. injection Hi as <- <-.
    rewrite (step1_on_exception_generic _ _ _ Hc).
    split; [reflexivity |]. split; [in_events |]. split; [in_events |].
    left. in_events.
  - destruct (flow_upload_posted _ _ _ _ _ _ _ _ _ Hrun Hin)
      as (pre & _ & ri & ei & Hi & -> & ->).
    destruct (flow_interpret_fingerprint_error w _ _ _ _ _ (h ++ pre)
                Hs Hj Hok Hr Hid He) as [said Hsaid].
    rewrite Hsaid in Hi. injection Hi as <- <-.
    rewrite (flow_on_exception_generic _ _ _ Ht Hc).
    split; [reflexivity |]. split; [in_events |]. split; [in_events |].
    right. in_events.
Qed.

Lemma unprintable_fingerprint_is_failure_witness :
  let resp := sample_ok [("success", PBool true);
                         ("replay",
                          PDict [("id", PStr "r-42");
                                 ("fingerprint",
                                  PDict [("matchup", PStr "TvZ");
                                         ("metadata", PStr "Tokamak LE")])])] in
  let run := UploadFlow.test_upload (sample_world (Responded resp))
               (sample_process ["test-upload-flow.py"; "3"]) (scenario "3")
               "/tmp/game.SC2Replay" [] in
  fst run = Val false /\
  In (EvPrint "✅ SUCCESS! Replay uploaded and analyzed") (snd run) /\
  In (EvPrint "❌ FAILED: 'str' object has no attribute 'get'") (snd run).
Proof.
  intros resp run.
  assert (Hin : exists req, In (EvPost req (Responded resp)) (snd run))
    by (eexists; in_list).
  destruct Hin as [req Hin].
  destruct (unprintable_fingerprint_is_failure _ _ _ req resp _ _ (PStr "r-42") _
              (run_test_upload _ _ _ _ _ _ _ (surjective_pairing run)) Hin
              eq_refl eq_refl eq_refl eq_refl eq_refl eq_refl)
    as (Hr & Hok & _ & [He | He]).
  - split; [exact Hr |]. split; [exact Hok |]. in_list.
  - split; [exact Hr |]. split; [exact Hok | exact He].
Defined.

(** ** Any scenario *)

Ltac lsof_parts :=
  repeat match goal with
    | H : Step1.interpret_response _ _ _ = (_, ?l) |- _ =>
        pose proof (lsof_ports_prints l
                      (proj1 (step1_interpret_response_confined _ _ _ _ _ H)));
        clear H
    | H : UploadFlow.interpret_response _ _ _ = (_, ?l) |- _ =>
        pose proof (lsof_ports_prints l
                      (proj1 (flow_interpret_response_confined _ _ _ _ _ H)));
        clear H
    | H : Step1.on_exception _ _ _ = (_, ?l) |- _ =>
        pose proof (lsof_ports_prints l
                      (proj1 (step1_on_exception_confined _ _ _ _ _ H)));
        clear H
    | H : UploadFlow.on_exception _ _ _ = (_, ?l) |- _ =>
        pose proof (lsof_ports_prints l
                      (proj1 (flow_on_exception_confined _ _ _ _ _ H)));
        clear H
    end.

Ltac lsof_events :=
  lsof_parts; unfold lsof_ports in *; simpl;
  repeat (rewrite ?flat_map_app; simpl);
  repeat match goal with
    | H : flat_map _ ?l = _ |- _ => rewrite H; clear H; simpl
    end;
  rewrite ?app_nil_r.

(** X22. Any scenario whose markers have the form [service:port]: a run of
    [test_upload] asks [lsof] about the port of each marker, in order, and
    about nothing else. When some answer found no listener, the run
    returns [False] having only printed and asked [lsof]: the file is not
    looked for, no token is signed and no request is sent. When every
    answer found one, the file is looked for. *)
Theorem closed_port_stops_any_scenario w p cfg path h r evs :
  forallb marker_ok (UploadFlow.requires cfg) = true ->
  UploadFlow.test_upload w p cfg path h = (r, evs) ->
  lsof_ports evs = map port_of (UploadFlow.requires cfg) /\
  (all_listening evs = false ->
   r = Val false /\ Forall is_check evs /\ signed evs = [] /\ posted evs = []) /\
  (all_listening evs = true -> exists found, In (EvExists path found) evs).
Proof.
  intros Hok.
  unfold UploadFlow.test_upload, UploadFlow.generate_token. monad_unfold.
  unfold negb. simpl.
  match goal with
  | |- context [UploadFlow.check_requirements w p cfg ?h'] =>
      destruct (UploadFlow.check_requirements w p cfg h') as [rc ec] eqn:Hc;
      destruct (check_requirements_run w p cfg h' rc ec Hok Hc)
        as (Hp & -> & _);
      pose proof (proj1 (check_requirements_confined _ _ _ _ _ _ Hc)) as Hconf
  end.
  destruct (all_listening ec) eqn:Hl; simpl.
  - run_cases.
    all: intros Hrun; injection Hrun as <- <-.
    all: split; [lsof_events; reflexivity |].
    all: split; [| intros _; eexists; find_event].
    all: intros Hno; exfalso; revert Hno.
    all: listening_events; discriminate.
  - intros [= <- <-].
    assert (Hall : Forall is_check
                     (EvPrint (PyStr.repeat_str "=" 60)
                      :: EvPrint (UploadFlow.name cfg)
                      :: EvPrint (PyStr.repeat_str "=" 60)
                      :: EvPrint ("📤 API: " ++ UploadFlow.api_url cfg)
                      :: EvPrint ("🔧 sc2reader: " ++ UploadFlow.sc2reader_url cfg)
                      :: EvPrint ("📁 File: " ++ path)
                      :: EvPrint EmptyString :: ec ++ []))
      by (rewrite app_nil_r; repeat (constructor; [exact I |]); exact Hconf).
    split; [lsof_events; reflexivity |].
    split.
    + intros _. split; [reflexivity |]. split; [exact Hall |].
      split; [exact (signed_check _ Hall) | exact (posted_check _ Hall)].
    + unfold all_listening in *. simpl. rewrite forallb_app, Hl. discriminate.
Qed.

Lemma closed_port_stops_any_scenario_witness :
  let w := {| w_utcnow := fun _ => 1735689600000000%Z;
              w_lsof := fun _ port => if String.eqb port "8001" then None
                                      else Some 0%Z;
              w_exists := fun _ _ => true;
              w_open := fun _ _ => Opened;
              w_post := fun _ _ => Responded sample_error_page;
              w_repr := fun _ => "<object>" |} in
  let cfg := {| UploadFlow.name := "Step 4: staging";
                UploadFlow.api_url := "http://localhost:3001";
                UploadFlow.sc2reader_url := "http://localhost:8001";
                UploadFlow.requires := ["next:3001"; "sc2reader:8001"] |} in
  let run := UploadFlow.test_upload w (sample_process ["test-upload-flow.py"; "4"])
               cfg "/tmp/game.SC2Replay" [] in
  lsof_ports (snd run) = ["3001"; "8001"] /\
  fst run = Val false /\
  posted (snd run) = [].
Proof.
  intros w cfg run.
  destruct (closed_port_stops_any_scenario w
              (sample_process ["test-upload-flow.py"; "4"]) cfg
              "/tmp/game.SC2Replay" [] (fst run) (snd run)
              eq_refl (surjective_pairing run))
    as (Hp & Hno & _).
  destruct (Hno eq_refl) as (Hr & _ & _ & Hpost).
  split; [exact Hp |]. split; [exact Hr | exact Hpost].
Defined.

(** ** How a scenario can end *)

(** How a scenario of [TESTS] can end: it returns a boolean; or, without
    the signing secret, the process exits in it with code 1, no token
    signed and no request sent; or the error of [open] leaves it, no
    request sent. *)
Lemma scenario_outcomes w p key cfg path h r evs :
  Py.lookup key UploadFlow.TESTS = Some cfg ->
  UploadFlow.test_upload w p cfg path h = (r, evs) ->
  (exists b, r = Val b) \/
  (r = Exited 1%Z /\
   Py.truthy_opt (UploadFlow.AUTH_SECRET p) = false /\
   signed evs = [] /\ posted evs = []) \/
  (exists msg,
     r = Raised (OSError msg) /\
     In (EvOpen path (OpenFailed msg)) evs /\ posted evs = []).
Proof.
  intros Hcfg.
  assert (Hok : forallb marker_ok (UploadFlow.requires cfg) = true)
    by (destruct (tests_scenarios key cfg Hcfg) as [-> | [-> | ->]]; reflexivity).
  clear Hcfg.
  unfold UploadFlow.test_upload, UploadFlow.generate_token. monad_unfold.
  unfold negb. simpl.
  match goal with
  | |- context [UploadFlow.check_requirements w p cfg ?h'] =>
      destruct (UploadFlow.check_requirements w p cfg h') as [rc ec] eqn:Hc;
      destruct (check_requirements_run w p cfg h' rc ec Hok Hc)
        as (_ & -> & _)
  end.
  destruct (all_listening ec); simpl;
    [| intros [= <- <-]; left; eexists; reflexivity].
  destruct (Py.truthy_opt (UploadFlow.AUTH_SECRET p)) eqn:Hs; simpl.
  - destruct (UploadFlow.AUTH_SECRET p) as [secret |]; [| discriminate Hs].
    simpl. run_cases.
    all: settle_parts.
    all: intros Hrun; injection Hrun as <- <-.
    all: try (left; eexists; reflexivity).
    all: right; right; eexists; split; [reflexivity |].
    all: split; [find_event | posted_events; reflexivity].
  - run_cases.
    all: intros Hrun; injection Hrun as <- <-.
    all: try (left; eexists; reflexivity).
    all: right; left.
    all: split; [reflexivity |]; split; [reflexivity |].
    all: split; [signed_events; reflexivity | posted_events; reflexivity].
Qed.
